(* ===== verification/_CoqProject ===== *)
-Q . S2P
Prelude.v
Dates.v
Runtime.v
Model.v
Store.v
State.v
I18n.v
Effects.v
Sample.v
Auth.v
Catalog.v
Orders.v
Reports.v
Ledger.v
Settlement.v
Export.v
Staff.v
View.v
System.v
RevB.v
RevA.v
