(* ===== verification/Prelude.v ===== *)
(** * RestoDash (puntrms): a verification development

    The program is a single-page restaurant management application
    (React + Firebase Realtime Database).  The repository holds three
    revisions of its one component, [App]:

    - revision A, [src/src/App.tsx] lines 1756-3067 (orders are paid or on
      loan, no activity log);
    - revision B, [src/src/App.tsx] lines 1-1755 (pending orders, the name
      of who collected, activity log, session);
    - revision C, [src/unnamed/part_000] (roles, stock, loan ledger, order
      numbers, localisation); this is the revision the specification
      describes.

    This file is the prelude of the library: the notations, tactics, hint
    database and the generic lemmas the component files share, and the model
    of the JavaScript built-ins the program calls on strings, arrays and
    objects.

    ** The program and the files that model it

    [App()] keeps its state in [useState] cells, subscribes to five
    collections of the store ([users], [items], [orders], [log],
    [loanCustomers]) and caches what they deliver, derives the values of a
    render from the cache, and changes the store in its event handlers by
    [push], [set], [update] and [remove], whose promises run callbacks on
    completion.  Several browsers run it on one store.

    - [Dates]: the proleptic Gregorian calendar (days to and from civil
      dates), which the [Date] accessors are defined by.
    - [Runtime]: the accessors of a [Date] on a time value, [toISOString],
      [Date.UTC], [setUTCDate], [setHours]; the class [JsRuntime] of what
      the host supplies ([Number], [Date.parse], the offset of local time)
      and the host [isoRuntime] the examples run on.
    - [Model]: the TypeScript types, one record each.
    - [Store]: the database (five collections of stored records), [set],
      [update], [remove] on a collection, and the decoding of a snapshot by
      each [onValue] callback.
    - [State]: [AppState], one field per [useState], [initialState],
      [closeOverlays].
    - [I18n]: [TRANSLATIONS], [tr], [ROLE_LABEL], [statusLabel].
    - [Effects]: the store calls as the type [Write] with their effect
      [applyWrite]; a handler is a function from the state (and [Env]: the
      clock and the key [push] generates) to an [Outcome]: the state after
      its setter calls, the store calls started with their [then], [catch]
      and [finally] callbacks, and what it did to the session entry of
      [localStorage].
    - [Auth]: [normalizePhone], [handleLogin], [handleLogout], the session
      effect.
    - [Catalog]: [addItem], [updateItem], [deleteItem], [updateItemStock].
    - [Orders]: the derived values ([metrics], [orderTotal], [nextOrderId],
      [ordersFiltered], [orderListSorted], the charts), [updateDraftQty] and
      [handleCreateOrder].
    - [Staff]: [addWaiter], [resetWaiterPin], [updateWaiterProfile],
      [deleteWaiter], [renderLogMessage]; the buttons of the staff screen, of
      its row menu and of its dialogs, one definition per [onClick], and
      [staffHandle], which guards each by the condition it is rendered
      under; [staffStep], the screen as a transition system whose steps are
      a click and the completion of a store call.
    - [Export]: [exportReportCSV] and [printReport], the text of the CSV
      file and of the HTML document.
    - [Reports]: [getWeekId], [reportRows], the totals of the screen and of
      the exports.
    - [Ledger]: [addLoanCustomer], [addLoanEntry], [addLoanEntryForOrder],
      and the ledger of the store with invariant I1.
    - [Settlement]: [updateOrderStatus], [handleStatusChange],
      [confirmLoanStatus].
    - [View]: the root of the tree [App()] returns, the sidebar, the tab
      bar and the top bar with the [onClick] of their buttons, and the
      conditions the staff and reports pages are rendered under.
    - [System]: the subscription callbacks; [Action], the inputs of a user
      (a value typed into a field of the sign-in form, a click on a
      button), and [handle], which gives each input the setter or the
      handler the source binds to it, by the root of the tree that is
      rendered; and several clients on one store: a [World] is the database
      and the clients, an [Event] is an input, the completion of a client's
      oldest pending store call, or the delivery of a snapshot, and [run]
      executes a list of events.  [run] is what the examples are computed
      with; the theorems are about the handlers and [handle].
    - [Sample]: the data of the examples and witnesses.
    - [RevB], [RevA]: revisions B and A of [App], each in a module of its
      name, on the records of [Model], [Store] and [State] (a member or a
      state cell a revision does not have is left at its initial value).
      Every function of [App()] before the JSX is a definition of the
      module, and of the JSX the root of the tree, the navigation and the
      conditions of the pages; it is written out where the code of the
      revision differs
      from revision C, and names the definition of C where the code is the
      same.  [reportRows] of these revisions returns an option: it throws
      on an order whose time does not parse.

    ** What the theorems show

    - Reports: a row's counters add up (I4); the rows are the group-by of
      the filtered orders by period; the total row loses and duplicates
      nothing; the filter is the date range and status filter of the
      specification; [getWeekId] is the ISO-8601 week.
    - Ledger and settlement: an entry written for an order that has none
      keeps I1, and the check that guards it looks at one customer only, so
      I1 is lost sequentially, and in the race of any two collectors
      whatever the order in which the store applies their writes; the two
      writes of a loan are not atomic; no handler changes an entry of the
      ledger as long as the generated keys are new (I3); an order created
      by [handleCreateOrder] cannot be settled, because it is stored under
      a generated key and settled under its order number.
    - Access: a user who is not an administrator never leaves the four
      tabs of the tab bar; but for every state and every next user, the
      dialogs of the staff screen survive a sign-out and the sign-in, and
      their buttons write for whoever is signed in.
    - Auth: who is signed in has the PIN typed; a stored session restores
      its user within the hour and nobody after it; a blank phone field
      disables the phone check.
    - Catalog: the writes of the items screen keep every stored item valid,
      except a stock update that arrives after a removal.
    - Orders: [nextOrderId] is fresh for the cached orders, and any two
      clients with the same cached orders store two orders of one number;
      the sorted list is a permutation ordered by status priority.
    - Staff: a user is written under the key it is stored under; along
      every run of [staffStep] the dialogs hold users of rows that are not
      locked, so that, in a browser that has received the users of the
      store, what a click writes leaves the stored record of every
      administrator other than the signed-in user as it is.
    - Export: the CSV file can be read back to the rows and their total.
    - Revisions: B's report is C's when every time parses and throws when
      one does not; an order created in B or A is settled under the key it
      is stored under (which C lost); a user created in B is stored under
      a key its [id] is not, so the staff handlers miss it (which C
      repaired); A's rows count every order as paid or loan.

    ** Bounds

    Nothing in the model needs fuel: every loop of the program is a [map],
    [filter], [reduce], [find] or [sort] over a list.  The round trip of
    [toISOString] and [Date.parse] holds for the years 0 to 9999, which
    [toISOString] prints with four digits; [Date.UTC] is modelled for years
    from 100 on (it maps the years 0 to 99 to 1900-1999).

    ** Not modelled

    The JSX of the three revisions (markup, class names and styling; the
    event handlers bound in it are modelled where a theorem is about them:
    the total row of the reports screen, the buttons of the staff screen,
    the navigation, the sign-in form and the radio buttons of the loan
    dialog), [formatDateTime] (locale data of the host), the [chart.js]
    configuration, and Firebase and React themselves: the store is its
    collections and the effect of a call on them, a [useState] cell is a
    field, a [useMemo] is a function of the state.  The style sheet is not
    among the sources: an element that is in the returned tree counts as
    one the user can reach, as it is by the keyboard.  In [Staff] the
    snapshots of the store, the sign-in and the sign-out are not steps of
    [staffStep]: its theorem is about the clicks of one session between
    two snapshots of the users ([System.dialog_survives_logout] shows what
    a sign-out in between breaks).

    ** Conventions of the model

    These bound what the theorems say of the program.

    - A JavaScript [number] is a [Z].  The model covers the executions in
      which every number is an integer (the safe integers of IEEE-754, on
      which JavaScript arithmetic is exact): prices, amounts and totals
      without cents, order numbers below 2^53.  [toFixed2] is
      [toFixed(2)] on such a number, which prints [.00]; the rounding of a
      fraction is not modelled.  [NaN] is [None] where the code tests for
      it.
    - A JavaScript string is a [string] of bytes.  [toLowerCase] and [trim]
      act on the ASCII range.
    - An object used as a dictionary and a [Map] are association lists in
      insertion order, which is the order [Object.entries] and [Map]
      iteration follow for keys that are not array indices.  A collection
      of the store is its children in the order they were created, where
      Firebase delivers them by key: the two agree for the keys [push]
      generates, which grow with time, and may differ for children the
      program creates under an identifier of its own ([update] on
      [orders/order007] after [orders/order012]).  The order matters to a
      first match only ([find] in [handleLogin]); no theorem depends on
      which of two matching users comes first.
    - A stored record has the members the program writes.  In particular a
      stored user has no member [dbId]: the subscription spreads the rest
      of the record after the key, so such a member, which no handler
      writes, would replace the key in the list.
    - [Array.prototype.sort] is the stable insertion sort [sortBy]; a [NaN]
      result of the comparator counts as 0, as ECMAScript prescribes.  The
      result is the one ECMAScript prescribes whenever the comparator is
      consistent; with an inconsistent one (the time comparators, when
      some time does not parse) ECMAScript leaves the order to the
      implementation, and the model fixes the insertion sort. *)

From Stdlib Require Export ZArith Lia List.
From Stdlib Require Import DecimalString DecimalZ.
From Stdlib Require Import Ascii OrderedTypeEx.
From stdpp Require Export base tactics option list strings numbers sorting.
From coqutil Require Export Datatypes.RecordSetters.
Export RecordSetters.TriangleBracketNotations.
Abbreviation ascii := Ascii.ascii.
Delimit Scope char_scope with char.
String Notation Ascii.ascii Ascii.ascii_of_byte Ascii.byte_of_ascii : char_scope.

#[global] Open Scope Z_scope.

(** ** Notation: nullish coalescing and optional chaining *)

Declare Scope js_scope.
Delimit Scope js_scope with js.

(** [o ?? d] is JavaScript's [o ?? d]: the value of [o] unless it is
    [undefined] or [null]. *)
Notation "o ?? d" := (default d o) (at level 45, left associativity) : js_scope.

(** [o ?. f] is [o?.f]: the field [f] of [o], or [undefined]. *)
Notation "o ?. f" := (fmap (M := option) f o) (at level 44, left associativity) : js_scope.

#[global] Open Scope js_scope.

(** ** Hint database and tactics of the development *)

Create HintDb js discriminated.
Create Rewrite HintDb js.

(** [case_if] splits on the first [if] (or [decide], [bool_decide]) of the
    goal. *)
Ltac case_if :=
  match goal with
  | |- context [if ?b then _ else _] => destruct b eqn:?
  end.

(** [js_simpl] unfolds record updates and simplifies. *)
Ltac js_simpl :=
  repeat (progress (cbn [apply_update constant] in *; simpl in *)).

Ltac js_auto := js_simpl; eauto with js.

(** [by_compute] proves a decidable proposition on closed terms by
    evaluating its decision procedure. *)
Ltac by_compute := apply (bool_decide_unpack _); vm_compute; reflexivity.

(** ** Sums over arrays: [reduce((s, x) => s + f(x), 0)] *)

Section Sum.
Context {A : Type}.
Implicit Types (f : A -> Z) (l : list A).

Definition sumOf f l : Z := fold_left (fun s x => s + f x) l 0.

Lemma fold_left_add_acc f l (a : Z) :
  fold_left (fun s x => s + f x) l a = a + fold_left (fun s x => s + f x) l 0.
Proof.
  revert a. induction l as [|x l IH]; intros a; simpl; [lia|].
  rewrite (IH (a + f x)), (IH (0 + f x)). lia.
Qed.

Lemma sumOf_nil f : sumOf f [] = 0.
Proof. reflexivity. Qed.

Lemma sumOf_cons f x l : sumOf f (x :: l) = f x + sumOf f l.
Proof. unfold sumOf. simpl. rewrite fold_left_add_acc. lia. Qed.

Lemma sumOf_app f l1 l2 : sumOf f (l1 ++ l2) = sumOf f l1 + sumOf f l2.
Proof.
  induction l1 as [|x l1 IH]; simpl; [by rewrite sumOf_nil|].
  rewrite !sumOf_cons, IH. lia.
Qed.

Lemma sumOf_perm f l1 l2 : l1 ≡ₚ l2 -> sumOf f l1 = sumOf f l2.
Proof.
  induction 1 as [|x l1 l2 _ IH|x y l|l1 l2 l3 _ IH1 _ IH2];
    rewrite ?sumOf_cons; lia.
Qed.

Lemma sumOf_ext f g l : (forall x, x ∈ l -> f x = g x) -> sumOf f l = sumOf g l.
Proof.
  induction l as [|x l IH]; intros H; [done|].
  rewrite !sumOf_cons, IH, (H x); [done|by left|].
  intros y Hy. apply H. by right.
Qed.

Lemma sumOf_nonneg f l : (forall x, x ∈ l -> 0 <= f x) -> 0 <= sumOf f l.
Proof.
  induction l as [|x l IH]; intros H; [by rewrite sumOf_nil|].
  rewrite sumOf_cons.
  assert (0 <= f x) by (apply H; by left).
  assert (0 <= sumOf f l) by (apply IH; intros y Hy; apply H; by right).
  lia.
Qed.

Lemma sumOf_zero f l : (forall x, x ∈ l -> f x = 0) -> sumOf f l = 0.
Proof.
  induction l as [|x l IH]; intros H; [done|].
  rewrite sumOf_cons, IH, (H x); [done|by left|].
  intros y Hy. apply H. by right.
Qed.

Lemma sumOf_const_one l : sumOf (fun _ => 1) l = Z.of_nat (length l).
Proof. induction l as [|x l IH]; [done|]. rewrite sumOf_cons. simpl length. lia. Qed.

(** [filter(p).length] as a sum of indicators. *)
Lemma length_filter_sumOf (p : A -> bool) l :
  Z.of_nat (length (List.filter p l)) = sumOf (fun x => if p x then 1 else 0) l.
Proof.
  induction l as [|x l IH]; [done|].
  rewrite sumOf_cons. simpl. destruct (p x); simpl; lia.
Qed.

End Sum.

Lemma sumOf_map {A B} (g : A -> B) (f : B -> Z) l :
  sumOf f (map g l) = sumOf (fun x => f (g x)) l.
Proof. induction l; [done|]. simpl. rewrite !sumOf_cons. congruence. Qed.

#[export] Hint Rewrite @sumOf_nil @sumOf_cons @sumOf_app : js.

(** ** Objects used as dictionaries, and [Map]: association lists

    [aset m k v] is [m[k] = v] (and [Map.prototype.set]): an existing key
    keeps its place, a new key goes last.  [adelete m k] is [delete m[k]]. *)

Section Assoc.
Context {V : Type}.
Implicit Types (m : list (string * V)) (k : string) (v : V).

Fixpoint alookup m k : option V :=
  match m with
  | [] => None
  | (k', v) :: m' => if decide (k' = k) then Some v else alookup m' k
  end.

Fixpoint aset m k v : list (string * V) :=
  match m with
  | [] => [(k, v)]
  | (k', v') :: m' =>
      if decide (k' = k) then (k, v) :: m' else (k', v') :: aset m' k v
  end.

Definition adelete m k : list (string * V) :=
  filter (fun kv => kv.1 <> k) m.

(** [Object.fromEntries]: a later entry of a key overwrites the earlier. *)
Definition fromEntries (l : list (string * V)) : list (string * V) :=
  fold_left (fun m kv => aset m kv.1 kv.2) l [].

Lemma alookup_aset_eq m k v : alookup (aset m k v) k = Some v.
Proof.
  induction m as [|[k' v'] m IH]; simpl; repeat case_decide; simpl;
    repeat case_decide; congruence.
Qed.

Lemma alookup_aset_ne m k k' v : k <> k' -> alookup (aset m k v) k' = alookup m k'.
Proof.
  intros Hne. induction m as [|[k0 v0] m IH]; simpl; repeat case_decide; simpl;
    repeat case_decide; congruence.
Qed.

Lemma alookup_aset m k k' v :
  alookup (aset m k v) k' = if decide (k = k') then Some v else alookup m k'.
Proof.
  case_decide; [subst; apply alookup_aset_eq|by apply alookup_aset_ne].
Qed.

Lemma alookup_None m k : alookup m k = None <-> k ∉ m.*1.
Proof.
  induction m as [|[k' v'] m IH]; simpl.
  - split; [intros _; apply not_elem_of_nil|done].
  - rewrite not_elem_of_cons. case_decide; [|rewrite IH]; intuition congruence.
Qed.

Lemma alookup_Some_elem m k v : alookup m k = Some v -> (k, v) ∈ m.
Proof.
  induction m as [|[k' v'] m IH]; simpl; [done|].
  case_decide; intros; simplify_eq; [left|right; auto].
Qed.

Lemma elem_alookup_NoDup m k v : NoDup m.*1 -> (k, v) ∈ m -> alookup m k = Some v.
Proof.
  induction m as [|[k' v'] m IH]; simpl; [by intros _ ?%elem_of_nil|].
  intros [Hk Hnd]%NoDup_cons [Heq|Hin]%elem_of_cons; simplify_eq.
  - by rewrite decide_True.
  - rewrite decide_False; [auto|]. intros ->. apply Hk.
    apply list_elem_of_fmap. by exists (k, v).
Qed.

Lemma aset_keys_in m k v : k ∈ m.*1 -> (aset m k v).*1 = m.*1.
Proof.
  induction m as [|[k' v'] m IH]; simpl; [by intros ?%elem_of_nil|].
  intros [->|Hin]%elem_of_cons; case_decide; simplify_eq/=; f_equal; auto.
Qed.

Lemma aset_keys_notin m k v : k ∉ m.*1 -> (aset m k v).*1 = m.*1 ++ [k].
Proof.
  induction m as [|[k' v'] m IH]; simpl; [done|].
  intros [? ?]%not_elem_of_cons. rewrite decide_False by done. simpl.
  f_equal; auto.
Qed.

Lemma aset_NoDup m k v : NoDup m.*1 -> NoDup (aset m k v).*1.
Proof.
  intros Hnd. destruct (decide (k ∈ m.*1)) as [Hin|Hin].
  - by rewrite aset_keys_in.
  - rewrite aset_keys_notin by done. apply NoDup_app. split_and!; [done| |].
    + intros x Hx ->%list_elem_of_singleton. done.
    + apply NoDup_singleton.
Qed.

Lemma alookup_adelete m k k' :
  alookup (adelete m k) k' = if decide (k = k') then None else alookup m k'.
Proof.
  unfold adelete. induction m as [|[k0 v0] m IH]; [by case_decide|].
  rewrite filter_cons. simpl.
  destruct (decide (k0 <> k)) as [Hne|Heq%dec_stable]; simpl; rewrite IH;
    repeat (case_decide; simplify_eq/=); done.
Qed.

Lemma adelete_NoDup m k : NoDup m.*1 -> NoDup (adelete m k).*1.
Proof.
  unfold adelete. induction m as [|[k0 v0] m IH]; [done|].
  rewrite filter_cons. simpl. intros [Hk Hnd]%NoDup_cons.
  case_decide; simpl; [|auto]. apply NoDup_cons. split; [|auto].
  intros (kv & -> & [_ Hin]%list_elem_of_filter)%list_elem_of_fmap. apply Hk.
  apply list_elem_of_fmap. by exists kv.
Qed.

Lemma aset_notin m k v : k ∉ m.*1 -> aset m k v = m ++ [(k, v)].
Proof.
  induction m as [|[k' v'] m IH]; simpl; [done|].
  rewrite not_elem_of_cons. intros [Hne Hin]. rewrite decide_False by done.
  by rewrite IH.
Qed.

Lemma aset_Forall (P : string * V -> Prop) m k v :
  Forall P m -> P (k, v) -> Forall P (aset m k v).
Proof.
  intros Hm Hv. induction Hm as [|[k' v'] m Hk Hm IH]; simpl.
  - by repeat constructor.
  - case_decide; constructor; auto.
Qed.

Lemma alookup_Forall (P : string * V -> Prop) m k v :
  Forall P m -> alookup m k = Some v -> P (k, v).
Proof.
  intros Hm E%alookup_Some_elem. by apply (proj1 (Forall_forall _ _) Hm).
Qed.

Lemma adelete_Forall (P : string * V -> Prop) m k :
  Forall P m -> Forall P (adelete m k).
Proof.
  unfold adelete. induction 1 as [|x m Hx Hm IH]; [done|].
  rewrite filter_cons. case_decide; auto.
Qed.

Lemma alookup_is_Some m k : k ∈ m.*1 -> is_Some (alookup m k).
Proof.
  intros Hin. destruct (alookup m k) eqn:E; [eauto|]. by apply alookup_None in E.
Qed.

(** Writing a key changes a sum over the values by the difference of the
    new value and the one it replaces. *)
Lemma sumOf_aset (f : V -> Z) m k v :
  sumOf (fun kv => f kv.2) (aset m k v) =
  sumOf (fun kv => f kv.2) m - ((alookup m k ?. f) ?? 0) + f v.
Proof.
  induction m as [|[k' v'] m IH]; simpl.
  - rewrite sumOf_cons, !sumOf_nil. simpl. lia.
  - case_decide; rewrite !sumOf_cons; simpl; [lia|]. rewrite IH. lia.
Qed.

End Assoc.

(** The values of a dictionary of lists, concatenated: writing a key with
    one more element adds that element. *)
Section Flat.
Context {V B : Type} (f : V -> list B).
Implicit Types (m : list (string * V)).

Definition flat m : list B := concat (map (fun kv => f kv.2) m).

Lemma flat_aset m k v (blank : V) x :
  f blank = [] ->
  f v ≡ₚ x :: f (alookup m k ?? blank) ->
  flat (aset m k v) ≡ₚ x :: flat m.
Proof.
  intros Hb Hv. unfold flat. induction m as [|[k' v'] m IH]; simpl in *.
  - rewrite Hb in Hv. by rewrite app_nil_r, Hv.
  - case_decide; simpl.
    + by rewrite Hv.
    + rewrite IH by done. by rewrite Permutation_middle.
Qed.

End Flat.

(** An invariant of the accumulator of a [reduce] or of a [forEach]. *)
Lemma fold_left_inv {A B} (P : B -> Prop) (f : B -> A -> B) l b :
  P b -> (forall b x, x ∈ l -> P b -> P (f b x)) -> P (fold_left f l b).
Proof.
  revert b. induction l as [|x l IH]; intros b Hb Hf; simpl; [done|].
  apply IH; [apply Hf; [by left|done]|]. intros b' y Hy. apply Hf. by right.
Qed.

#[export] Hint Rewrite @alookup_aset_eq : js.
#[export] Hint Resolve aset_NoDup adelete_NoDup : js.

(** ** Strings: the built-ins the program calls

    The receiver is the first argument: [startsWith s p] is
    [s.startsWith(p)]. *)

Fixpoint filterChars (p : ascii -> bool) (s : string) : string :=
  match s with
  | "" => ""
  | String c s' => if p c then String c (filterChars p s') else filterChars p s'
  end.

Fixpoint mapChars (f : ascii -> ascii) (s : string) : string :=
  match s with
  | "" => ""
  | String c s' => String (f c) (mapChars f s')
  end.

Definition isDigit (c : ascii) : bool := bool_decide (is_Some (Ascii.is_nat c)).

(** [s.replace(/\D/g, '')] *)
Definition digitsOnly (s : string) : string := filterChars isDigit s.

Definition startsWith (s p : string) : bool := String.prefix p s.

Definition endsWith (s p : string) : bool :=
  String.prefix (String.rev p) (String.rev s).

(** [s.slice(n)] and [s.slice(0, n)] for [0 <= n]. *)
Fixpoint sliceFrom (n : nat) (s : string) : string :=
  match n, s with
  | O, _ => s
  | S n', String _ s' => sliceFrom n' s'
  | S _, "" => ""
  end.

Fixpoint sliceTo (n : nat) (s : string) : string :=
  match n, s with
  | O, _ => ""
  | S n', String c s' => String c (sliceTo n' s')
  | S _, "" => ""
  end.

Fixpoint includes (s q : string) : bool :=
  String.prefix q s ||
  match s with
  | "" => false
  | String _ s' => includes s' q
  end.

Definition lowerChar (c : ascii) : ascii :=
  let n := Ascii.nat_of_ascii c in
  if ((65 <=? n) && (n <=? 90))%nat then Ascii.ascii_of_nat (n + 32) else c.

Definition toLowerCase (s : string) : string := mapChars lowerChar s.

Fixpoint trimStart (s : string) : string :=
  match s with
  | "" => ""
  | String c s' => if Ascii.is_space c then trimStart s' else s
  end.

Definition trim (s : string) : string :=
  String.rev (trimStart (String.rev (trimStart s))).

Fixpoint repeatChar (n : nat) (c : ascii) : string :=
  match n with
  | O => ""
  | S n' => String c (repeatChar n' c)
  end.

(** [s.padStart(n, c)] for a one-character pad. *)
Definition padStart (s : string) (n : nat) (c : ascii) : string :=
  repeatChar (n - String.length s) c +:+ s.

(** [String(z)] and the template literal of an integer. *)
Definition showZ (z : Z) : string := NilZero.string_of_int (Z.to_int z).

(** [Number(s)] on a string of decimal digits (the capture of [\d+]). *)
Definition parseDigits (s : string) : option Z :=
  Z.of_uint <$> NilZero.uint_of_string s.

(** A decimal integer literal with an optional minus sign. *)
Definition parseInt10 (s : string) : option Z :=
  Z.of_int <$> NilZero.int_of_string s.

(** [n.toFixed(2)] on an integer. *)
Definition toFixed2 (z : Z) : string := showZ z +:+ ".00".

(** The emptiness test [!s] of a string. *)
Definition isEmpty (s : string) : bool := bool_decide (s = "").

Lemma prefix_empty s : String.prefix "" s = true.
Proof. by destruct s. Qed.

Lemma includes_empty s : includes s "" = true.
Proof. destruct s; simpl; by rewrite ?prefix_empty. Qed.

Lemma trim_empty : trim "" = "".
Proof. reflexivity. Qed.

Lemma endsWith_empty s : endsWith s "" = true.
Proof. apply prefix_empty. Qed.

Lemma prefix_cons c p s :
  String.prefix (String c p) (String c s) = String.prefix p s.
Proof. simpl. by destruct (Ascii.ascii_dec c c). Qed.

Lemma prefix_weaken s p q :
  String.prefix p s = false -> String.prefix (p +:+ q) s = false.
Proof.
  revert s. induction p as [|c p IH]; intros [|c' s]; simpl; try done.
  destruct (Ascii.ascii_dec c c'); auto.
Qed.

Lemma filterChars_app p a b :
  filterChars p (a +:+ b) = filterChars p a +:+ filterChars p b.
Proof.
  induction a as [|c a IH]; [done|].
  change (String c a +:+ b) with (String c (a +:+ b)). simpl.
  destruct (p c); simpl; by rewrite IH.
Qed.

(** Every character of [s] satisfies [p]. *)
Fixpoint allChars (p : ascii -> bool) (s : string) : bool :=
  match s with
  | "" => true
  | String c s' => p c && allChars p s'
  end.

Lemma allChars_filterChars p s : allChars p (filterChars p s) = true.
Proof.
  induction s as [|c s IH]; [done|]. simpl.
  destruct (p c) eqn:E; simpl; by rewrite ?E.
Qed.

Lemma filterChars_all p s : allChars p s = true -> filterChars p s = s.
Proof.
  induction s as [|c s IH]; [done|]. simpl.
  intros [-> Hs]%andb_true_iff. by rewrite IH.
Qed.

Lemma allChars_sliceFrom p n s :
  allChars p s = true -> allChars p (sliceFrom n s) = true.
Proof.
  revert s. induction n as [|n IH]; intros [|c s]; simpl; try done.
  intros [_ Hs]%andb_true_iff. auto.
Qed.

Lemma filterChars_idem p s : filterChars p (filterChars p s) = filterChars p s.
Proof.
  induction s as [|c s IH]; [done|]. simpl.
  destruct (p c) eqn:E; simpl; rewrite ?E; by rewrite IH.
Qed.

Lemma toLowerCase_empty : toLowerCase "" = "".
Proof. reflexivity. Qed.

Lemma string_length_app (s1 s2 : string) :
  String.length (s1 +:+ s2) = (String.length s1 + String.length s2)%nat.
Proof. induction s1 as [|c s1 IH]; [done|]. cbn. by rewrite <- IH. Qed.

Lemma repeatChar_length n c : String.length (repeatChar n c) = n.
Proof. induction n; simpl; congruence. Qed.

Lemma padStart_length s n c :
  String.length (padStart s n c) = (n `max` String.length s)%nat.
Proof. unfold padStart. rewrite string_length_app, repeatChar_length. lia. Qed.

Lemma padStart_long s n c : (n <= String.length s)%nat -> padStart s n c = s.
Proof. unfold padStart. intros H. by replace (n - _)%nat with O by lia. Qed.

Lemma to_int_nonnil z :
  Z.to_int z <> Decimal.Pos Decimal.Nil /\ Z.to_int z <> Decimal.Neg Decimal.Nil.
Proof.
  pose proof (to_of (Z.to_int z)) as T. rewrite of_to in T.
  split; intros E; rewrite E in T; simpl in T; discriminate.
Qed.

Lemma parseInt10_showZ z : parseInt10 (showZ z) = Some z.
Proof.
  unfold parseInt10, showZ. destruct (to_int_nonnil z).
  rewrite NilZero.isi by done. simpl. by rewrite of_to.
Qed.

Lemma showZ_inj z1 z2 : showZ z1 = showZ z2 -> z1 = z2.
Proof.
  intros H. apply (f_equal parseInt10) in H.
  rewrite !parseInt10_showZ in H. congruence.
Qed.

#[export] Instance showZ_Inj : Inj (=) (=) showZ.
Proof. exact showZ_inj. Qed.

Lemma showZ_nonempty z : showZ z <> "".
Proof.
  intros E. pose proof (parseInt10_showZ z) as P. rewrite E in P. discriminate.
Qed.

Lemma app_assoc_str (a b c : string) : (a +:+ b) +:+ c = a +:+ (b +:+ c).
Proof.
  induction a as [|x a IH]; [done|].
  change (String x ((a +:+ b) +:+ c) = String x (a +:+ (b +:+ c))). by rewrite IH.
Qed.

Lemma app_empty_r (a : string) : a +:+ "" = a.
Proof.
  induction a as [|x a IH]; [done|].
  change (String x (a +:+ "") = String x a). by rewrite IH.
Qed.

(** [forallb P] over 0, ..., [n - 1] decides a property below [n]. *)
Definition Zupto (n : nat) : list Z := map Z.of_nat (seq 0 n).

Lemma Zupto_forall (P : Z -> bool) (n : nat) :
  forallb P (Zupto n) = true -> forall z, 0 <= z < Z.of_nat n -> P z = true.
Proof.
  intros Hall z Hz. rewrite forallb_forall in Hall. apply Hall.
  apply in_map_iff. exists (Z.to_nat z). split; [lia|]. apply in_seq. lia.
Qed.

Lemma app_nonempty (s1 s2 : string) : s2 <> "" -> s1 +:+ s2 <> "".
Proof. destruct s1; [done|]. intros _. cbn. discriminate. Qed.

(** A leading zero does not change the number read. *)
Lemma parseDigits_zero s : s <> "" -> parseDigits (String "0" s) = parseDigits s.
Proof.
  unfold parseDigits. destruct s as [|c s]; [done|]. intros _.
  change (NilZero.uint_of_string (String "0" (String c s)))
    with (uint_of_char "0" (NilEmpty.uint_of_string (String c s))).
  change (NilZero.uint_of_string (String c s))
    with (NilEmpty.uint_of_string (String c s)).
  by destruct (NilEmpty.uint_of_string (String c s)).
Qed.

Lemma parseDigits_repeat n s :
  s <> "" -> parseDigits (repeatChar n "0" +:+ s) = parseDigits s.
Proof.
  intros Hs. induction n as [|n IH]; [done|].
  change (repeatChar (S n) "0" +:+ s) with (String "0" (repeatChar n "0" +:+ s)).
  rewrite parseDigits_zero; [done|by apply app_nonempty].
Qed.

Lemma parseDigits_showZ z : 0 <= z -> parseDigits (showZ z) = Some z.
Proof.
  intros Hz. unfold parseDigits, showZ.
  destruct z as [|p|p]; [reflexivity| |lia].
  cbn [Z.to_int NilZero.string_of_int].
  rewrite NilZero.usu by apply DecimalPos.Unsigned.to_uint_nonnil.
  cbn. unfold Z.of_uint. by rewrite DecimalPos.Unsigned.of_to.
Qed.

(** Padding with zeros keeps the number. *)
Lemma parseDigits_padStart z n :
  0 <= z -> parseDigits (padStart (showZ z) n "0") = Some z.
Proof.
  intros Hz. unfold padStart.
  rewrite parseDigits_repeat by apply showZ_nonempty. by apply parseDigits_showZ.
Qed.

(** [a < b] on strings: the order of the code units, which on ASCII text is
    the order of the bytes. *)
Definition strLt (a b : string) : bool :=
  match String_as_OT.cmp a b with Lt => true | _ => false end.

Lemma strLt_lt a b : strLt a b = true <-> String_as_OT.lt a b.
Proof.
  unfold strLt. rewrite <- String_as_OT.cmp_lt.
  destruct (String_as_OT.cmp a b); intuition congruence.
Qed.

Lemma strLt_trans a b c : strLt a b = true -> strLt b c = true -> strLt a c = true.
Proof. rewrite !strLt_lt. apply String_as_OT.lt_trans. Qed.

Lemma strLt_irrefl a : strLt a a = false.
Proof.
  apply not_true_is_false. rewrite strLt_lt. intros L.
  by apply String_as_OT.lt_not_eq in L.
Qed.

Lemma strLt_total a b : a <> b -> strLt a b = true \/ strLt b a = true.
Proof.
  intros Hne. rewrite !strLt_lt.
  destruct (String_as_OT.compare a b) as [L|E|G]; [by left|done|by right].
Qed.

Lemma sliceFrom_app (s1 s2 : string) : sliceFrom (String.length s1) (s1 +:+ s2) = s2.
Proof. induction s1; [done|]. cbn. done. Qed.

Lemma sliceTo_app (s1 s2 : string) : sliceTo (String.length s1) (s1 +:+ s2) = s1.
Proof. induction s1 as [|c s1 IH]; [done|]. cbn. f_equal. exact IH. Qed.

Lemma startsWith_app (p s : string) : startsWith (p +:+ s) p = true.
Proof.
  unfold startsWith. induction p as [|c p IH]; [apply prefix_empty|].
  change (String c p +:+ s) with (String c (p +:+ s)). simpl.
  destruct (Ascii.ascii_dec c c); [exact IH|congruence].
Qed.


#[export] Hint Rewrite includes_empty trim_empty parseInt10_showZ : js.

(** ** [Array.prototype.sort(cmp)]: stable insertion sort

    [cmp x y <= 0] keeps [x] before [y]; elements that compare equal keep
    their order. *)

Section Sort.
Context {A : Type} (cmp : A -> A -> Z).
Implicit Types (x y : A) (l : list A).

Fixpoint insertBy x l : list A :=
  match l with
  | [] => [x]
  | y :: l' => if cmp x y <=? 0 then x :: y :: l' else y :: insertBy x l'
  end.

Definition sortBy l : list A := foldr insertBy [] l.

(** [x] may stand before [y]. *)
Definition before x y : Prop := cmp x y <= 0.

Lemma insertBy_perm x l : insertBy x l ≡ₚ x :: l.
Proof.
  induction l as [|y l IH]; simpl; [done|].
  case_if; [done|]. by rewrite IH, Permutation_swap.
Qed.

Lemma sortBy_perm l : sortBy l ≡ₚ l.
Proof.
  induction l as [|x l IH]; simpl; [done|]. by rewrite insertBy_perm, IH.
Qed.

Lemma sortBy_length l : length (sortBy l) = length l.
Proof. by rewrite sortBy_perm. Qed.

Lemma sortBy_elem x l : x ∈ sortBy l <-> x ∈ l.
Proof. by rewrite sortBy_perm. Qed.

Lemma insertBy_sorted_head x l : Forall (before x) l -> insertBy x l = x :: l.
Proof.
  destruct l as [|y l]; simpl; [done|]. intros [H _]%Forall_cons.
  unfold before in H. by rewrite (proj2 (Z.leb_le _ _) H).
Qed.

(** Sorting a sorted array changes nothing. *)
Lemma sortBy_sorted_id l : StronglySorted before l -> sortBy l = l.
Proof.
  induction 1 as [|x l Hs IH Hx]; simpl; [done|].
  by rewrite IH, insertBy_sorted_head.
Qed.

(** A comparator that orders by a key first sorts by that key, whatever it
    does between elements of the same key. *)
Section ByKey.
Context (key : A -> Z).
Context (cmp_key_le : forall x y, cmp x y <= 0 -> key y <= key x).
Context (cmp_key_gt : forall x y, 0 < cmp x y -> key x <= key y).

Definition keyDesc x y : Prop := key y <= key x.

Lemma insertBy_keyDesc x l :
  StronglySorted keyDesc l -> StronglySorted keyDesc (insertBy x l).
Proof.
  induction 1 as [|y l Hl IH Hy]; simpl; [by repeat constructor|].
  destruct (Z.leb_spec (cmp x y) 0) as [Hc|Hc].
  - constructor; [by constructor|]. constructor; [by apply cmp_key_le|].
    eapply Forall_impl; [exact Hy|]. unfold keyDesc. intros z Hz.
    specialize (cmp_key_le _ _ Hc). lia.
  - constructor; [done|]. rewrite insertBy_perm. constructor; [|done].
    apply cmp_key_gt. lia.
Qed.

Lemma sortBy_keyDesc l : StronglySorted keyDesc (sortBy l).
Proof. induction l; simpl; [constructor|by apply insertBy_keyDesc]. Qed.

End ByKey.

(** A comparator that never answers 0 sorts elements of distinct keys into
    the strict order it decides. *)
Section Strict.
Context {K : Type} (key : A -> K) (R : A -> A -> Prop).
Context (R_trans : forall x y z, R x y -> R y z -> R x z).
Context (cmp_R : forall x y, cmp x y <= 0 -> key x <> key y -> R x y).
Context (cmp_nR : forall x y, 0 < cmp x y -> key x <> key y -> R y x).

Lemma insertBy_strict x l :
  key x ∉ key <$> l -> StronglySorted R l -> StronglySorted R (insertBy x l).
Proof.
  intros Hx Hs. induction Hs as [|y l Hl IH Hy]; simpl; [by repeat constructor|].
  rewrite fmap_cons, not_elem_of_cons in Hx. destruct Hx as [Hxy Hx].
  destruct (Z.leb_spec (cmp x y) 0) as [Hc|Hc].
  - assert (R x y) by auto.
    constructor; [by constructor|]. constructor; [done|].
    eapply Forall_impl; [exact Hy|]. eauto.
  - constructor; [auto|]. rewrite insertBy_perm. constructor; [|done]. auto.
Qed.

Lemma sortBy_strict l : NoDup (key <$> l) -> StronglySorted R (sortBy l).
Proof.
  induction l as [|x l IH]; simpl; [constructor|].
  intros [Hx Hnd]%NoDup_cons.
  apply insertBy_strict; [|auto]. by rewrite sortBy_perm.
Qed.

End Strict.

Section Consistent.
(** A consistent comparator: a total preorder. *)
Context (cmp_total : forall x y, 0 < cmp x y -> cmp y x <= 0).
Context (cmp_trans : forall x y z, cmp x y <= 0 -> cmp y z <= 0 -> cmp x z <= 0).

Lemma insertBy_sorted x l :
  StronglySorted before l -> StronglySorted before (insertBy x l).
Proof.
  induction 1 as [|y l Hs IH Hy]; simpl; [repeat constructor|].
  destruct (Z.leb_spec (cmp x y) 0) as [Hle|Hgt].
  - constructor; [by constructor|]. constructor; [done|].
    eapply Forall_impl; [exact Hy|]. intros z Hz. by eapply cmp_trans.
  - constructor; [done|]. rewrite insertBy_perm. constructor; [|done].
    by apply cmp_total.
Qed.

Lemma sortBy_sorted l : StronglySorted before (sortBy l).
Proof.
  induction l as [|x l IH]; simpl; [constructor|]. by apply insertBy_sorted.
Qed.

Lemma sortBy_idemp l : sortBy (sortBy l) = sortBy l.
Proof. apply sortBy_sorted_id, sortBy_sorted. Qed.

End Consistent.
End Sort.

(** [Array.prototype.find] *)
Abbreviation findBy := List.find.

Lemma findBy_Some {A} (p : A -> bool) l x :
  findBy p l = Some x -> x ∈ l /\ p x = true.
Proof. intros [? ?]%find_some. by rewrite list_elem_of_In. Qed.

Lemma findBy_None {A} (p : A -> bool) l :
  findBy p l = None <-> forall x, x ∈ l -> p x = false.
Proof.
  split.
  - intros H x Hx%list_elem_of_In. by eapply find_none.
  - induction l as [|y l IH]; simpl; [done|]. intros H.
    rewrite (H y) by left. apply IH. intros x Hx. apply H. by right.
Qed.

Lemma findBy_app {A} (p : A -> bool) l1 l2 :
  findBy p (l1 ++ l2) =
  match findBy p l1 with Some x => Some x | None => findBy p l2 end.
Proof. induction l1 as [|y l1 IH]; simpl; [done|]. by destruct (p y). Qed.

Lemma findBy_ext {A} (p q : A -> bool) l :
  (forall x, p x = q x) -> findBy p l = findBy q l.
Proof. intros E. induction l as [|x l IH]; [done|]. simpl. by rewrite E, IH. Qed.

(** The records of a list without two equal keys are told apart by their
    key. *)
Lemma NoDup_fmap_eq {A B} (f : A -> B) l x y :
  NoDup (f <$> l) -> x ∈ l -> y ∈ l -> f x = f y -> x = y.
Proof.
  induction l as [|z l IH]; simpl; [by intros _ ?%elem_of_nil|].
  intros [Hz Hnd]%NoDup_cons [->|Hx]%elem_of_cons [->|Hy]%elem_of_cons E; auto;
    exfalso; apply Hz; apply list_elem_of_fmap; eauto.
Qed.

(** [findBy] on a key of a list without two equal keys. *)
Lemma findBy_key {A B} `{EqDecision B} (f : A -> B) l x :
  NoDup (f <$> l) -> x ∈ l ->
  findBy (fun y => bool_decide (f y = f x)) l = Some x.
Proof.
  intros Hnd Hin. destruct (findBy _ l) as [y|] eqn:G.
  - apply findBy_Some in G as [Hy Hid]. apply bool_decide_eq_true in Hid.
    f_equal. eapply NoDup_fmap_eq; eauto.
  - pose proof (proj1 (findBy_None _ _) G x Hin) as Hf.
    by apply bool_decide_eq_false in Hf.
Qed.
