(* ===== verification/Dates.v ===== *)
(** * Dates: the [Date] built-ins the program calls

    A [Date] is its time value: milliseconds since 1970-01-01T00:00:00Z, a
    [Z]; an invalid date ([getTime()] is [NaN]) is [None] wherever one can
    arise.  The calendar is the proleptic Gregorian one of ECMAScript, by the
    era-based day count (a 400-year era has 146097 days).  Local time is UTC
    shifted by a fixed offset [tz] in milliseconds: daylight saving changes
    are not modelled.

    Nothing here is code of the repository: these definitions say what the
    calls [new Date(s)], [toISOString], [getFullYear], [getUTCDay],
    [Date.UTC], [setUTCDate] and [setHours] of [App.tsx] compute. *)

From S2P Require Import Prelude.

(** ** The civil calendar *)

Definition msPerDay : Z := 86400000.

(** Days since 1970-01-01 of the civil date [y]-[m]-[d] ([m] from 1). *)
Definition daysFromCivil (y m d : Z) : Z :=
  let y' := if m <=? 2 then y - 1 else y in
  let era := y' / 400 in
  let yoe := y' - era * 400 in
  let mp := (m + 9) mod 12 in
  let doy := (153 * mp + 2) / 5 + d - 1 in
  let doe := yoe * 365 + yoe / 4 - yoe / 100 + doy in
  era * 146097 + doe - 719468.

(** The civil date of a day number: (year, month from 1, day of month). *)
Definition civilFromDays (z : Z) : Z * Z * Z :=
  let z := z + 719468 in
  let era := z / 146097 in
  let doe := z - era * 146097 in
  let yoe := (doe - doe / 1460 + doe / 36524 - doe / 146096) / 365 in
  let y := yoe + era * 400 in
  let doy := doe - (365 * yoe + yoe / 4 - yoe / 100) in
  let mp := (5 * doy + 2) / 153 in
  let d := doy - (153 * mp + 2) / 5 + 1 in
  let m := if mp <? 10 then mp + 3 else mp - 9 in
  (if m <=? 2 then y + 1 else y, m, d).

Definition yearOfDay (z : Z) : Z := (civilFromDays z).1.1.
Definition monthOfDay (z : Z) : Z := (civilFromDays z).1.2.
Definition dateOfDay (z : Z) : Z := (civilFromDays z).2.

Definition isLeap (y : Z) : bool :=
  ((y mod 4 =? 0) && negb (y mod 100 =? 0)) || (y mod 400 =? 0).

Definition daysInMonth (y m : Z) : Z :=
  if m =? 2 then (if isLeap y then 29 else 28)
  else if (m =? 4) || (m =? 6) || (m =? 9) || (m =? 11) then 30 else 31.

Definition validDate (y m d : Z) : Prop :=
  1 <= m <= 12 /\ 1 <= d <= daysInMonth y m.

#[export] Instance validDate_dec y m d : Decision (validDate y m d).
Proof. unfold validDate. apply _. Defined.

(** [arith] closes goals of linear arithmetic with floor division. *)
Ltac arith := Z.div_mod_to_equations; lia.

(** The intermediate quantities of [civilFromDays], with their ranges. *)
Lemma civil_ranges z :
  let z' := z + 719468 in
  let era := z' / 146097 in
  let doe := z' - era * 146097 in
  let yoe := (doe - doe / 1460 + doe / 36524 - doe / 146096) / 365 in
  let doy := doe - (365 * yoe + yoe / 4 - yoe / 100) in
  let mp := (5 * doy + 2) / 153 in
  0 <= doe < 146097 /\ 0 <= yoe <= 399 /\ 0 <= doy <= 365 /\ 0 <= mp <= 11.
Proof.
  intros z' era doe yoe doy mp.
  assert (0 <= doe < 146097) by (subst doe era; arith).
  assert (0 <= yoe <= 399 /\ 0 <= doy <= 365) by (subst yoe doy; arith).
  assert (0 <= mp <= 11) by (subst mp; arith).
  lia.
Qed.

Lemma monthOfDay_range z : 1 <= monthOfDay z <= 12.
Proof.
  unfold monthOfDay, civilFromDays. cbv zeta. simpl.
  pose proof (civil_ranges z) as H. cbv zeta in H.
  case_if; lia.
Qed.

Lemma dateOfDay_range z : 1 <= dateOfDay z <= 31.
Proof.
  unfold dateOfDay, civilFromDays. cbv zeta. simpl.
  pose proof (civil_ranges z) as H. cbv zeta in H.
  destruct H as (_ & _ & Hdoy & Hmp). revert Hdoy Hmp.
  generalize ((z + 719468 - (z + 719468) / 146097 * 146097)). intros doe.
  intros. arith.
Qed.

(** Every day number is the day number of its civil date. *)
Lemma daysFromCivil_civilFromDays z :
  daysFromCivil (yearOfDay z) (monthOfDay z) (dateOfDay z) = z.
Proof.
  unfold yearOfDay, monthOfDay, dateOfDay, civilFromDays, daysFromCivil.
  cbv zeta. simpl.
  pose proof (civil_ranges z) as H. cbv zeta in H.
  set (z' := z + 719468) in *.
  set (era := z' / 146097) in *.
  set (doe := z' - era * 146097) in *.
  set (yoe := (doe - doe / 1460 + doe / 36524 - doe / 146096) / 365) in *.
  set (doy := doe - (365 * yoe + yoe / 4 - yoe / 100)) in *.
  set (mp := (5 * doy + 2) / 153) in *.
  destruct H as (Hdoe & Hyoe & Hdoy & Hmp).
  destruct (Z.ltb_spec mp 10) as [Hlt|Hge].
  - destruct (Z.leb_spec (mp + 3) 2); [lia|].
    replace ((mp + 3 + 9) mod 12) with mp by arith.
    replace ((yoe + era * 400) / 400) with era by arith.
    subst doy. arith.
  - destruct (Z.leb_spec (mp - 9) 2); [|lia].
    replace ((mp - 9 + 9) mod 12) with mp by arith.
    replace (yoe + era * 400 + 1 - 1) with (yoe + era * 400) by lia.
    replace ((yoe + era * 400) / 400) with era by arith.
    subst doy. arith.
Qed.

Lemma era_inverse era yoe doy :
  0 <= yoe <= 399 -> 0 <= doy <= 365 ->
  (doy = 365 -> (yoe + 1) mod 4 = 0 /\ ((yoe + 1) mod 100 <> 0 \/ yoe + 1 = 400)) ->
  let doe := yoe * 365 + yoe / 4 - yoe / 100 + doy in
  let z' := era * 146097 + doe in
  z' / 146097 = era /\ z' - era * 146097 = doe /\
  (doe - doe / 1460 + doe / 36524 - doe / 146096) / 365 = yoe.
Proof.
  intros Hy Hd Hl doe z'.
  assert (0 <= doe < 146097) by (subst doe; arith).
  assert (z' / 146097 = era) by (subst z'; arith).
  split_and!; [done|subst z'; lia|subst doe; arith].
Qed.

(** The civil date of the day number of a valid date is that date. *)
Lemma civilFromDays_daysFromCivil y m d :
  validDate y m d -> civilFromDays (daysFromCivil y m d) = (y, m, d).
Proof.
  intros [Hm Hd]. unfold daysInMonth, isLeap in Hd.
  unfold civilFromDays, daysFromCivil. cbv zeta.
  set (y' := if m <=? 2 then y - 1 else y).
  set (era := y' / 400). set (yoe := y' - era * 400).
  set (mp := (m + 9) mod 12).
  set (doy := (153 * mp + 2) / 5 + d - 1).
  assert (Hyoe : 0 <= yoe <= 399) by (subst yoe era; arith).
  assert (Hmp : 0 <= mp <= 11 /\ (mp < 10 -> m = mp + 3) /\ (10 <= mp -> m = mp - 9))
    by (subst mp; arith).
  assert (Hdoy : 0 <= doy <= 365 /\ (5 * doy + 2) / 153 = mp /\
                 (doy = 365 -> (yoe + 1) mod 4 = 0 /\
                               ((yoe + 1) mod 100 <> 0 \/ yoe + 1 = 400))).
  { subst doy yoe era y'. revert Hd.
    repeat case_if;
      rewrite ?orb_true_iff, ?orb_false_iff, ?andb_true_iff, ?andb_false_iff,
        ?negb_true_iff, ?negb_false_iff in *; intros; arith. }
  destruct Hdoy as (Hdoy1 & Hdoy2 & Hdoy3).
  destruct (era_inverse era yoe doy Hyoe Hdoy1 Hdoy3) as (E1 & E2 & E3).
  replace (era * 146097 + (yoe * 365 + yoe / 4 - yoe / 100 + doy) - 719468 + 719468)
    with (era * 146097 + (yoe * 365 + yoe / 4 - yoe / 100 + doy)) by lia.
  rewrite E1, E2, E3.
  replace (yoe * 365 + yoe / 4 - yoe / 100 + doy - (365 * yoe + yoe / 4 - yoe / 100))
    with doy by lia.
  rewrite Hdoy2. destruct Hmp as (Hmp1 & Hmp2 & Hmp3).
  replace (doy - (153 * mp + 2) / 5 + 1) with d by (subst doy; lia).
  replace (if mp <? 10 then mp + 3 else mp - 9) with m
    by (destruct (Z.ltb_spec mp 10); lia).
  replace (yoe + era * 400) with y' by (subst yoe; lia).
  subst y'. destruct (Z.leb_spec m 2); repeat f_equal; lia.
Qed.

(** The last day of the March-based year exists only before a leap year's
    March. *)
Lemma leap_doy z :
  let z' := z + 719468 in
  let era := z' / 146097 in
  let doe := z' - era * 146097 in
  let yoe := (doe - doe / 1460 + doe / 36524 - doe / 146096) / 365 in
  let doy := doe - (365 * yoe + yoe / 4 - yoe / 100) in
  doy = 365 -> isLeap (yoe + era * 400 + 1) = true.
Proof.
  intros z' era doe yoe doy Hd.
  assert (0 <= doe < 146097) by (subst doe era; arith).
  assert (0 <= yoe <= 399) by (subst yoe; arith).
  assert ((yoe + 1) mod 4 = 0 /\ ((yoe + 1) mod 100 <> 0 \/ yoe + 1 = 400))
    by (subst doy yoe; arith).
  unfold isLeap.
  rewrite orb_true_iff, andb_true_iff, negb_true_iff, !Z.eqb_eq, Z.eqb_neq. arith.
Qed.

(** The civil date of a day number is a date of the calendar. *)
Lemma validDate_civil z : validDate (yearOfDay z) (monthOfDay z) (dateOfDay z).
Proof.
  split; [apply monthOfDay_range|].
  unfold yearOfDay, monthOfDay, dateOfDay, civilFromDays, daysInMonth.
  cbv zeta. simpl.
  pose proof (civil_ranges z) as H. pose proof (leap_doy z) as L. cbv zeta in H, L.
  set (z' := z + 719468) in *.
  set (era := z' / 146097) in *.
  set (doe := z' - era * 146097) in *.
  set (yoe := (doe - doe / 1460 + doe / 36524 - doe / 146096) / 365) in *.
  set (doy := doe - (365 * yoe + yoe / 4 - yoe / 100)) in *.
  set (mp := (5 * doy + 2) / 153) in *.
  destruct H as (Hdoe & Hyoe & Hdoy & Hmp).
  assert (mp = 0 \/ mp = 1 \/ mp = 2 \/ mp = 3 \/ mp = 4 \/ mp = 5 \/ mp = 6 \/
          mp = 7 \/ mp = 8 \/ mp = 9 \/ mp = 10 \/ mp = 11) as Hcase by lia.
  assert (0 <= doy - (153 * mp + 2) / 5 /\
          (mp = 11 -> doy - (153 * mp + 2) / 5 + 1 <= 29) /\
          (mp = 11 -> doy <> 365 -> doy - (153 * mp + 2) / 5 + 1 <= 28) /\
          (mp <> 11 -> doy - (153 * mp + 2) / 5 + 1 <=
             30 + (if (mp =? 1) || (mp =? 3) || (mp =? 6) || (mp =? 8) then 0 else 1)))
    as (D0 & D1 & D2 & D3).
  { subst mp. clearbody doy. clear -Hdoy Hcase.
    destruct Hcase as [E|[E|[E|[E|[E|[E|[E|[E|[E|[E|[E|E]]]]]]]]]]];
      rewrite E; simpl; arith. }
  clearbody mp doy.
  destruct Hcase as [E|[E|[E|[E|[E|[E|[E|[E|[E|[E|[E|E]]]]]]]]]]];
    subst mp; simpl in *; try lia.
  destruct (decide (doy = 365)) as [E|NE].
  - rewrite L by done. lia.
  - destruct (isLeap _); lia.
Qed.

Lemma daysFromCivil_add y m d k :
  daysFromCivil y m (d + k) = daysFromCivil y m d + k.
Proof. unfold daysFromCivil. cbv zeta. lia. Qed.

(** A year has 365 or 366 days. *)
Lemma year_length y :
  daysFromCivil (y + 1) 1 1 - daysFromCivil y 1 1 = if isLeap y then 366 else 365.
Proof.
  unfold daysFromCivil, isLeap. cbv zeta. simpl.
  replace (y + 1 - 1) with y by lia.
  repeat case_if;
    rewrite ?orb_true_iff, ?orb_false_iff, ?andb_true_iff, ?andb_false_iff,
      ?negb_true_iff, ?negb_false_iff, ?Z.eqb_eq, ?Z.eqb_neq in *; arith.
Qed.

(** A day lies in its year. *)
Lemma yearOfDay_bounds z :
  daysFromCivil (yearOfDay z) 1 1 <= z < daysFromCivil (yearOfDay z + 1) 1 1.
Proof.
  pose proof (daysFromCivil_civilFromDays z) as E.
  pose proof (monthOfDay_range z) as Hm. pose proof (dateOfDay_range z) as Hd.
  revert E Hm Hd. generalize (yearOfDay z) (monthOfDay z) (dateOfDay z).
  intros y m d <- Hm Hd. unfold daysFromCivil. cbv zeta. simpl.
  replace (y + 1 - 1) with y by lia.
  destruct (Z.leb_spec m 2).
  - assert (m = 1 \/ m = 2) as [-> | ->] by lia; simpl; arith.
  - set (mp := (m + 9) mod 12).
    assert (0 <= mp <= 9) by (subst mp; arith).
    assert (0 <= (153 * mp + 2) / 5 <= 275) by arith.
    arith.
Qed.
