(* ===== verification/Runtime.v ===== *)
(** * Runtime: time values, their formatting, and the host interface

    The accessors of a JavaScript [Date] on a time value, [toISOString], and
    the interface [JsRuntime] of what the host decides: how [Number] and
    [new Date] read a string, and the local time zone.  The component files
    are parameterised by a [JsRuntime]; [isoRuntime] is an implementation
    (decimal integers, the two ISO formats the program itself writes, a fixed
    offset), and its laws are proved here. *)

From S2P Require Import Prelude Dates.

(** ** Time values *)

(** [Day(t)], [TimeWithinDay(t)] and [WeekDay(t)] of ECMAScript; day 0 was a
    Thursday, and Sunday is 0. *)
Definition dayOf (t : Z) : Z := t / msPerDay.
Definition timeInDay (t : Z) : Z := t mod msPerDay.
Definition weekDay (z : Z) : Z := (z + 4) mod 7.

Definition getUTCFullYear (t : Z) : Z := yearOfDay (dayOf t).
Definition getUTCMonth (t : Z) : Z := monthOfDay (dayOf t) - 1.
Definition getUTCDate (t : Z) : Z := dateOfDay (dayOf t).
Definition getUTCDay (t : Z) : Z := weekDay (dayOf t).
Definition getUTCHours (t : Z) : Z := timeInDay t / 3600000.
Definition getUTCMinutes (t : Z) : Z := timeInDay t / 60000 mod 60.
Definition getUTCSeconds (t : Z) : Z := timeInDay t / 1000 mod 60.
Definition getUTCMilliseconds (t : Z) : Z := timeInDay t mod 1000.

(** [Date.UTC(y, m, d)] for a month index [m] of 0..11: a year of 0..99 means
    1900 + y. *)
Definition Date_UTC (y m d : Z) : Z :=
  let y' := if (0 <=? y) && (y <=? 99) then 1900 + y else y in
  daysFromCivil y' (m + 1) d * msPerDay.

(** [d.setUTCDate(n)]: the day of month becomes [n], which may lie outside
    the month; the time within the day stays. *)
Definition setUTCDate (t n : Z) : Z :=
  daysFromCivil (getUTCFullYear t) (getUTCMonth t + 1) n * msPerDay + timeInDay t.

(** ** Local time, at the offset [tz] (milliseconds east of UTC) *)

Section Local.
Context (tz : Z).

Definition getFullYear (t : Z) : Z := getUTCFullYear (t + tz).
Definition getMonth (t : Z) : Z := getUTCMonth (t + tz).
Definition getDate (t : Z) : Z := getUTCDate (t + tz).

(** [d.setHours(h, m, s, ms)]: the local day stays, the local time within
    the day is replaced. *)
Definition setHours (t h m s ms : Z) : Z :=
  dayOf (t + tz) * msPerDay + (h * 3600000 + m * 60000 + s * 1000 + ms) - tz.

End Local.

(** ** [toISOString] *)

Definition pad (n : nat) (z : Z) : string := padStart (showZ z) n "0"%char.

(** The year of an ISO string: four digits for 0..9999, else a sign and six
    digits. *)
Definition isoYear (y : Z) : string :=
  if (0 <=? y) && (y <=? 9999) then pad 4 y
  else (if y <? 0 then "-" else "+") +:+ pad 6 (Z.abs y).

Definition isoDate (t : Z) : string :=
  isoYear (getUTCFullYear t) +:+ "-" +:+ pad 2 (getUTCMonth t + 1) +:+ "-" +:+
  pad 2 (getUTCDate t).

Definition toISOString (t : Z) : string :=
  isoDate t +:+ "T" +:+ pad 2 (getUTCHours t) +:+ ":" +:+
  pad 2 (getUTCMinutes t) +:+ ":" +:+ pad 2 (getUTCSeconds t) +:+ "." +:+
  pad 3 (getUTCMilliseconds t) +:+ "Z".

(** ** Facts on time values *)

Lemma msPerDay_pos : 0 < msPerDay.
Proof. done. Qed.

Lemma day_time t : t = dayOf t * msPerDay + timeInDay t.
Proof. unfold dayOf, timeInDay, msPerDay. arith. Qed.

Lemma timeInDay_range t : 0 <= timeInDay t < msPerDay.
Proof. unfold timeInDay, msPerDay. arith. Qed.

Lemma dayOf_add_days t k : dayOf (t + k * msPerDay) = dayOf t + k.
Proof. unfold dayOf, msPerDay. arith. Qed.

Lemma dayOf_midnight z : dayOf (z * msPerDay) = z.
Proof. unfold dayOf, msPerDay. arith. Qed.

Lemma timeInDay_midnight z : timeInDay (z * msPerDay) = 0.
Proof. unfold timeInDay, msPerDay. arith. Qed.

Lemma weekDay_range z : 0 <= weekDay z <= 6.
Proof. unfold weekDay. arith. Qed.

Lemma weekDay_add7 z k : weekDay (z + 7 * k) = weekDay z.
Proof. unfold weekDay. arith. Qed.

(** Adding days to the day of month adds them to the time value. *)
Lemma setUTCDate_add t k : setUTCDate t (getUTCDate t + k) = t + k * msPerDay.
Proof.
  unfold setUTCDate, getUTCDate, getUTCMonth, getUTCFullYear.
  rewrite daysFromCivil_add.
  replace (monthOfDay (dayOf t) - 1 + 1) with (monthOfDay (dayOf t)) by lia.
  rewrite daysFromCivil_civilFromDays. pose proof (day_time t). lia.
Qed.

Lemma setUTCDate_rel t n : setUTCDate t n = t + (n - getUTCDate t) * msPerDay.
Proof.
  transitivity (setUTCDate t (getUTCDate t + (n - getUTCDate t)));
    [|apply setUTCDate_add].
  by replace (getUTCDate t + (n - getUTCDate t)) with n by lia.
Qed.

(** [Date.UTC] of the fields of a day is the midnight of that day, from the
    year 100 on. *)
Lemma Date_UTC_fields z :
  100 <= yearOfDay z -> Date_UTC (yearOfDay z) (monthOfDay z - 1) (dateOfDay z) = z * msPerDay.
Proof.
  intros Hy. unfold Date_UTC.
  replace ((0 <=? yearOfDay z) && (yearOfDay z <=? 99)) with false
    by (symmetry; apply andb_false_iff; right; apply Z.leb_gt; lia).
  replace (monthOfDay z - 1 + 1) with (monthOfDay z) by lia.
  by rewrite daysFromCivil_civilFromDays.
Qed.

Lemma Date_UTC_jan1 y : 100 <= y -> Date_UTC y 0 1 = daysFromCivil y 1 1 * msPerDay.
Proof.
  intros Hy. unfold Date_UTC.
  replace ((0 <=? y) && (y <=? 99)) with false; [done|].
  symmetry. apply andb_false_iff. right. apply Z.leb_gt. lia.
Qed.

(** [new Date(Date.UTC(d.getFullYear(), d.getMonth(), d.getDate()))] is the
    UTC midnight of the local day of [d]. *)
Lemma local_midnight tz d :
  100 <= yearOfDay (dayOf (d + tz)) ->
  Date_UTC (getFullYear tz d) (getMonth tz d) (getDate tz d) =
  dayOf (d + tz) * msPerDay.
Proof.
  unfold getFullYear, getMonth, getDate, getUTCFullYear, getUTCMonth, getUTCDate.
  apply Date_UTC_fields.
Qed.

(** [setHours(23, 59, 59, 999)] is the last millisecond of the local day. *)
Lemma setHours_end_of_day tz t :
  let e := setHours tz t 23 59 59 999 in
  dayOf (e + tz) = dayOf (t + tz) /\ timeInDay (e + tz) = msPerDay - 1 /\
  t <= e.
Proof.
  unfold setHours, dayOf, timeInDay, msPerDay. cbv zeta.
  split_and!; arith.
Qed.

(** ** The host interface

    [Number s] is [Number(s)] and [Date_parse s] is [new Date(s).getTime()],
    [None] standing for [NaN]; [tzOffset] is the offset of local time.  The
    one law: the host reads back the ISO strings it prints, for the years
    that [toISOString] prints with four digits. *)

Class JsRuntime := {
  Number : string -> option Z;
  Date_parse : string -> option Z;
  tzOffset : Z;
  Date_parse_toISOString t :
    0 <= getUTCFullYear t <= 9999 -> Date_parse (toISOString t) = Some t
}.

(** [new Date(s).getTime()] of a field that may be [undefined]. *)
Definition timeOf `{JsRuntime} (s : option string) : option Z :=
  s ≫= Date_parse.

(** ** A host: decimal integers, the two ISO formats, a fixed offset

    [parseIso] reads [YYYY-MM-DD] (midnight UTC, the value of a date input)
    and [YYYY-MM-DDTHH:mm:ss.sssZ] (what [toISOString] prints) and rejects
    every other string; [parseNumber] reads a decimal integer.  A browser
    accepts more strings than these; the theorems of the components hold
    for every [JsRuntime], and this one serves to evaluate them. *)

(** The first [n] characters of [s] and the rest, if [s] has that many. *)
Fixpoint splitAt (n : nat) (s : string) : option (string * string) :=
  match n, s with
  | O, _ => Some ("", s)
  | S n', String c s' => (fun '(a, b) => (String c a, b)) <$> splitAt n' s'
  | S _, "" => None
  end.

(** A field of [n] decimal digits. *)
Definition num (n : nat) (s : string) : option (Z * string) :=
  '(f, rest) ← splitAt n s; z ← parseDigits f; Some (z, rest).

(** The character [c]. *)
Definition lit (c : ascii) (s : string) : option string :=
  match s with
  | String c' rest => if decide (c' = c) then Some rest else None
  | "" => None
  end.

Definition parseIsoDate (s : string) : option (Z * string) :=
  '(y, s) ← num 4 s; s ← lit "-"%char s;
  '(m, s) ← num 2 s; s ← lit "-"%char s;
  '(d, s) ← num 2 s;
  if decide (validDate y m d) then Some (daysFromCivil y m d, s) else None.

Definition parseIsoTime (s : string) : option (Z * string) :=
  s ← lit "T"%char s;
  '(h, s) ← num 2 s; s ← lit ":"%char s;
  '(mi, s) ← num 2 s; s ← lit ":"%char s;
  '(sec, s) ← num 2 s; s ← lit "."%char s;
  '(ms, s) ← num 3 s; s ← lit "Z"%char s;
  if (h <? 24) && (mi <? 60) && (sec <? 60)
  then Some (h * 3600000 + mi * 60000 + sec * 1000 + ms, s) else None.

Definition parseIso (s : string) : option Z :=
  '(day, s) ← parseIsoDate s;
  if isEmpty s then Some (day * msPerDay)
  else '(t, s) ← parseIsoTime s;
       if isEmpty s then Some (day * msPerDay + t) else None.

(** [Number(s)] for a decimal integer; the empty string is 0. *)
Definition parseNumber (s : string) : option Z :=
  let s := trim s in
  if isEmpty s then Some 0 else parseInt10 s.

Lemma splitAt_app a b : splitAt (String.length a) (a +:+ b) = Some (a, b).
Proof.
  induction a as [|c a IH]; [done|].
  change (String c a +:+ b) with (String c (a +:+ b)). simpl. by rewrite IH.
Qed.

(** A number below [10 ^ n] pads to exactly [n] digits. *)
Lemma pad_length n z :
  (1 <= n <= 4)%nat -> 0 <= z < 10 ^ Z.of_nat n -> String.length (pad n z) = n.
Proof.
  intros Hn Hz. unfold pad. rewrite padStart_length.
  assert (String.length (showZ z) <= n)%nat; [|lia].
  assert (forall k, (1 <= k <= 4)%nat ->
            forallb (fun z => (String.length (showZ z) <=? k)%nat) (Zupto (10 ^ k)) = true)
    as Hk.
  { intros k Hk. destruct k as [|k]; [lia|].
    do 4 (destruct k as [|k]; [by vm_compute|]). lia. }
  apply Nat.leb_le. apply (Zupto_forall _ _ (Hk n Hn)).
  rewrite Nat2Z.inj_pow. simpl. lia.
Qed.

Lemma num_pad n z rest :
  (1 <= n <= 4)%nat -> 0 <= z < 10 ^ Z.of_nat n ->
  num n (pad n z +:+ rest) = Some (z, rest).
Proof.
  intros Hn Hz. unfold num.
  rewrite <- (pad_length n z Hn Hz) at 1. rewrite splitAt_app. simpl.
  unfold pad. rewrite parseDigits_padStart by lia. done.
Qed.

Lemma lit_app c rest : lit c (String c rest) = Some rest.
Proof. simpl. by rewrite decide_True. Qed.

(** The fields of the time within the day, and their ranges. *)
Lemma time_fields t :
  0 <= getUTCHours t < 24 /\ 0 <= getUTCMinutes t < 60 /\
  0 <= getUTCSeconds t < 60 /\ 0 <= getUTCMilliseconds t < 1000 /\
  getUTCHours t * 3600000 + getUTCMinutes t * 60000 + getUTCSeconds t * 1000 +
  getUTCMilliseconds t = timeInDay t.
Proof.
  unfold getUTCHours, getUTCMinutes, getUTCSeconds, getUTCMilliseconds.
  pose proof (timeInDay_range t). unfold msPerDay in *.
  generalize dependent (timeInDay t). intros. arith.
Qed.

(** [parse_step] reads one field or one separator of a printed date. *)
Ltac parse_step :=
  first
    [ rewrite num_pad by (simpl; lia)
    | match goal with
      | |- context [lit ?c (String ?c ?r)] => rewrite (lit_app c r)
      | |- context [String.append (String ?c "") ?r] =>
          change (String.append (String c "") r) with (String c r)
      end ];
  cbn [mbind option_bind].

Lemma parseIsoDate_isoDate t rest :
  0 <= getUTCFullYear t <= 9999 ->
  parseIsoDate (isoDate t +:+ rest) = Some (dayOf t, rest).
Proof.
  intros Hy. unfold isoDate, isoYear, getUTCFullYear, getUTCMonth, getUTCDate in *.
  pose proof (monthOfDay_range (dayOf t)). pose proof (dateOfDay_range (dayOf t)).
  replace ((0 <=? yearOfDay (dayOf t)) && (yearOfDay (dayOf t) <=? 9999)) with true
    by (symmetry; apply andb_true_iff; split; apply Z.leb_le; lia).
  rewrite !app_assoc_str. unfold parseIsoDate.
  repeat parse_step.
  replace (monthOfDay (dayOf t) - 1 + 1) with (monthOfDay (dayOf t)) by lia.
  rewrite decide_True by apply validDate_civil.
  by rewrite daysFromCivil_civilFromDays.
Qed.

Lemma parseIsoTime_time t :
  parseIsoTime ("T" +:+ pad 2 (getUTCHours t) +:+ ":" +:+
     pad 2 (getUTCMinutes t) +:+ ":" +:+ pad 2 (getUTCSeconds t) +:+ "." +:+
     pad 3 (getUTCMilliseconds t) +:+ "Z") = Some (timeInDay t, "").
Proof.
  destruct (time_fields t) as (Hh & Hm & Hs & Hms & E).
  unfold parseIsoTime. repeat parse_step.
  replace ((getUTCHours t <? 24) && (getUTCMinutes t <? 60) && (getUTCSeconds t <? 60))
    with true by (symmetry; rewrite !andb_true_iff, !Z.ltb_lt; lia).
  by rewrite E.
Qed.

(** The parser reads back what [toISOString] prints. *)
Lemma parseIso_toISOString t :
  0 <= getUTCFullYear t <= 9999 -> parseIso (toISOString t) = Some t.
Proof.
  intros Hy. unfold parseIso, toISOString.
  rewrite parseIsoDate_isoDate by done. cbn [mbind option_bind].
  change (isEmpty ("T" +:+ ?r)) with false. cbv iota.
  rewrite parseIsoTime_time. cbn [mbind option_bind]. simpl isEmpty. cbv iota.
  by rewrite <- day_time.
Qed.

(** The host with local time [tz] milliseconds east of UTC. *)
Definition isoRuntime (tz : Z) : JsRuntime :=
  {| Number := parseNumber;
     Date_parse := parseIso;
     tzOffset := tz;
     Date_parse_toISOString := parseIso_toISOString |}.
