(* ===== verification/Model.v ===== *)
(** * Model: the data types of the program

    The TypeScript types of [App.tsx] and [part_000], one record per type,
    each in a module of its name so that fields keep their names
    ([Order.id], [User.id]).  A field is an [option] where the type marks it
    optional or where a record of the store can lack it ([Order.waiterId],
    [Order.time] and [User.role]: see [Store]). *)

From S2P Require Import Prelude.

(** [type Role = 'admin' | 'waiter' | 'collector'] *)
Inductive Role := Admin | Waiter | Collector.

(** The [status] of an order: ['paid' | 'loan' | 'pending']. *)
Inductive Status := Paid | Loan | Pending.

#[export] Instance Role_eq_dec : EqDecision Role.
Proof. solve_decision. Defined.
#[export] Instance Status_eq_dec : EqDecision Status.
Proof. solve_decision. Defined.

Module User.
Record t := {
  id : string;
  dbId : option string;
  name : string;
  role : option Role;
  phone : string;
  pin : string
}.
End User.
Abbreviation User := User.t.

Module Item.
Record t := {
  id : string;
  name : string;
  price : Z;
  stock : option Z
}.
End Item.
Abbreviation Item := Item.t.

Module OrderItem.
Record t := {
  itemId : string;
  qty : Z
}.
End OrderItem.
Abbreviation OrderItem := OrderItem.t.

Module Order.
Record t := {
  id : string;
  waiterId : option string;
  time : option string;
  items : list OrderItem;
  status : option Status;
  collector : option string
}.
End Order.
Abbreviation Order := Order.t.

Module LogEntry.
Record t := {
  id : string;
  userId : string;
  time : string;
  type : string;
  detail : option string
}.
End LogEntry.
Abbreviation LogEntry := LogEntry.t.

(** [type Banner = { type: 'success' | 'error'; message: string } | null]:
    a [Banner] is an [option] of this record. *)
Inductive BannerType := Success | Error.

Module Banner.
Record t := {
  type : BannerType;
  message : string
}.
End Banner.
Abbreviation Banner := (option Banner.t).

Definition success (m : string) : Banner :=
  Some {| Banner.type := Success; Banner.message := m |}.
Definition error (m : string) : Banner :=
  Some {| Banner.type := Error; Banner.message := m |}.

Module ReportStats.
Record t := {
  ordersCount : Z;
  itemsCount : Z;
  sales : Z;
  paid : Z;
  loan : Z;
  pending : Z
}.
End ReportStats.
Abbreviation ReportStats := ReportStats.t.

(** [type ReportRow = ReportStats & { label: string }] *)
Module ReportRow.
Record t := {
  label : string;
  stats : ReportStats
}.
End ReportRow.
Abbreviation ReportRow := ReportRow.t.

Module LoanEntry.
Record t := {
  id : string;
  orderId : string;
  amount : Z;
  date : string;
  servedBy : string
}.
End LoanEntry.
Abbreviation LoanEntry := LoanEntry.t.

Module LoanCustomer.
Record t := {
  id : string;
  dbId : option string;
  name : string;
  phone : string;
  loans : option (list (string * LoanEntry))
}.
End LoanCustomer.
Abbreviation LoanCustomer := LoanCustomer.t.

#[export] Instance BannerType_eq_dec : EqDecision BannerType.
Proof. solve_decision. Defined.
#[export] Instance User_eq_dec : EqDecision User.
Proof. solve_decision. Defined.
#[export] Instance Item_eq_dec : EqDecision Item.
Proof. solve_decision. Defined.
#[export] Instance OrderItem_eq_dec : EqDecision OrderItem.
Proof. solve_decision. Defined.
#[export] Instance Order_eq_dec : EqDecision Order.
Proof. solve_decision. Defined.
#[export] Instance LogEntry_eq_dec : EqDecision LogEntry.
Proof. solve_decision. Defined.
#[export] Instance Banner_eq_dec : EqDecision Banner.t.
Proof. solve_decision. Defined.
#[export] Instance ReportStats_eq_dec : EqDecision ReportStats.
Proof. solve_decision. Defined.
#[export] Instance ReportRow_eq_dec : EqDecision ReportRow.
Proof. solve_decision. Defined.
#[export] Instance LoanEntry_eq_dec : EqDecision LoanEntry.
Proof. solve_decision. Defined.
#[export] Instance LoanCustomer_eq_dec : EqDecision LoanCustomer.
Proof. solve_decision. Defined.

(** [!o.status || o.status === 'pending']: absent counts as pending. *)
Definition isPending (s : option Status) : bool :=
  match s with
  | None | Some Pending => true
  | _ => false
  end.

Definition isPaid (s : option Status) : bool := bool_decide (s = Some Paid).
Definition isLoan (s : option Status) : bool := bool_decide (s = Some Loan).

(** Exactly one of the three tests holds of a status. *)
Lemma status_cases (s : option Status) :
  (isPaid s = true /\ isLoan s = false /\ isPending s = false) \/
  (isPaid s = false /\ isLoan s = true /\ isPending s = false) \/
  (isPaid s = false /\ isLoan s = false /\ isPending s = true).
Proof. destruct s as [[]|]; compute; auto. Qed.
