(* ===== verification/Store.v ===== *)
(** * Store: the Firebase Realtime Database under [rms/]

    The store is a tree with five collections ([users], [items], [orders],
    [log], [loanCustomers]); a collection is the list of its children
    [(key, record)] in the order they were created.  A snapshot delivers
    the children by key: that is the same order for the keys [push]
    generates, which grow with time and sort before the identifiers the
    program writes into a path ([orders/order007]), and may be another
    order for two children created under such identifiers.  The order of a
    collection matters to the first match of a [find] only.

    A stored record is what the JSON at that path holds: a member the
    program defaults with [??] is an [option]; a required string is a
    [string], and a record that lacks one (which [update] can create at a
    path that holds nothing) is modelled with the empty string, where
    JavaScript has [undefined].  A record has no members but those the
    program writes; in particular no user has a member [dbId], which the
    spread of the users subscription would take in place of the key.

    The operations are the four the program calls ([push], [set], [update],
    [remove]), each at the paths it uses, and the decoders are the bodies of
    the [onValue] callbacks. *)

From S2P Require Import Prelude Dates Runtime Model.

(** ** Stored records *)

Module DbUser.
Record t := {
  id : option string;
  name : string;
  role : option Role;
  phone : string;
  pin : string
}.
End DbUser.
Abbreviation DbUser := DbUser.t.

Module DbItem.
Record t := {
  name : string;
  price : option Z;
  stock : option Z
}.
End DbItem.
Abbreviation DbItem := DbItem.t.

(** The [items] member of a stored order: an array of [{itemId, qty}], a
    map from item id to [{qty}] (the form the program writes), or absent. *)
Inductive DbOrderItems :=
  | ItemsArray (l : list OrderItem)
  | ItemsMap (m : list (string * option Z))
  | ItemsAbsent.

Module DbOrder.
Record t := {
  id : option string;
  waiterId : option string;
  waiter_id : option string;
  time : option string;
  status : option Status;
  collector : option string;
  items : DbOrderItems
}.
End DbOrder.
Abbreviation DbOrder := DbOrder.t.

Module DbLog.
Record t := {
  userId : string;
  time : string;
  type : string;
  detail : option string
}.
End DbLog.
Abbreviation DbLog := DbLog.t.

Module DbLoanCustomer.
Record t := {
  id : option string;
  name : string;
  phone : string;
  registeredBy : option string;
  loans : option (list (string * LoanEntry))
}.
End DbLoanCustomer.
Abbreviation DbLoanCustomer := DbLoanCustomer.t.

(** ** The store *)

Record Db := {
  dbUsers : list (string * DbUser);
  dbItems : list (string * DbItem);
  dbOrders : list (string * DbOrder);
  dbLog : list (string * DbLog);
  dbLoanCustomers : list (string * DbLoanCustomer)
}.

Definition emptyDb : Db :=
  {| dbUsers := []; dbItems := []; dbOrders := []; dbLog := [];
     dbLoanCustomers := [] |}.

(** No collection lists a key twice. *)
Definition dbWf (db : Db) : Prop :=
  NoDup (dbUsers db).*1 /\ NoDup (dbItems db).*1 /\ NoDup (dbOrders db).*1 /\
  NoDup (dbLog db).*1 /\ NoDup (dbLoanCustomers db).*1.

(** ** The result of a write *)

(** A write either completes or is rejected with an error message
    ([err.message] of the [catch] callbacks). *)
Inductive WriteResult := WriteOk | WriteFailed (message : string).

#[export] Instance WriteResult_eq_dec : EqDecision WriteResult.
Proof. solve_decision. Defined.

(** ** Children of a collection *)

Section Children.
Context {V : Type}.
Implicit Types (c : list (string * V)) (k : string) (v : V).

(** [set(ref(path/k), v)]: writes the child, which need not exist. *)
Definition setChild c k v : list (string * V) := aset c k v.

(** [update(ref(path/k), fields)]: merges [fields] into the child; an
    absent child is created from [blank] with those fields alone. *)
Definition updateChild (blank : V) (merge : V -> V) c k : list (string * V) :=
  aset c k (merge (alookup c k ?? blank)).

(** [remove(ref(path/k))]: deletes the child, if there is one. *)
Definition removeChild c k : list (string * V) := adelete c k.

Lemma alookup_updateChild blank merge c k k' :
  alookup (updateChild blank merge c k) k' =
  if decide (k = k') then Some (merge (alookup c k ?? blank)) else alookup c k'.
Proof. unfold updateChild. apply alookup_aset. Qed.

Lemma updateChild_NoDup blank merge c k :
  NoDup c.*1 -> NoDup (updateChild blank merge c k).*1.
Proof. apply aset_NoDup. Qed.

(** An update at the key of an existing child keeps the keys. *)
Lemma updateChild_keys_in blank merge c k :
  k ∈ c.*1 -> (updateChild blank merge c k).*1 = c.*1.
Proof. apply aset_keys_in. Qed.

(** An update at a key that is not there adds a child. *)
Lemma updateChild_keys_notin blank merge c k :
  k ∉ c.*1 -> (updateChild blank merge c k).*1 = c.*1 ++ [k].
Proof. apply aset_keys_notin. Qed.

End Children.

(** The records an [update] creates at a path that holds nothing. *)
Definition blankUser : DbUser :=
  {| DbUser.id := None; DbUser.name := ""; DbUser.role := None;
     DbUser.phone := ""; DbUser.pin := "" |}.

Definition blankItem : DbItem :=
  {| DbItem.name := ""; DbItem.price := None; DbItem.stock := None |}.

Definition blankOrder : DbOrder :=
  {| DbOrder.id := None; DbOrder.waiterId := None; DbOrder.waiter_id := None;
     DbOrder.time := None; DbOrder.status := None; DbOrder.collector := None;
     DbOrder.items := ItemsAbsent |}.

Definition blankLoanCustomer : DbLoanCustomer :=
  {| DbLoanCustomer.id := None; DbLoanCustomer.name := "";
     DbLoanCustomer.phone := ""; DbLoanCustomer.registeredBy := None;
     DbLoanCustomer.loans := None |}.

(** ** Decoding a snapshot

    The bodies of the [onValue] callbacks: [snap.val()] of a collection is
    its list of children ([null] when there is none, which decodes to the
    empty list as the empty object does). *)

Section Decoders.
Context `{JsRuntime}.

(** [new Date(b.time).getTime() - new Date(a.time).getTime()]: a difference
    with [NaN] is [NaN], on which [sort] acts as on 0. *)
Definition cmpTimeDesc (ta tb : option string) : Z :=
  match timeOf tb, timeOf ta with
  | Some b, Some a => b - a
  | _, _ => 0
  end.

Definition decodeUser (e : string * DbUser) : User :=
  let '(dbId, user) := e in
  {| User.id := DbUser.id user ?? dbId;
     User.dbId := Some dbId;
     User.name := DbUser.name user;
     User.role := Some (DbUser.role user ?? Waiter);
     User.phone := DbUser.phone user;
     User.pin := DbUser.pin user |}.

Definition decodeUsers (val : list (string * DbUser)) : list User :=
  map decodeUser val.

Definition decodeItem (e : string * DbItem) : Item :=
  let '(id, item) := e in
  {| Item.id := id;
     Item.name := DbItem.name item;
     Item.price := DbItem.price item ?? 0;
     Item.stock := Some (DbItem.stock item ?? 0) |}.

Definition decodeItems (val : list (string * DbItem)) : list Item :=
  map decodeItem val.

Definition decodeOrderItems (i : DbOrderItems) : list OrderItem :=
  match i with
  | ItemsArray l => l
  | ItemsMap m =>
      map (fun '(itemId, qty) =>
             {| OrderItem.itemId := itemId; OrderItem.qty := qty ?? 0 |}) m
  | ItemsAbsent => []
  end.

Definition decodeOrder (e : string * DbOrder) : Order :=
  let '(id, order) := e in
  {| Order.id := DbOrder.id order ?? id;
     Order.waiterId :=
       match DbOrder.waiterId order with
       | Some w => Some w
       | None => DbOrder.waiter_id order
       end;
     Order.time := DbOrder.time order;
     Order.status := Some (DbOrder.status order ?? Pending);
     Order.collector := Some (DbOrder.collector order ?? "");
     Order.items := decodeOrderItems (DbOrder.items order) |}.

Definition decodeOrders (val : list (string * DbOrder)) : list Order :=
  sortBy (fun a b => cmpTimeDesc (Order.time a) (Order.time b))
         (map decodeOrder val).

Definition decodeLog (e : string * DbLog) : LogEntry :=
  let '(id, log) := e in
  {| LogEntry.id := id;
     LogEntry.userId := DbLog.userId log;
     LogEntry.time := DbLog.time log;
     LogEntry.type := DbLog.type log;
     LogEntry.detail := DbLog.detail log |}.

Definition decodeLogs (val : list (string * DbLog)) : list LogEntry :=
  sortBy (fun a b => cmpTimeDesc (Some (LogEntry.time a)) (Some (LogEntry.time b)))
         (map decodeLog val).

Definition decodeLoanCustomer (e : string * DbLoanCustomer) : LoanCustomer :=
  let '(dbId, cust) := e in
  {| LoanCustomer.id := DbLoanCustomer.id cust ?? dbId;
     LoanCustomer.dbId := Some dbId;
     LoanCustomer.name := DbLoanCustomer.name cust;
     LoanCustomer.phone := DbLoanCustomer.phone cust;
     LoanCustomer.loans := Some (DbLoanCustomer.loans cust ?? []) |}.

Definition decodeLoanCustomers (val : list (string * DbLoanCustomer))
  : list LoanCustomer :=
  map decodeLoanCustomer val.

(** *** Facts on decoding *)

(** Decoding keeps every order of the snapshot, once each. *)
Lemma decodeOrders_perm val : decodeOrders val ≡ₚ map decodeOrder val.
Proof. apply sortBy_perm. Qed.

Lemma decodeOrders_length val : length (decodeOrders val) = length val.
Proof. unfold decodeOrders. by rewrite sortBy_length, length_map. Qed.

(** A decoded order has a status and a collector. *)
Lemma decodeOrders_status val o :
  o ∈ decodeOrders val ->
  is_Some (Order.status o) /\ is_Some (Order.collector o).
Proof.
  rewrite decodeOrders_perm. intros ([k d] & -> & _)%list_elem_of_fmap.
  simpl. eauto.
Qed.

(** The database key of a decoded user is the key of its record, whatever
    the [id] the record holds. *)
Lemma decodeUsers_dbId val u :
  u ∈ decodeUsers val ->
  exists k d, (k, d) ∈ val /\ User.dbId u = Some k /\ User.id u = DbUser.id d ?? k.
Proof. intros ([k d] & -> & Hin)%list_elem_of_fmap. by exists k, d. Qed.

End Decoders.
