(* ===== verification/State.v ===== *)
(** * State: the state of the [App] component

    One field per [useState] of [App()], with the name and the initial value
    of the source; a [set...] call of the source is a record update
    [s <| field := v |>].  The two [useRef]s hold DOM nodes and are not
    state of the model.  The browser's [localStorage] entry of the session
    is kept beside the component's state in a [Browser]. *)

From S2P Require Import Prelude Model.

(** The union types of the state. *)
Inductive Tab := Dash | Orders | Staff | Items | Reports | Loans.
Inductive Language := En | So.
Inductive ActionType := Reset | Profile.
Inductive OrderFilter := FilterAll | FilterActive | FilterDone | FilterPaid | FilterLoan.
Inductive ReportTab := Daily | Weekly | Monthly | Yearly.
Inductive ReportStatus := StatusAll | StatusPaid | StatusLoan.

#[export] Instance Tab_eq_dec : EqDecision Tab.
Proof. solve_decision. Defined.
#[export] Instance Language_eq_dec : EqDecision Language.
Proof. solve_decision. Defined.
#[export] Instance ActionType_eq_dec : EqDecision ActionType.
Proof. solve_decision. Defined.
#[export] Instance OrderFilter_eq_dec : EqDecision OrderFilter.
Proof. solve_decision. Defined.
#[export] Instance ReportTab_eq_dec : EqDecision ReportTab.
Proof. solve_decision. Defined.
#[export] Instance ReportStatus_eq_dec : EqDecision ReportStatus.
Proof. solve_decision. Defined.

Record AppState := {
  users : list User;
  items : list Item;
  orders : list Order;
  search : string;
  itemSearch : string;
  draftWaiter : string;
  draftQty : list (string * Z);
  banner : Banner;
  currentUser : option User;
  authPhone : string;
  authPin : string;
  authError : string;
  tab : Tab;
  language : Language;
  showOrderModal : bool;
  sidebarOpen : bool;
  profileOpen : bool;
  waiterSearch : string;
  newWaiterName : string;
  newWaiterPhone : string;
  newWaiterRole : Role;
  waiterModalOpen : bool;
  pendingDelete : option User;
  openAction : option string;
  actionWaiter : option User;
  actionType : option ActionType;
  actionName : string;
  actionPhone : string;
  actionRole : Role;
  actionPin : string;
  itemManageSearch : string;
  itemModalOpen : bool;
  newItemName : string;
  newItemPrice : string;
  newItemStock : string;
  openItemAction : option string;
  itemActionItem : option Item;
  itemActionName : string;
  itemActionPrice : string;
  itemActionStock : string;
  stockModalItem : option Item;
  stockModalValue : string;
  viewItem : option Item;
  viewOrder : option Order;
  pendingItemDelete : option Item;
  orderFilter : OrderFilter;
  orderWaiterFilter : string;
  isLoading : bool;
  reportTab : ReportTab;
  reportStart : string;
  reportEnd : string;
  reportStatus : ReportStatus;
  logs : list LogEntry;
  loanCustomers : list LoanCustomer;
  loanCustomerSearch : string;
  loanCustomerModalOpen : bool;
  newLoanCustomerName : string;
  newLoanCustomerPhone : string;
  loanEntryModalOpen : bool;
  loanEntryCustomerId : string;
  loanEntryOrderId : string;
  viewLoanCustomer : option LoanCustomer;
  loanStatusModalOpen : bool;
  loanStatusOrderId : string;
  loanStatusCustomerId : string;
  loanStatusSearch : string
}.

(** The state of the first render. *)
Definition initialState : AppState := {|
  users := [];
  items := [];
  orders := [];
  search := "";
  itemSearch := "";
  draftWaiter := "";
  draftQty := [];
  banner := None;
  currentUser := None;
  authPhone := "";
  authPin := "";
  authError := "";
  tab := Dash;
  language := En;
  showOrderModal := false;
  sidebarOpen := false;
  profileOpen := false;
  waiterSearch := "";
  newWaiterName := "";
  newWaiterPhone := "+25290";
  newWaiterRole := Waiter;
  waiterModalOpen := false;
  pendingDelete := None;
  openAction := None;
  actionWaiter := None;
  actionType := None;
  actionName := "";
  actionPhone := "";
  actionRole := Waiter;
  actionPin := "";
  itemManageSearch := "";
  itemModalOpen := false;
  newItemName := "";
  newItemPrice := "0";
  newItemStock := "0";
  openItemAction := None;
  itemActionItem := None;
  itemActionName := "";
  itemActionPrice := "0";
  itemActionStock := "0";
  stockModalItem := None;
  stockModalValue := "0";
  viewItem := None;
  viewOrder := None;
  pendingItemDelete := None;
  orderFilter := FilterAll;
  orderWaiterFilter := "all";
  isLoading := true;
  reportTab := Daily;
  reportStart := "";
  reportEnd := "";
  reportStatus := StatusAll;
  logs := [];
  loanCustomers := [];
  loanCustomerSearch := "";
  loanCustomerModalOpen := false;
  newLoanCustomerName := "";
  newLoanCustomerPhone := "+25290";
  loanEntryModalOpen := false;
  loanEntryCustomerId := "";
  loanEntryOrderId := "";
  viewLoanCustomer := None;
  loanStatusModalOpen := false;
  loanStatusOrderId := "";
  loanStatusCustomerId := "";
  loanStatusSearch := ""
|}.

(** [itemsById] and [usersById]: [Object.fromEntries] of the lists, the last
    record of an id winning. *)
Definition itemsById (s : AppState) : list (string * Item) :=
  fromEntries (map (fun item => (Item.id item, item)) (items s)).

Definition usersById (s : AppState) : list (string * User) :=
  fromEntries (map (fun user => (User.id user, user)) (users s)).

(** [`$${value.toFixed(2)}`] *)
Definition formatPrice (value : Z) : string := "$" +:+ toFixed2 value.

(** [closeOverlays]: every dialog and menu is closed and its fields are
    reset. *)
Definition closeOverlays (s : AppState) : AppState :=
  s <| waiterModalOpen := false |>
    <| pendingDelete := None |>
    <| openAction := None |>
    <| actionWaiter := None |>
    <| actionType := None |>
    <| actionRole := Waiter |>
    <| actionPin := "" |>
    <| itemModalOpen := false |>
    <| pendingItemDelete := None |>
    <| itemActionItem := None |>
    <| openItemAction := None |>
    <| viewItem := None |>
    <| viewOrder := None |>
    <| openAction := None |>
    <| newWaiterRole := Waiter |>
    <| loanCustomerModalOpen := false |>
    <| loanEntryModalOpen := false |>
    <| loanEntryCustomerId := "" |>
    <| loanEntryOrderId := "" |>
    <| viewLoanCustomer := None |>
    <| loanStatusModalOpen := false |>
    <| loanStatusOrderId := "" |>
    <| loanStatusCustomerId := "" |>
    <| loanStatusSearch := "" |>
    <| stockModalItem := None |>
    <| stockModalValue := "0" |>.

(** [state_simpl s] exposes the fields of the state [s] and computes the
    setter calls applied to it. *)
Ltac state_simpl s :=
  destruct s; repeat (progress (unfold apply_update, constant in *; simpl in *)).
