(* ===== verification/I18n.v ===== *)
(** * I18n: the two languages of the interface

    [TRANSLATIONS] and [tr] of revision C, and [statusLabel].  A key
    without a translation is shown as the key itself. *)

From S2P Require Import Prelude Model State.

(** [TRANSLATIONS.en] *)
Definition TRANSLATIONS_en : list (string * string) :=
  [
    ("dash", "Dash");
    ("orders", "Orders");
    ("staff", "Staff");
    ("items", "Items");
    ("reports", "Reports");
    ("loans", "Loans");
    ("loanBook", "Loan Book");
    ("searchOrders", "Search by Order ID (last 4 digits) or User Name");
    ("searchItems", "Search items");
    ("searchUsers", "Search users by name or phone");
    ("searchLoanCustomers", "Search loan customers");
    ("searchMenu", "Search menu items...");
    ("addUser", "+ Add user");
    ("addItem", "+ Add item");
    ("addLoanCustomer", "+ Add loan customer");
    ("addLoanEntry", "+ Add loan entry");
    ("submitOrder", "Submit Order");
    ("total", "Total");
    ("name", "Name");
    ("phone", "Phone");
    ("price", "Price");
    ("stock", "Stock");
    ("statusActive", "Active");
    ("statusDone", "Done");
    ("statusPending", "Pending");
    ("statusPaid", "Paid");
    ("statusLoan", "Loan");
    ("all", "All");
    ("active", "Active");
    ("paid", "Paid");
    ("loan", "Loan");
    ("done", "Done");
    ("loginTitle", "RestoDash Login");
    ("loginHint", "Access your management panel.");
    ("phoneNumber", "Phone Number");
    ("pinDigits", "PIN (4 digits)");
    ("signIn", "Sign In");
    ("dashboardTitle", "Dashboard");
    ("ordersTitle", "Orders");
    ("itemsTitle", "Items");
    ("staffTitle", "Users");
    ("reportsTitle", "Reports");
    ("loansTitle", "Loan Book");
    ("loanOrders", "Loan Orders");
    ("loanAmount", "Loan Amount");
    ("stockLeft", "Stock left");
    ("updateStock", "Update Stock");
    ("actions", "Actions");
    ("noItems", "No items found.");
    ("noUsers", "No users found.");
    ("noOrders", "No orders found.");
    ("noLoanCustomers", "No loan customers found.");
    ("noLoansYet", "No loans yet.");
    ("servedBy", "Served by");
    ("loanDetails", "Loan details");
    ("selectLoanCustomer", "Select loan customer");
    ("selectOrder", "Select order");
    ("cancel", "Cancel");
    ("delete", "Delete");
    ("edit", "Edit");
    ("view", "View");
    ("addEntry", "Add entry");
    ("addItemTitle", "Add Item");
    ("addUserTitle", "Add User");
    ("newOrderTitle", "New Order")
  ].

(** [TRANSLATIONS.so] *)
Definition TRANSLATIONS_so : list (string * string) :=
  [
    ("dash", "Degdeg");
    ("orders", "Dalabyo");
    ("staff", "Isticmaaleyaal");
    ("items", "Alaabo");
    ("reports", "Warbixinno");
    ("loans", "Dayn");
    ("loanBook", "Buugga Deynta");
    ("searchOrders", "Raadi dalab (4 lambar dambe) ama magac");
    ("searchItems", "Raadi alaabo");
    ("searchUsers", "Raadi isticmaaleyaal magac ama telefoon");
    ("searchLoanCustomers", "Raadi macaamiisha daynta");
    ("searchMenu", "Raadi alaabta menu...");
    ("addUser", "+ Ku dar isticmaal");
    ("addItem", "+ Ku dar alaab");
    ("addLoanCustomer", "+ Ku dar macmiil deyn");
    ("addLoanEntry", "+ Ku dar deyn");
    ("submitOrder", "Gudbi Dalabka");
    ("total", "Wadar");
    ("name", "Magac");
    ("phone", "Telefoon");
    ("price", "Qiime");
    ("stock", "Kayd");
    ("statusActive", "Firfircoon");
    ("statusDone", "Dhamey");
    ("statusPending", "Sugaya");
    ("statusPaid", "bixiyay");
    ("statusLoan", "Deyn");
    ("all", "Dhammaan");
    ("active", "ku taagan");
    ("paid", "bixiyay");
    ("loan", "Deyn");
    ("done", "dhammaaday");
    ("loginTitle", "RestoDash Gelid");
    ("loginHint", "Gali nidaamka maamulka.");
    ("phoneNumber", "Lambarka Telefoonka");
    ("pinDigits", "PIN (4 lambar)");
    ("signIn", "Gali");
    ("dashboardTitle", "Tusmo Araga");
    ("ordersTitle", "Dalabyo");
    ("itemsTitle", "Alaabo");
    ("staffTitle", "Shaaqalaha");
    ("reportsTitle", "Warbixinno");
    ("loansTitle", "Buugga Deynta");
    ("loanOrders", "Dalabyo Deyn");
    ("loanAmount", "Wadar Deyn");
    ("stockLeft", "int ka hadhay");
    ("updateStock", "Cusbooneysii kayd");
    ("actions", "sixid");
    ("noItems", "Alaab lama helin.");
    ("noUsers", "Isticmaal lama helin.");
    ("noOrders", "Dalab lama helin.");
    ("noLoanCustomers", "Ma jiraan macaamiil deyn.");
    ("noLoansYet", "Weli dayn ma jiro.");
    ("servedBy", "U adeegey");
    ("loanDetails", "Faahfaahinta deynta");
    ("selectLoanCustomer", "Dooro macmiil deyn");
    ("selectOrder", "Dooro dalab");
    ("cancel", "Jooji");
    ("delete", "Tirtir");
    ("edit", "Wax ka beddel");
    ("view", "Fiiri");
    ("addEntry", "Ku dar deyn");
    ("addItemTitle", "Ku dar Alaab");
    ("addUserTitle", "Ku dar Isticmaal");
    ("newOrderTitle", "Dalab Cusub")
  ].

Definition TRANSLATIONS (lang : Language) : list (string * string) :=
  match lang with
  | En => TRANSLATIONS_en
  | So => TRANSLATIONS_so
  end.

(** [TRANSLATIONS[lang]?.[key] ?? key] *)
Definition tr (lang : Language) (key : string) : string :=
  alookup (TRANSLATIONS lang) key ?? key.

(** [ROLE_LABEL] *)
Definition ROLE_LABEL (r : Role) : string :=
  match r with
  | Admin => "Admin"
  | Waiter => "Waiter"
  | Collector => "Collector"
  end.

(** The chip of an order in the list: its text and its [tone]. *)
Inductive Tone := TonePending | ToneDone.

(** [statusLabel(status)]: an order without status counts as pending, and
    every other status, paid or loan, reads as done. *)
Definition statusLabel (language : Language) (status : option Status)
    : string * Tone :=
  match status with
  | None | Some Pending => (tr language "statusActive", TonePending)
  | Some _ => (tr language "statusDone", ToneDone)
  end.

(** The keys [App()] passes to [tr]. *)
Definition usedKeys : list string :=
  ["actions"; "active"; "addItem"; "addLoanCustomer"; "addLoanEntry"; "addUser"; "all"; "dash"; "dashboardTitle"; "done"; "items"; "itemsTitle"; "loan"; "loanAmount"; "loanBook"; "loanOrders"; "loans"; "loginHint"; "loginTitle"; "name"; "newOrderTitle"; "noItems"; "noLoanCustomers"; "noLoansYet"; "noOrders"; "noUsers"; "orders"; "ordersTitle"; "paid"; "phone"; "phoneNumber"; "pinDigits"; "price"; "reports"; "reportsTitle"; "searchItems"; "searchLoanCustomers"; "searchMenu"; "searchOrders"; "searchUsers"; "servedBy"; "signIn"; "staff"; "staffTitle"; "statusActive"; "statusDone"; "statusLoan"; "statusPaid"; "statusPending"; "stock"; "submitOrder"; "total"].

(** ** Properties *)

Definition translated (lang : Language) (key : string) : Prop :=
  is_Some (alookup (TRANSLATIONS lang) key).

#[export] Instance translated_dec lang key : Decision (translated lang key).
Proof. unfold translated. apply _. Defined.

(** A translated key is shown as the text of the table, any other as the
    key itself. *)
Lemma tr_translated lang key text :
  alookup (TRANSLATIONS lang) key = Some text -> tr lang key = text.
Proof. unfold tr. now intros ->. Qed.

Lemma tr_fallback lang key :
  alookup (TRANSLATIONS lang) key = None -> tr lang key = key.
Proof. unfold tr. now intros ->. Qed.

(** The two tables of [TRANSLATIONS] have the same keys in the same
    order, no key twice: switching the language never turns a text into a
    raw key or back. *)
Theorem TRANSLATIONS_aligned :
  TRANSLATIONS_en.*1 = TRANSLATIONS_so.*1 /\ NoDup (TRANSLATIONS_en.*1).
Proof. split; [reflexivity | by_compute]. Qed.

(** Every key the interface passes to [tr] is translated in both
    languages, so no screen shows a raw key. *)
Theorem usedKeys_translated :
  forall lang key, key ∈ usedKeys -> translated lang key.
Proof.
  intros lang key Hin. revert key Hin. apply Forall_forall.
  destruct lang; by_compute.
Qed.

Lemma usedKeys_translated_witness : translated So "statusDone".
Proof. apply usedKeys_translated. by_compute. Defined.

(** The chip of an order is "done" exactly when the order is settled,
    whichever way; its text is the translation, never the key. *)
Theorem statusLabel_tone language status :
  (statusLabel language status).2 = ToneDone <-> status = Some Paid \/ status = Some Loan.
Proof.
  destruct status as [[]|]; simpl; split; intros H;
    try discriminate; intuition (try discriminate; auto).
Qed.
