(* ===== verification/Effects.v ===== *)
(** * Effects: what a handler does besides updating the state

    A handler of [App()] runs to completion on the state of the current
    render, calls setters, and starts store calls ([push], [set], [update],
    [remove]) whose promises it chains [then], [catch] or [finally]
    callbacks on.  The model of a handler is a function from the state (and
    what the environment supplies: the clock, the key [push] generates) to
    an [Outcome]: the state after the setter calls, and the store calls
    started, each with its callbacks as functions of the state they will run
    on.

    [applyWrite] is the effect of a store call on the database. *)

From S2P Require Import Prelude Dates Runtime Model Store State.

(** What the environment supplies to a handler or a callback: [Date.now()]
    and the key the next [push] generates. *)
Record Env := {
  now : Z;
  pushKey : string
}.

(** The store calls of the program, by path.  A [push] is the write of the
    child under its generated key. *)
Inductive Write :=
  | SetUser (key : string) (user : DbUser)
  | UpdateUser (pathId : string) (name phone : string) (role : option Role)
               (pin : option string)
  | UpdateUserPin (pathId : string) (pin : string)
  | RemoveUser (pathId : string)
  | SetItem (key : string) (item : DbItem)
  | UpdateItem (id : string) (name : string) (price : Z) (stock : option Z)
  | UpdateItemStock (id : string) (stock : Z)
  | RemoveItem (id : string)
  | SetOrder (key : string) (order : DbOrder)
  | UpdateOrderStatus (id : string) (status : Status) (collector : string)
  | UpdateOrderStatusOnly (id : string) (status : Status)
  | SetLog (key : string) (entry : DbLog)
  | SetLoanCustomer (key : string) (cust : DbLoanCustomer)
  | SetLoanEntry (pathId key : string) (entry : LoanEntry).

#[export] Instance DbUser_eq_dec : EqDecision DbUser.
Proof. solve_decision. Defined.
#[export] Instance DbItem_eq_dec : EqDecision DbItem.
Proof. solve_decision. Defined.
#[export] Instance DbOrderItems_eq_dec : EqDecision DbOrderItems.
Proof. solve_decision. Defined.
#[export] Instance DbOrder_eq_dec : EqDecision DbOrder.
Proof. solve_decision. Defined.
#[export] Instance DbLog_eq_dec : EqDecision DbLog.
Proof. solve_decision. Defined.
#[export] Instance DbLoanCustomer_eq_dec : EqDecision DbLoanCustomer.
Proof. solve_decision. Defined.
#[export] Instance Write_eq_dec : EqDecision Write.
Proof. solve_decision. Defined.

(** The effect of a store call.  [set] replaces the child and [update]
    merges the fields it names, both creating the child (and the path to
    it) when there is none; [remove] deletes it. *)
Definition applyWrite (w : Write) (db : Db) : Db :=
  match w with
  | SetUser key user => db <| dbUsers ::= fun c => setChild c key user |>
  | UpdateUser pathId name phone role pin =>
      db <| dbUsers ::= fun c =>
        updateChild blankUser
          (fun u => {| DbUser.id := DbUser.id u;
                       DbUser.name := name;
                       DbUser.phone := phone;
                       DbUser.role := match role with
                                      | Some r => Some r
                                      | None => DbUser.role u
                                      end;
                       DbUser.pin := pin ?? DbUser.pin u |}) c pathId |>
  | UpdateUserPin pathId pin =>
      db <| dbUsers ::= fun c =>
        updateChild blankUser (fun u => u <| DbUser.pin := pin |>) c pathId |>
  | RemoveUser pathId => db <| dbUsers ::= fun c => removeChild c pathId |>
  | SetItem key item => db <| dbItems ::= fun c => setChild c key item |>
  | UpdateItem id name price stock =>
      db <| dbItems ::= fun c =>
        updateChild blankItem
          (fun i => {| DbItem.name := name;
                       DbItem.price := Some price;
                       DbItem.stock := match stock with
                                       | Some n => Some n
                                       | None => DbItem.stock i
                                       end |}) c id |>
  | UpdateItemStock id stock =>
      db <| dbItems ::= fun c =>
        updateChild blankItem (fun i => i <| DbItem.stock := Some stock |>) c id |>
  | RemoveItem id => db <| dbItems ::= fun c => removeChild c id |>
  | SetOrder key order => db <| dbOrders ::= fun c => setChild c key order |>
  | UpdateOrderStatus id status collector =>
      db <| dbOrders ::= fun c =>
        updateChild blankOrder
          (fun o => o <| DbOrder.status := Some status |>
                      <| DbOrder.collector := Some collector |>) c id |>
  | UpdateOrderStatusOnly id status =>
      db <| dbOrders ::= fun c =>
        updateChild blankOrder (fun o => o <| DbOrder.status := Some status |>) c id |>
  | SetLog key entry => db <| dbLog ::= fun c => setChild c key entry |>
  | SetLoanCustomer key cust =>
      db <| dbLoanCustomers ::= fun c => setChild c key cust |>
  | SetLoanEntry pathId key entry =>
      db <| dbLoanCustomers ::= fun c =>
        updateChild blankLoanCustomer
          (fun cu => cu <| DbLoanCustomer.loans :=
                             Some (aset (DbLoanCustomer.loans cu ?? []) key entry) |>)
          c pathId |>
  end.

(** Writes applied in the order they were started. *)
Definition applyAll (ws : list Write) (db : Db) : Db :=
  fold_left (fun d w => applyWrite w d) ws db.

(** One store call of a handler and the callbacks chained on its promise.
    [write] is [None] when the promise is already resolved and nothing is
    written.  [onThen] and [thenLog] are the [then] callback: its setter
    calls and the [addLog] call in it; [onCatch] gets the error message;
    [onFinally] runs in both cases. *)
Record Call := {
  write : option Write;
  onThen : AppState -> AppState;
  thenLog : Env -> option Write;
  onCatch : string -> AppState -> AppState;
  onFinally : AppState -> AppState
}.

(** A store call without callbacks. *)
Definition fireAndForget (w : Write) : Call :=
  {| write := Some w; onThen := id; thenLog := fun _ => None;
     onCatch := fun _ => id; onFinally := id |}.

(** [p.then(f).catch((err) => setBanner({ type: 'error', message:
    err.message }))], the chain of most handlers. *)
Definition thenOrBanner (w : Write) (f : AppState -> AppState)
    (log : Env -> option Write) : Call :=
  {| write := Some w; onThen := f; thenLog := log;
     onCatch := fun message s => s <| banner := error message |>;
     onFinally := id |}.

(** The entry [rms_session] of the browser's [localStorage]: absent, a text
    that [JSON.parse] refuses, or a session. *)
Inductive Storage :=
  | NoItem
  | Unparsable
  | Session (userId : string) (expiresAt : Z).

(** What a handler does to that entry. *)
Inductive StorageOp :=
  | Keep
  | SetSession (userId : string) (expiresAt : Z)
  | RemoveSession.

Definition applyStorage (op : StorageOp) (st : Storage) : Storage :=
  match op with
  | Keep => st
  | SetSession userId expiresAt => Session userId expiresAt
  | RemoveSession => NoItem
  end.

(** What a handler does: the state after its setter calls, the store calls
    it started, in order, what it did to the session entry, and whether it
    ended by an exception. *)
Record Outcome := {
  next : AppState;
  calls : list Call;
  storage : StorageOp;
  threw : bool
}.

(** A handler that only sets state. *)
Definition pure (s : AppState) : Outcome :=
  {| next := s; calls := []; storage := Keep; threw := false |}.

(** A handler that sets state and starts store calls. *)
Definition started (s : AppState) (cs : list Call) : Outcome :=
  {| next := s; calls := cs; storage := Keep; threw := false |}.

(** A handler that ended by an exception after starting [cs]. *)
Definition raised (s : AppState) (cs : list Call) : Outcome :=
  {| next := s; calls := cs; storage := Keep; threw := true |}.

(** The setter calls of an event handler after the handler it called. *)
Definition andThen (o : Outcome) (f : AppState -> AppState) : Outcome :=
  o <| next ::= f |>.

(** The writes a handler started. *)
Definition writesOf (o : Outcome) : list Write :=
  omap write (calls o).

(** [addLog(entry)]: [push(dbPath('log'), entry).catch(() => null)]. *)
Definition addLog (e : Env) (entry : DbLog) : Write := SetLog (pushKey e) entry.

(** [currentUser?.id ?? 'system'], the actor of a log entry. *)
Definition actorOf (s : AppState) : string :=
  currentUser s ?. User.id ?? "system".

(** The [addLog] call of a [then] callback: the actor is the user of the
    render the handler ran in, the time is read when the callback runs. *)
Definition logThen (s : AppState) (type detail : string) (e : Env) : option Write :=
  Some (addLog e {| DbLog.userId := actorOf s;
                    DbLog.time := toISOString (now e);
                    DbLog.type := type;
                    DbLog.detail := Some detail |}).

(** The completion of a store call: the callbacks that run, on the state of
    that moment. *)
Definition complete (c : Call) (r : WriteResult) (s : AppState) : AppState :=
  onFinally c
    match r with
    | WriteOk => onThen c s
    | WriteFailed message => onCatch c message s
    end.

(** The writes the completion starts: the [addLog] of the [then] callback. *)
Definition completionWrites (c : Call) (r : WriteResult) (e : Env) : list Write :=
  match r with
  | WriteOk => option_list (thenLog c e)
  | WriteFailed _ => []
  end.

(** ** Facts *)

Lemma applyAll_cons w ws db : applyAll (w :: ws) db = applyAll ws (applyWrite w db).
Proof. reflexivity. Qed.
