(* ===== verification/Sample.v ===== *)
(** * Sample: concrete data for the examples and witnesses

    A small restaurant: two items, an administrator, two waiters and a
    collector, and a few orders, among them the two orders of the example of
    the specification (section 8).  [rt] is the host all examples run on:
    [isoRuntime] in UTC. *)

From S2P Require Import Prelude Dates Runtime Model Store State Effects.

Definition rt : JsRuntime := isoRuntime 0.

(** The host of a browser three hours east of UTC (Africa/Mogadishu). *)
Definition rtEast : JsRuntime := isoRuntime 10800000.

Definition itemA : Item :=
  {| Item.id := "A"; Item.name := "Tea"; Item.price := 5; Item.stock := Some 10 |}.
Definition itemB : Item :=
  {| Item.id := "B"; Item.name := "Rice"; Item.price := 10; Item.stock := Some 4 |}.

Definition admin1 : User :=
  {| User.id := "admin-1"; User.dbId := Some "-Ka"; User.name := "Amina";
     User.role := Some Admin; User.phone := "611111"; User.pin := "1111" |}.
Definition waiter1 : User :=
  {| User.id := "waiter-1"; User.dbId := Some "-Kb"; User.name := "Bile";
     User.role := Some Waiter; User.phone := "622222"; User.pin := "2222" |}.
Definition waiter2 : User :=
  {| User.id := "waiter-2"; User.dbId := Some "-Kc"; User.name := "Cawil";
     User.role := Some Waiter; User.phone := "633333"; User.pin := "3333" |}.
Definition collector1 : User :=
  {| User.id := "collector-1"; User.dbId := Some "-Kd"; User.name := "Deeqa";
     User.role := Some Collector; User.phone := "644444"; User.pin := "4444" |}.

(** The two orders of the example of the specification. *)
Definition order1 : Order :=
  {| Order.id := "order001"; Order.waiterId := Some "waiter-1";
     Order.time := Some "2024-01-05T10:00:00.000Z";
     Order.items := [{| OrderItem.itemId := "A"; OrderItem.qty := 2 |}];
     Order.status := Some Paid; Order.collector := Some "Deeqa" |}.
Definition order2 : Order :=
  {| Order.id := "order002"; Order.waiterId := Some "waiter-2";
     Order.time := Some "2024-01-06T12:30:00.000Z";
     Order.items := [{| OrderItem.itemId := "B"; OrderItem.qty := 1 |}];
     Order.status := Some Loan; Order.collector := Some "Deeqa" |}.

(** A pending order of the same day as [order2], with an item that is no
    longer in the catalogue. *)
Definition order3 : Order :=
  {| Order.id := "order003"; Order.waiterId := Some "waiter-1";
     Order.time := Some "2024-01-06T18:00:00.000Z";
     Order.items := [{| OrderItem.itemId := "A"; OrderItem.qty := 1 |};
                     {| OrderItem.itemId := "gone"; OrderItem.qty := 3 |}];
     Order.status := Some Pending; Order.collector := Some "" |}.

(** An order whose time does not parse, and which has no number. *)
Definition order4 : Order :=
  {| Order.id := "-Kx1"; Order.waiterId := None;
     Order.time := Some "yesterday";
     Order.items := [{| OrderItem.itemId := "B"; OrderItem.qty := 2 |}];
     Order.status := None; Order.collector := None |}.

(** The state of the example of the specification. *)
Definition specState : AppState :=
  initialState <| items := [itemA; itemB] |>
               <| users := [admin1; waiter1; waiter2; collector1] |>
               <| orders := [order2; order1] |>
               <| isLoading := false |>.

(** A state with all four orders, newest first as the subscription sorts. *)
Definition sampleState : AppState :=
  specState <| orders := [order3; order2; order1; order4] |>.

(** ** A store *)

Definition dbUserOf (u : User) : DbUser :=
  {| DbUser.id := Some (User.id u); DbUser.name := User.name u;
     DbUser.role := User.role u; DbUser.phone := User.phone u;
     DbUser.pin := User.pin u |}.

Definition custX : DbLoanCustomer :=
  {| DbLoanCustomer.id := Some "-Lx"; DbLoanCustomer.name := "Xasan";
     DbLoanCustomer.phone := "655555";
     DbLoanCustomer.registeredBy := Some "admin-1";
     DbLoanCustomer.loans := None |}.
Definition custY : DbLoanCustomer :=
  {| DbLoanCustomer.id := Some "-Ly"; DbLoanCustomer.name := "Yusuf";
     DbLoanCustomer.phone := "666666";
     DbLoanCustomer.registeredBy := Some "admin-1";
     DbLoanCustomer.loans := None |}.

(** An order as revision B stored it: without an [id] member, so that its
    identifier is its key. *)
Definition storedOrder : DbOrder :=
  {| DbOrder.id := None; DbOrder.waiterId := None;
     DbOrder.waiter_id := Some "waiter-1";
     DbOrder.time := Some "2024-01-06T18:00:00.000Z";
     DbOrder.status := Some Pending; DbOrder.collector := Some "";
     DbOrder.items := ItemsMap [("A", Some 2)] |}.

Definition sampleDb : Db :=
  {| dbUsers := [("-Ka", dbUserOf admin1); ("-Kb", dbUserOf waiter1);
                 ("-Kd", dbUserOf collector1)];
     dbItems := [("A", {| DbItem.name := "Tea"; DbItem.price := Some 5;
                          DbItem.stock := Some 10 |})];
     dbOrders := [("-Mo1", storedOrder)];
     dbLog := [];
     dbLoanCustomers := [("-Lx", custX); ("-Ly", custY)] |}.

(** The order of [sampleDb] as a client sees it. *)
Definition theOrder : Order := @decodeOrder ("-Mo1", storedOrder).

(** The state of a browser in which [u] is signed in and which has received
    every collection of [db]. *)
Definition viewOf (db : Db) (u : User) : AppState :=
  initialState <| users := decodeUsers (dbUsers db) |>
               <| items := decodeItems (dbItems db) |>
               <| orders := @decodeOrders rt (dbOrders db) |>
               <| logs := @decodeLogs rt (dbLog db) |>
               <| loanCustomers := decodeLoanCustomers (dbLoanCustomers db) |>
               <| currentUser := Some u |>
               <| tab := Orders |>
               <| isLoading := false |>.

(** The collector's browser; the same with the loan dialog filled in; and a
    waiter's browser with a draft of three teas. *)
Definition collectorView : AppState := viewOf sampleDb collector1.
Definition dialogView : AppState :=
  collectorView <| loanStatusOrderId := "-Mo1" |> <| loanStatusCustomerId := "-Lx" |>.
Definition draftView : AppState :=
  (viewOf sampleDb waiter1) <| draftWaiter := "waiter-1" |>
                            <| draftQty := [("A", 3)] |>.

(** The customers of [db] as a client sees them. *)
Definition customerOf (db : Db) (key : string) : LoanCustomer :=
  decodeLoanCustomer (key, alookup (dbLoanCustomers db) key ?? blankLoanCustomer).

(** The environment at time [n] in which [push] generates the key [k]. *)
Definition env (n : Z) (k : string) : Env := {| now := n; pushKey := k |}.

(** [sampleDb] after the order has been loaned to the first customer. *)
Definition entry1 : LoanEntry :=
  {| LoanEntry.id := "-N1"; LoanEntry.orderId := "-Mo1"; LoanEntry.amount := 10;
     LoanEntry.date := "2024-01-06T18:00:00.000Z"; LoanEntry.servedBy := "Bile" |}.

Definition loanedDb : Db :=
  applyWrite (SetLoanEntry "-Lx" "-N1" entry1)
    (applyWrite (UpdateOrderStatus "-Mo1" Loan "Deeqa") sampleDb).
