(* ===== verification/Auth.v ===== *)
(** * Auth: signing in, signing out and the stored session

    [normalizePhone], [handleLogin], [handleLogout] and the effect that
    restores a session from the browser's storage, with the two small
    effects of the header (the banner's timer, the profile card closing on
    a click outside).  The clock is read once per handler: [new Date()] and
    [Date.now()] of one run of [handleLogin] are the same instant. *)

From S2P Require Import Prelude Dates Runtime Model Store State Effects Sample.

(** [normalizePhone]: the digits of the number without the country code
    [252] and without a leading [0] (or [90], after the country code). *)
Definition normalizePhone (phone : string) : string :=
  let digits := digitsOnly phone in
  if startsWith digits "25290" then sliceFrom 5 digits
  else if startsWith digits "2520" then sliceFrom 4 digits
  else if startsWith digits "252" then sliceFrom 3 digits
  else if startsWith digits "0" then sliceFrom 1 digits
  else digits.

(** The tab a user lands on:
    [role === 'waiter' || role === 'collector' ? 'orders' : 'dash']. *)
Definition homeTab (role : option Role) : Tab :=
  if bool_decide (role = Some Waiter) || bool_decide (role = Some Collector)
  then Orders else Dash.

(** The predicate of [users.find] in [handleLogin]. *)
Definition credentialsMatch (phone normalized pin : string) (user : User) : bool :=
  if negb (bool_decide (User.pin user = pin)) then false
  else
    let stored := normalizePhone (User.phone user) in
    bool_decide (User.phone user = phone)
    || bool_decide (stored = normalized)
    || endsWith stored normalized
    || endsWith normalized stored.

(** The session lasts [60 * 60 * 1000] milliseconds. *)
Definition sessionLength : Z := 60 * 60 * 1000.

Definition handleLogin (e : Env) (s : AppState) : Outcome :=
  if bool_decide (users s = []) then
    pure (s <| authError := "Data is still loading. Try again in a moment." |>)
  else
    let phone := trim (authPhone s) in
    let normalized := normalizePhone phone in
    let pin := trim (authPin s) in
    match findBy (credentialsMatch phone normalized pin) (users s) with
    | None => pure (s <| authError := "Invalid phone or PIN. Try again." |>)
    | Some found =>
        {| next :=
             s <| authError := "" |>
               <| currentUser := Some found |>
               <| tab := homeTab (User.role found) |>
               <| sidebarOpen := false |>
               <| profileOpen := false |>
               <| banner := success ("Welcome, " +:+ User.name found +:+ "!") |>
               <| draftWaiter ::= fun d =>
                    if bool_decide (User.role found = Some Waiter)
                    then User.id found else d |>;
           calls :=
             [fireAndForget
                (addLog e {| DbLog.userId := User.id found;
                             DbLog.time := toISOString (now e);
                             DbLog.type := "login";
                             DbLog.detail := None |})];
           storage := SetSession (User.id found) (now e + sessionLength);
           threw := false |}
    end.

Definition handleLogout (s : AppState) : Outcome :=
  {| next := s <| currentUser := None |>
               <| banner := None |>
               <| draftWaiter := "" |>
               <| profileOpen := false |>;
     calls := [];
     storage := RemoveSession;
     threw := false |}.

(** The effect on [[users, currentUser]]: without a signed-in user and once
    the users have arrived, the stored session signs its user in, unless it
    is over; an entry that is over or does not parse is removed.  An entry
    that parses to something else than a session is not modelled: the
    program writes sessions only. *)
Definition restoreSession (e : Env) (st : Storage) (s : AppState) : Outcome :=
  match currentUser s, st with
  | Some _, _ | None, NoItem => pure s
  | None, _ =>
      if bool_decide (users s = []) then pure s
      else
        match st with
        | Session userId expiresAt =>
            if expiresAt <? now e then
              {| next := s; calls := []; storage := RemoveSession; threw := false |}
            else
              match findBy (fun u => bool_decide (User.id u = userId)) (users s) with
              | Some found =>
                  pure (s <| currentUser := Some found |>
                          <| draftWaiter ::= fun d =>
                               if bool_decide (User.role found = Some Waiter)
                               then User.id found else d |>
                          <| tab := homeTab (User.role found) |>)
              | None => pure s
              end
        | _ => {| next := s; calls := []; storage := RemoveSession; threw := false |}
        end
  end.

(** The effect on [[banner]]: a banner starts a timer of 5000 ms whose
    callback takes the banner down; the timer is cleared when another
    banner replaces it before.  The result is the delay and the callback,
    [None] when no timer is set. *)
Definition bannerEffect (s : AppState) : option (Z * (AppState -> AppState)) :=
  match banner s with
  | None => None
  | Some _ => Some (5000, fun s => s <| banner := None |>)
  end.

(** The effect on [[profileOpen]]: a [mousedown] outside the card and the
    avatar closes the profile card. *)
Definition profileMouseDown (insideCard insideAvatar : bool) (s : AppState)
    : AppState :=
  if negb (profileOpen s) then s
  else if insideCard then s
  else if insideAvatar then s
  else s <| profileOpen := false |>.

(** The query of [handleLogin] on the form of [s]. *)
Definition loginQuery (s : AppState) : User -> bool :=
  credentialsMatch (trim (authPhone s)) (normalizePhone (trim (authPhone s)))
                   (trim (authPin s)).

(** The sign-in form, filled in. *)
Definition loginForm (phone pin : string) : AppState :=
  specState <| authPhone := phone |> <| authPin := pin |>.

(** ** Phone numbers *)

(** C37. [normalizePhone] reads the ways a number is written as the same
    number: with [+25290], [+2520] or [0] before it, with the country code
    [+252] alone, or bare, as long as the bare number does not itself begin
    like a prefix. *)
Theorem normalizePhone_formats d :
  allChars isDigit d = true ->
  normalizePhone ("+25290" +:+ d) = d /\
  normalizePhone ("+2520" +:+ d) = d /\
  normalizePhone ("0" +:+ d) = d /\
  (startsWith d "90" = false -> startsWith d "0" = false ->
   normalizePhone ("+252" +:+ d) = d) /\
  (startsWith d "252" = false -> startsWith d "0" = false ->
   normalizePhone d = d).
Proof.
  intros Hd%(filterChars_all isDigit).
  unfold normalizePhone, digitsOnly, startsWith.
  rewrite !filterChars_app, Hd. split_and!; try (simpl; by rewrite ?prefix_empty).
  - intros H90 H0.
    change (filterChars isDigit "+252" +:+ d)
      with (String "2" (String "5" (String "2" d))).
    rewrite !prefix_cons, H90, H0, prefix_empty. reflexivity.
  - intros H252 H0.
    change "25290" with ("252" +:+ "90"). change "2520" with ("252" +:+ "0").
    by rewrite !prefix_weaken, H252, H0.
Qed.

Lemma normalizePhone_formats_witness :
  normalizePhone "+25290622222" = "622222" /\
  normalizePhone "+2520622222" = "622222" /\
  normalizePhone "0622222" = "622222" /\
  (startsWith "622222" "90" = false -> startsWith "622222" "0" = false ->
   normalizePhone "+252622222" = "622222") /\
  (startsWith "622222" "252" = false -> startsWith "622222" "0" = false ->
   normalizePhone "622222" = "622222").
Proof. apply (normalizePhone_formats "622222"). reflexivity. Defined.

(** The result of [normalizePhone] has digits only. *)
Lemma normalizePhone_digits phone : allChars isDigit (normalizePhone phone) = true.
Proof.
  unfold normalizePhone, digitsOnly.
  repeat case_if; auto using allChars_sliceFrom, allChars_filterChars.
Qed.

(** ** Signing in *)

Lemma credentialsMatch_pin phone normalized pin user :
  credentialsMatch phone normalized pin user = true -> User.pin user = pin.
Proof. unfold credentialsMatch. by case_bool_decide. Qed.

(** Without a digit in the phone field, the PIN alone decides. *)
Lemma credentialsMatch_blank phone pin user :
  credentialsMatch phone "" pin user = bool_decide (User.pin user = pin).
Proof.
  unfold credentialsMatch. case_bool_decide; simpl; [|done].
  by rewrite endsWith_empty, orb_true_r.
Qed.

Lemma handleLogin_match e s found :
  findBy (loginQuery s) (users s) = Some found ->
  currentUser (next (handleLogin e s)) = Some found /\
  storage (handleLogin e s) = SetSession (User.id found) (now e + sessionLength) /\
  writesOf (handleLogin e s) =
    [SetLog (pushKey e) {| DbLog.userId := User.id found;
                           DbLog.time := toISOString (now e);
                           DbLog.type := "login"; DbLog.detail := None |}].
Proof.
  intros F. pose proof (findBy_Some _ _ _ F) as [Hin _].
  unfold handleLogin. fold (loginQuery s). rewrite F.
  case_bool_decide as Hu; [rewrite Hu in Hin; by apply elem_of_nil in Hin|].
  by state_simpl s.
Qed.

Lemma handleLogin_no_match e s :
  findBy (loginQuery s) (users s) = None ->
  currentUser (next (handleLogin e s)) = currentUser s /\
  storage (handleLogin e s) = Keep /\ writesOf (handleLogin e s) = [] /\
  authError (next (handleLogin e s)) <> "".
Proof.
  intros F. unfold handleLogin. fold (loginQuery s). rewrite F.
  case_bool_decide; by state_simpl s.
Qed.

(** C10. [handleLogin] signs in only a user of the list whose PIN is the one
    typed, and stores a session of that user that ends one hour later. *)
Theorem handleLogin_sound e s u :
  currentUser s = None ->
  currentUser (next (handleLogin e s)) = Some u ->
  u ∈ users s /\ User.pin u = trim (authPin s) /\
  storage (handleLogin e s) = SetSession (User.id u) (now e + sessionLength).
Proof.
  intros Hn Hu. destruct (findBy (loginQuery s) (users s)) as [found|] eqn:F.
  - destruct (handleLogin_match e s found F) as (Hc & Hs & _).
    assert (found = u) as -> by congruence.
    apply findBy_Some in F as [Hin Hq].
    eauto using credentialsMatch_pin.
  - destruct (handleLogin_no_match e s F) as (Hc & _). congruence.
Qed.

Lemma handleLogin_sound_witness :
  waiter1 ∈ users (loginForm "+252 622222" "2222") /\
  User.pin waiter1 = trim (authPin (loginForm "+252 622222" "2222")) /\
  storage (handleLogin (env 1000 "-k") (loginForm "+252 622222" "2222"))
    = SetSession "waiter-1" (1000 + sessionLength).
Proof.
  apply (handleLogin_sound (env 1000 "-k") (loginForm "+252 622222" "2222") waiter1);
    reflexivity.
Defined.

(** C33. A sign-in form without a digit in the phone field signs in the
    first user of the list whose PIN is the one typed: the phone number is
    not checked, since every string ends with the empty string. *)
Theorem handleLogin_blank_phone e s found :
  normalizePhone (trim (authPhone s)) = "" ->
  findBy (fun u => bool_decide (User.pin u = trim (authPin s))) (users s) = Some found ->
  currentUser (next (handleLogin e s)) = Some found.
Proof.
  intros Hb F. apply handleLogin_match. unfold loginQuery. rewrite Hb.
  rewrite <- F. apply findBy_ext. intros u. apply credentialsMatch_blank.
Qed.

Lemma handleLogin_blank_phone_witness :
  currentUser (next (handleLogin (env 1000 "-k") (loginForm "" "1111"))) = Some admin1.
Proof. apply handleLogin_blank_phone; reflexivity. Defined.

(** ** The stored session *)

Lemma restoreSession_in e s userId expiresAt u :
  currentUser s = None ->
  currentUser (next (restoreSession e (Session userId expiresAt) s)) = Some u ->
  now e <= expiresAt /\ User.id u = userId /\ u ∈ users s.
Proof.
  intros Hout. unfold restoreSession. rewrite Hout.
  case_bool_decide; [state_simpl s; congruence|].
  destruct (Z.ltb_spec expiresAt (now e)); [state_simpl s; congruence|].
  destruct (findBy _ _) as [found|] eqn:F; [|state_simpl s; congruence].
  apply findBy_Some in F as [Hin Hid]. apply bool_decide_eq_true in Hid.
  intros Hu. assert (found = u) as <- by (state_simpl s; congruence). done.
Qed.

Lemma restoreSession_found e s userId expiresAt found :
  currentUser s = None ->
  now e <= expiresAt ->
  findBy (fun u => bool_decide (User.id u = userId)) (users s) = Some found ->
  currentUser (next (restoreSession e (Session userId expiresAt) s)) = Some found.
Proof.
  intros Hout Ht F. pose proof (findBy_Some _ _ _ F) as [Hin _].
  unfold restoreSession. rewrite Hout, F.
  case_bool_decide as Hu; [rewrite Hu in Hin; by apply elem_of_nil in Hin|].
  destruct (Z.ltb_spec expiresAt (now e)); [lia|]. by state_simpl s.
Qed.

(** C20. The session effect signs in only the user the stored session
    names, only while the session has not ended, and only a user of the
    list. *)
Theorem restoreSession_sound e st s u :
  currentUser s = None ->
  currentUser (next (restoreSession e st s)) = Some u ->
  exists expiresAt,
    st = Session (User.id u) expiresAt /\ now e <= expiresAt /\ u ∈ users s.
Proof.
  intros Hout Hu. destruct st as [| |userId expiresAt].
  - unfold restoreSession in Hu. rewrite Hout in Hu. simpl in Hu. congruence.
  - unfold restoreSession in Hu. rewrite Hout in Hu.
    case_bool_decide; state_simpl s; congruence.
  - destruct (restoreSession_in e s _ _ _ Hout Hu) as (? & <- & ?). eauto.
Qed.

Lemma restoreSession_sound_witness :
  exists expiresAt,
    Session "waiter-1" 5000 = Session (User.id waiter1) expiresAt /\
    now (env 4000 "-k") <= expiresAt /\ waiter1 ∈ users specState.
Proof.
  apply (restoreSession_sound (env 4000 "-k") (Session "waiter-1" 5000) specState waiter1);
    reflexivity.
Defined.

(** A session that has ended signs nobody in and is removed from the
    storage. *)
Theorem restoreSession_expired e s userId expiresAt :
  currentUser s = None -> users s <> [] -> expiresAt < now e ->
  next (restoreSession e (Session userId expiresAt) s) = s /\
  storage (restoreSession e (Session userId expiresAt) s) = RemoveSession.
Proof.
  intros Hout Hu Ht. unfold restoreSession. rewrite Hout.
  case_bool_decide; [done|]. by destruct (Z.ltb_spec expiresAt (now e)); [|lia].
Qed.

Lemma restoreSession_expired_witness :
  next (restoreSession (env 5001 "-k") (Session "waiter-1" 5000) specState) = specState /\
  storage (restoreSession (env 5001 "-k") (Session "waiter-1" 5000) specState)
    = RemoveSession.
Proof. apply restoreSession_expired; [reflexivity|discriminate|reflexivity]. Defined.

(** C22. Signing in and reloading the page within the hour signs the same
    user in again, when no two users share an id. *)
Theorem login_restore e e' s s' found st :
  findBy (loginQuery s) (users s) = Some found ->
  NoDup (User.id <$> users s) ->
  users s' = users s -> currentUser s' = None ->
  now e' <= now e + sessionLength ->
  currentUser (next (restoreSession e' (applyStorage (storage (handleLogin e s)) st) s'))
    = Some found.
Proof.
  intros F Hnd Hus Hout Ht.
  destruct (handleLogin_match e s found F) as (_ & -> & _). simpl.
  apply restoreSession_found; [done..|]. rewrite Hus.
  apply findBy_Some in F as [Hin _]. by apply findBy_key.
Qed.

Lemma login_restore_witness :
  currentUser (next (restoreSession (env 3601000 "-k")
    (applyStorage (storage (handleLogin (env 1000 "-k") (loginForm "0622222" "2222")))
                  NoItem) specState)) = Some waiter1.
Proof.
  apply (login_restore _ _ (loginForm "0622222" "2222") specState waiter1);
    [reflexivity|by_compute|reflexivity|reflexivity|by_compute].
Defined.

(** [handleLogout] signs the user out and removes the session, so that
    the session effect finds nothing to restore. *)
Lemma handleLogout_restore e s st :
  restoreSession e (applyStorage (storage (handleLogout s)) st)
                 (next (handleLogout s)) = pure (next (handleLogout s)).
Proof. by state_simpl s. Qed.
