(* ===== verification/Catalog.v ===== *)
(** * Catalog: the items of the menu

    [addItem], [updateItem], [deleteItem] and [updateItemStock], the handlers
    of the items screen, with the validation of their forms, and the
    invariant of the stored catalogue that the validation is there for:
    every item has a name, a price above 0 and a stock of 0 or above. *)

From S2P Require Import Prelude Dates Runtime Model Store State Effects Sample.

Section Catalog.
Context `{JsRuntime}.

(** [Number.isNaN(n) || n <= 0] and [Number.isNaN(n) || n < 0]. *)
Definition notAbove0 (n : option Z) : bool :=
  match n with
  | None => true
  | Some z => z <=? 0
  end.

Definition below0 (n : option Z) : bool :=
  match n with
  | None => true
  | Some z => z <? 0
  end.

Definition updateItemStock (id stockStr : string) (s : AppState) : Outcome :=
  let stock := Number stockStr in
  if below0 stock then
    pure (s <| banner := error "Stock must be 0 or above." |>)
  else
    started s
      [thenOrBanner (UpdateItemStock id (stock ?? 0))
         (fun s => s <| banner := success "Stock updated." |>)
         (fun _ => None)].

Definition addItem (e : Env) (s : AppState) : Outcome :=
  let s := s <| banner := None |> in
  if isEmpty (trim (newItemName s)) then
    pure (s <| banner := error "Provide an item name." |>)
  else
    let price := Number (newItemPrice s) in
    let stock := Number (newItemStock s) in
    if notAbove0 price then
      pure (s <| banner := error "Provide a valid price above 0." |>)
    else if below0 stock then
      pure (s <| banner := error "Provide a stock 0 or above." |>)
    else
      let newItem := {| DbItem.name := trim (newItemName s);
                        DbItem.price := price;
                        DbItem.stock := stock |} in
      started s
        [thenOrBanner (SetItem (pushKey e) newItem)
           (fun s => s <| newItemName := "" |>
                       <| newItemPrice := "0" |>
                       <| newItemStock := "0" |>
                       <| itemModalOpen := false |>
                       <| banner := success "Item added." |>)
           (logThen s "item_add" (DbItem.name newItem))].

Definition updateItem (s : AppState) : Outcome :=
  match itemActionItem s with
  | None => pure s
  | Some item =>
      let name := trim (itemActionName s) in
      let price := Number (itemActionPrice s) in
      let stock := Number (itemActionStock s) in
      if isEmpty name then
        pure (s <| banner := error "Provide an item name." |>)
      else if notAbove0 price then
        pure (s <| banner := error "Provide a valid price above 0." |>)
      else if below0 stock then
        pure (s <| banner := error "Provide a stock 0 or above." |>)
      else
        started s
          [thenOrBanner (UpdateItem (Item.id item) name (price ?? 0) stock)
             (fun s => s <| itemActionItem := None |>
                         <| openItemAction := None |>
                         <| banner := success "Item updated." |>)
             (logThen s "item_update" name)]
  end.

Definition deleteItem (id : string) (s : AppState) : Outcome :=
  let name := alookup (itemsById s) id ?. Item.name ?? id in
  started s
    [thenOrBanner (RemoveItem id)
       (fun s => s <| banner := success "Item removed." |>)
       (logThen s "item_delete" name)].

End Catalog.

(** ** The catalogue invariant *)

(** A stored item as the forms accept it. *)
Definition itemOk (i : DbItem) : Prop :=
  DbItem.name i <> "" /\
  from_option (fun p => 0 < p) False (DbItem.price i) /\
  from_option (fun n => 0 <= n) False (DbItem.stock i).

#[export] Instance itemOk_dec i : Decision (itemOk i).
Proof.
  unfold itemOk. destruct (DbItem.price i), (DbItem.stock i); simpl; apply _.
Defined.

Definition catalogOk (db : Db) : Prop :=
  Forall (fun kv => itemOk kv.2) (dbItems db).

(** The handlers of the items screen. *)
Inductive CatalogAction :=
  | AddItem
  | UpdateItemOf
  | DeleteItem (id : string)
  | UpdateStock (id stockStr : string).

Definition catalogHandle `{JsRuntime} (a : CatalogAction) (e : Env) (s : AppState)
    : Outcome :=
  match a with
  | AddItem => addItem e s
  | UpdateItemOf => updateItem s
  | DeleteItem id => deleteItem id s
  | UpdateStock id stockStr => updateItemStock id stockStr s
  end.

(** What the handlers write: a whole valid item, the fields of one, a
    stock, or a removal. *)
Inductive catalogWrite : Write -> Prop :=
  | WriteNew key item : itemOk item -> catalogWrite (SetItem key item)
  | WriteFields id name price stock :
      name <> "" -> 0 < price -> 0 <= stock ->
      catalogWrite (UpdateItem id name price (Some stock))
  | WriteStock id stock : 0 <= stock -> catalogWrite (UpdateItemStock id stock)
  | WriteRemove id : catalogWrite (RemoveItem id).

(** The form of the items dialog, filled in. *)
Definition itemForm (name price stock : string) : AppState :=
  (viewOf sampleDb admin1) <| newItemName := name |> <| newItemPrice := price |>
                           <| newItemStock := stock |>.

(** ** Validation *)

Lemma notAbove0_false n : notAbove0 n = false -> exists p, n = Some p /\ 0 < p.
Proof. destruct n as [p|]; [|done]. simpl. intros ?%Z.leb_gt. eauto. Qed.

Lemma below0_false n : below0 n = false -> exists z, n = Some z /\ 0 <= z.
Proof. destruct n as [z|]; [|done]. simpl. intros ?%Z.ltb_ge. eauto. Qed.

Lemma isEmpty_false s : isEmpty s = false -> s <> "".
Proof. unfold isEmpty. by intros ?%bool_decide_eq_false. Qed.

Section Writes.
Context `{JsRuntime}.

Lemma addItem_writes e s w : w ∈ writesOf (addItem e s) -> catalogWrite w.
Proof.
  unfold addItem. cbv zeta. generalize (s <| banner := None |>). clear s.
  intros s. repeat case_if; simpl; try by intros ?%elem_of_nil.
  intros ->%list_elem_of_singleton. constructor. unfold itemOk. simpl.
  destruct (notAbove0_false _ ltac:(eassumption)) as (p & -> & ?).
  destruct (below0_false _ ltac:(eassumption)) as (n & -> & ?).
  split_and!; eauto using isEmpty_false.
Qed.

Lemma updateItem_writes s w : w ∈ writesOf (updateItem s) -> catalogWrite w.
Proof.
  unfold updateItem. destruct (itemActionItem s); [|by intros ?%elem_of_nil].
  cbv zeta. repeat case_if; simpl; try by intros ?%elem_of_nil.
  intros ->%list_elem_of_singleton.
  destruct (notAbove0_false _ ltac:(eassumption)) as (p & -> & ?).
  destruct (below0_false _ ltac:(eassumption)) as (n & -> & ?).
  constructor; eauto using isEmpty_false.
Qed.

Lemma updateItemStock_writes id str s w :
  w ∈ writesOf (updateItemStock id str s) -> catalogWrite w.
Proof.
  unfold updateItemStock. cbv zeta. case_if; simpl; [by intros ?%elem_of_nil|].
  intros ->%list_elem_of_singleton.
  destruct (below0_false _ ltac:(eassumption)) as (n & -> & ?). by constructor.
Qed.

Lemma catalogHandle_writes a e s w :
  w ∈ writesOf (catalogHandle a e s) -> catalogWrite w.
Proof.
  destruct a; simpl;
    eauto using addItem_writes, updateItem_writes, updateItemStock_writes.
  intros ->%list_elem_of_singleton. constructor.
Qed.

End Writes.

(** A write of the handlers keeps the catalogue valid, a stock update only
    if the item is still there. *)
Lemma catalogWrite_ok w db :
  catalogWrite w -> catalogOk db ->
  (forall id stock, w = UpdateItemStock id stock -> id ∈ (dbItems db).*1) ->
  catalogOk (applyWrite w db).
Proof.
  unfold catalogOk.
  intros [key item Hi|id name price stock Hn Hp Hs|id stock Hs|id] Hdb Hin;
    state_simpl db; unfold setChild, updateChild, removeChild;
    [apply aset_Forall; [done|] ..|by apply adelete_Forall].
  - exact Hi.
  - unfold itemOk. simpl. split_and!; eauto.
  - specialize (Hin _ _ eq_refl). apply alookup_is_Some in Hin as [i Hi].
    rewrite Hi. pose proof (alookup_Forall _ _ _ _ Hdb Hi) as (Hn & Hp & _).
    unfold itemOk. simpl. split_and!; eauto.
Qed.

(** C24. Every write of the items screen keeps the stored catalogue valid
    (each item with a name, a price above 0 and a stock of 0 or above), a
    stock update provided the item is still stored when the write arrives. *)
Theorem catalogHandle_ok `{JsRuntime} a e s db w :
  catalogOk db ->
  w ∈ writesOf (catalogHandle a e s) ->
  (forall id stock, w = UpdateItemStock id stock -> id ∈ (dbItems db).*1) ->
  catalogOk (applyWrite w db).
Proof. eauto using catalogWrite_ok, catalogHandle_writes. Qed.

Lemma catalogHandle_ok_witness :
  catalogOk (applyWrite
    (SetItem "-k" {| DbItem.name := "Soup"; DbItem.price := Some 3;
                     DbItem.stock := Some 7 |}) sampleDb).
Proof.
  apply (@catalogHandle_ok rt AddItem (env 1000 "-k") (itemForm " Soup" "3" "7"));
    [by_compute|by_compute|discriminate].
Defined.

(** A stock update that arrives after the item was removed stores an
    item without name and price, which the list then shows with an empty
    name and the price 0. *)
Example updateItemStock_after_delete :
  let db := applyWrite (RemoveItem "A") sampleDb in
  let w := UpdateItemStock "A" 3 in
  catalogOk db /\
  w ∈ writesOf (@updateItemStock rt "A" "3" (viewOf sampleDb admin1)) /\
  ~ catalogOk (applyWrite w db) /\
  {| Item.id := "A"; Item.name := ""; Item.price := 0; Item.stock := Some 3 |}
    ∈ decodeItems (dbItems (applyWrite w db)).
Proof. split_and!; by_compute. Qed.
