(* ===== verification/Orders.v ===== *)
(** * Orders: the values [App()] derives from the orders on every render

    Totals, titles, the next order identifier, the filters of the order
    list and its sorting, the dashboard metrics and the per-waiter charts.
    Each is a function of the state [s], named as in the source.  The
    theorems: [nextOrderId] is new to the orders the browser has, and is
    the same in two browsers that have the same orders, so that two orders
    are stored under one number; the sorted list is ordered by priority.

    A member access [obj[key]] with a key that is [undefined] reads the
    property ["undefined"], as in JavaScript. *)

From S2P Require Import Prelude Dates Runtime Model Store State Effects Sample.

(** The property name of a waiter id that may be [undefined]. *)
Definition keyOf (k : option string) : string := k ?? "undefined".

(** [o.waiterId === id] *)
Definition waiterIs (o : Order) (id : string) : bool :=
  bool_decide (Order.waiterId o = Some id).

(** [currentUser && currentUser.role === 'waiter'
      ? orders.filter((o) => o.waiterId === currentUser.id) : orders] *)
Definition scopeToWaiter (cu : option User) (os : list Order) : list Order :=
  match cu with
  | Some u =>
      if bool_decide (User.role u = Some Waiter)
      then List.filter (fun o => waiterIs o (User.id u)) os
      else os
  | None => os
  end.

Section Derived.
Context `{JsRuntime}.
Context (s : AppState).

(** [itemsById[itemId]?.price ?? 0] *)
Definition priceOf (itemId : string) : Z :=
  (alookup (itemsById s) itemId ?. Item.price) ?? 0.

(** [order.items.reduce((s, i) => s + i.qty, 0)] *)
Definition orderQty (order : Order) : Z :=
  sumOf OrderItem.qty (Order.items order).

Definition orderTotal (order : Order) : Z :=
  sumOf (fun entry => OrderItem.qty entry * priceOf (OrderItem.itemId entry))
        (Order.items order).

Definition orderTitle (order : Order) : string :=
  let name :=
    match Order.items order with
    | firstItem :: _ =>
        alookup (itemsById s) (OrderItem.itemId firstItem) ?. Item.name
    | [] => Some ""
    end in
  match name with
  | Some n => if isEmpty n then Order.id order else n +:+ " - " +:+ Order.id order
  | None => Order.id order
  end.

Definition orderPriority (order : Order) : Z :=
  if isPending (Order.status order) then 2
  else if isLoan (Order.status order) then 1
  else 0.

(** The capture of [/^order(\d+)$/] on an id, as a number. *)
Definition orderNumber (id : string) : option Z :=
  if startsWith id "order" then
    let d := sliceFrom 5 id in
    if isEmpty d then None else parseDigits d
  else None.

Definition maxExisting : Z :=
  fold_left (fun max o =>
               match orderNumber (Order.id o) with
               | None => max
               | Some num => Z.max max num
               end) (orders s) 0.

Definition nextOrderId : string :=
  "order" +:+ padStart (showZ (maxExisting + 1)) 3 "0"%char.

Definition draftTotal : Z :=
  sumOf (fun '(itemId, qty) => qty * priceOf itemId) (draftQty s).

Definition scopedOrders : list Order := orders s.

(** The text an order is searched by. *)
Definition orderText (order : Order) : string :=
  toLowerCase
    (Order.id order +:+ " " +:+
     ((alookup (usersById s) (keyOf (Order.waiterId order)) ?. User.name) ?? "")).

Definition ordersFiltered : list Order :=
  List.filter (fun order =>
    if negb (bool_decide (orderWaiterFilter s = "all")) &&
       negb (waiterIs order (orderWaiterFilter s))
    then false
    else includes (orderText order) (toLowerCase (trim (search s))))
    scopedOrders.

Definition activeOrders : list Order :=
  List.filter (fun o => isPending (Order.status o)) ordersFiltered.
Definition paidOrders : list Order :=
  List.filter (fun o => isPaid (Order.status o)) ordersFiltered.
Definition loanOrders : list Order :=
  List.filter (fun o => isLoan (Order.status o)) ordersFiltered.
Definition doneOrders : list Order := paidOrders ++ loanOrders.

Definition orderList : list Order :=
  match orderFilter s with
  | FilterAll => ordersFiltered
  | FilterActive => activeOrders
  | FilterDone => doneOrders
  | FilterPaid => paidOrders
  | FilterLoan => loanOrders
  end.

(** The comparator of [orderListSorted]: higher priority first, then newer
    first. *)
Definition cmpOrder (a b : Order) : Z :=
  let pa := orderPriority a in
  let pb := orderPriority b in
  if bool_decide (pa <> pb) then pb - pa
  else cmpTimeDesc (Order.time a) (Order.time b).

Definition orderListSorted : list Order := sortBy cmpOrder orderList.

Record LoanTotals := { count : Z; amount : Z }.

Definition loanTotals : LoanTotals :=
  {| count := Z.of_nat (length loanOrders);
     amount := sumOf orderTotal loanOrders |}.

(** ** The dashboard *)

Record Metrics := {
  totalOrders : Z;
  totalItems : Z;
  lowStock : list Item;
  topWaiterId : string;
  totalSales : Z;
  staffCount : Z
}.

(** [busiestWaiter]: the number of orders per waiter id, in the order the
    ids first occur. *)
Definition busiestWaiter (scoped : list Order) : list (string * Z) :=
  fold_left (fun acc order =>
               let k := keyOf (Order.waiterId order) in
               aset acc k ((alookup acc k ?? 0) + 1))
            scoped [].

Definition topWaiter (scoped : list Order) (dash : string) : string :=
  (head (sortBy (fun a b : string * Z => b.2 - a.2) (busiestWaiter scoped)) ?. fst)
  ?? dash.

Definition metrics : Metrics :=
  let scoped := scopeToWaiter (currentUser s) (orders s) in
  {| totalOrders := Z.of_nat (length scoped);
     totalItems := sumOf orderQty scoped;
     totalSales := sumOf orderTotal scoped;
     lowStock := [];
     topWaiterId := topWaiter scoped "â€”";
     staffCount :=
       Z.of_nat (length (List.filter
         (fun u => negb (bool_decide (User.role u = Some Admin))) (users s))) |}.

Record WaiterChart := {
  waiter : User;
  chartOrders : Z;
  chartLoan : Z;
  chartPaid : Z
}.

Definition waiterCharts : list WaiterChart :=
  let waiters :=
    List.filter (fun u => bool_decide (User.role u = Some Waiter)) (users s) in
  map (fun w =>
         let list := List.filter (fun o => waiterIs o (User.id w)) (orders s) in
         {| waiter := w;
            chartOrders := Z.of_nat (length list);
            chartLoan :=
              Z.of_nat (length (List.filter (fun o => isLoan (Order.status o)) list));
            chartPaid :=
              Z.of_nat (length (List.filter
                (fun o => negb (isLoan (Order.status o))) list)) |})
      waiters.

Record StatusStats := {
  statPaid : Z;
  statLoan : Z;
  statPending : Z;
  statTotal : Z
}.

(** The counts of [waiterStatusStats] over a list of orders. *)
Definition statusStatsOf (scoped : list Order) : StatusStats :=
  {| statPaid := Z.of_nat (length (List.filter (fun o => isPaid (Order.status o)) scoped));
     statLoan := Z.of_nat (length (List.filter (fun o => isLoan (Order.status o)) scoped));
     statPending :=
       Z.of_nat (length (List.filter (fun o => isPending (Order.status o)) scoped));
     statTotal := Z.of_nat (length scoped) |}.

Definition waiterStatusStats : StatusStats := statusStatsOf (orders s).

(** ** The staff and item lists *)

Definition staffFiltered : list User :=
  List.filter (fun u =>
    includes (toLowerCase (User.name u +:+ " " +:+ User.phone u))
             (toLowerCase (trim (waiterSearch s))))
    (users s).

Definition itemsFiltered : list Item :=
  List.filter (fun item =>
    includes (toLowerCase (Item.name item))
             (toLowerCase (trim (itemManageSearch s))))
    (items s).

End Derived.

(** ** Creating an order *)

(** [updateDraftQty]: a quantity of 0 or less removes the item from the
    draft. *)
Definition updateDraftQty (itemId : string) (qty : Z) (s : AppState) : AppState :=
  s <| draftQty ::= fun prev =>
         if qty <=? 0 then adelete prev itemId else aset prev itemId qty |>.

(** [selected]: the lines of the draft with a positive quantity. *)
Definition selected (s : AppState) : list OrderItem :=
  map (fun '(itemId, qty) => {| OrderItem.itemId := itemId; OrderItem.qty := qty |})
      (List.filter (fun '(_, qty) => 0 <? qty) (draftQty s)).

(** [itemsMap]: the lines as the object the order is stored with. *)
Definition itemsMap (sel : list OrderItem) : list (string * option Z) :=
  fold_left (fun m l => aset m (OrderItem.itemId l) (Some (OrderItem.qty l))) sel [].

(** [handleCreateOrder]: the order is written under a generated key, with
    the next order number as its [id]. *)
Definition handleCreateOrder (e : Env) (s : AppState) : Outcome :=
  let s := s <| banner := None |> in
  if isEmpty (draftWaiter s) then
    pure (s <| banner := error "Pick a waiter to assign the order." |>)
  else if bool_decide (selected s = []) then
    pure (s <| banner := error "Add at least one item before submitting." |>)
  else
    let orderId := nextOrderId s in
    let payload :=
      {| DbOrder.id := Some orderId;
         DbOrder.waiterId := None;
         DbOrder.waiter_id := Some (draftWaiter s);
         DbOrder.time := Some (toISOString (now e));
         DbOrder.status := Some Pending;
         DbOrder.collector := Some "";
         DbOrder.items := ItemsMap (itemsMap (selected s)) |} in
    started s
      [thenOrBanner (SetOrder (pushKey e) payload)
         (fun s => s <| draftQty := [] |> <| showOrderModal := false |>
                     <| banner := success "Order captured and stock updated." |>)
         (fun _ => None)].

(** ** Counting by status *)

Section StatusCounts.
Implicit Types (l : list Order).

(** Every order is paid, on loan or pending, and only one of them. *)
Lemma status_partition l :
  (length (List.filter (fun o => isPaid (Order.status o)) l) +
   length (List.filter (fun o => isLoan (Order.status o)) l) +
   length (List.filter (fun o => isPending (Order.status o)) l) = length l)%nat.
Proof.
  induction l as [|o l IH]; [done|]. simpl.
  destruct (status_cases (Order.status o)) as [(->&->&->)|[(->&->&->)|(->&->&->)]];
    simpl; lia.
Qed.

Lemma loan_partition l :
  (length (List.filter (fun o => isLoan (Order.status o)) l) +
   length (List.filter (fun o => negb (isLoan (Order.status o))) l) = length l)%nat.
Proof. induction l as [|o l IH]; [done|]. simpl. destruct (isLoan _); simpl; lia. Qed.

End StatusCounts.

(** ** Order numbers *)

Section OrderNumbers.
Implicit Types (s : AppState) (o : Order).

Lemma fold_max_ge (l : list Order) (a : Z) :
  a <= fold_left (fun max o => match orderNumber (Order.id o) with
                               | None => max | Some num => Z.max max num end) l a.
Proof.
  revert a. induction l as [|o l IH]; intros a; simpl; [lia|].
  etrans; [|apply IH]. destruct (orderNumber _); lia.
Qed.

Lemma fold_max_elem (l : list Order) (a : Z) o n :
  o ∈ l -> orderNumber (Order.id o) = Some n ->
  n <= fold_left (fun max o => match orderNumber (Order.id o) with
                               | None => max | Some num => Z.max max num end) l a.
Proof.
  revert a. induction l as [|o' l IH]; intros a Hin Hn; [by apply elem_of_nil in Hin|].
  apply elem_of_cons in Hin as [->|Hin]; simpl; [|by apply IH].
  rewrite Hn. etrans; [|apply fold_max_ge]. lia.
Qed.

Lemma maxExisting_nonneg s : 0 <= maxExisting s.
Proof. apply fold_max_ge. Qed.

(** [maxExisting] bounds the number of every numbered order. *)
Lemma maxExisting_ge s o n :
  o ∈ orders s -> orderNumber (Order.id o) = Some n -> n <= maxExisting s.
Proof. apply fold_max_elem. Qed.

Lemma orderNumber_order d :
  d <> "" -> orderNumber ("order" +:+ d) = parseDigits d.
Proof.
  intros Hd. unfold orderNumber.
  rewrite startsWith_app. change 5%nat with (String.length "order").
  rewrite sliceFrom_app. unfold isEmpty. by rewrite bool_decide_eq_false_2.
Qed.

(** The identifier [nextOrderId] returns matches the pattern it scans for,
    with the number after the largest one in use. *)
Lemma orderNumber_nextOrderId s :
  orderNumber (nextOrderId s) = Some (maxExisting s + 1).
Proof.
  unfold nextOrderId. pose proof (maxExisting_nonneg s).
  rewrite orderNumber_order.
  - apply parseDigits_padStart. lia.
  - apply app_nonempty, showZ_nonempty.
Qed.

(** C7. [nextOrderId] returns an identifier that no order of the cached list
    has, whatever the identifiers of those orders are. *)
Theorem nextOrderId_fresh s :
  Forall (fun o => Order.id o <> nextOrderId s) (orders s).
Proof.
  apply Forall_forall. intros o Hin E.
  pose proof (orderNumber_nextOrderId s) as Hn. rewrite <- E in Hn.
  apply (maxExisting_ge s o _ Hin) in Hn. lia.
Qed.

End OrderNumbers.

(** ** Creating an order *)

(** What [handleCreateOrder] writes when a waiter and a line are chosen. *)
Lemma handleCreateOrder_writes e s :
  isEmpty (draftWaiter s) = false -> selected s <> [] ->
  exists d, writesOf (handleCreateOrder e s) = [SetOrder (pushKey e) d] /\
            DbOrder.id d = Some (nextOrderId s) /\ DbOrder.status d = Some Pending /\
            DbOrder.time d = Some (toISOString (now e)).
Proof.
  intros Hw Hs. unfold handleCreateOrder. cbv zeta.
  change (draftWaiter (s <| banner := None |>)) with (draftWaiter s).
  change (selected (s <| banner := None |>)) with (selected s).
  rewrite Hw, bool_decide_eq_false_2 by done.
  eexists. split; [reflexivity|]. done.
Qed.

(** [nextOrderId] is computed from the orders the browser has received. *)
Lemma nextOrderId_orders s1 s2 : orders s1 = orders s2 -> nextOrderId s1 = nextOrderId s2.
Proof. unfold nextOrderId, maxExisting. by intros ->. Qed.

Lemma alookup_SetOrder db key d k :
  alookup (dbOrders (applyWrite (SetOrder key d) db)) k =
  if decide (key = k) then Some d else alookup (dbOrders db) k.
Proof. simpl. apply alookup_aset. Qed.

(** Two stored orders that decode to one identifier. *)
Lemma shared_id_NoDup `{JsRuntime} db k1 k2 d1 d2 :
  k1 <> k2 ->
  alookup (dbOrders db) k1 = Some d1 -> alookup (dbOrders db) k2 = Some d2 ->
  Order.id (decodeOrder (k1, d1)) = Order.id (decodeOrder (k2, d2)) ->
  ~ NoDup (Order.id <$> decodeOrders (dbOrders db)).
Proof.
  intros Hk H1%alookup_Some_elem H2%alookup_Some_elem Hid.
  rewrite decodeOrders_perm, <- list_fmap_compose. intros Hnd.
  by pose proof (NoDup_fmap_eq _ _ _ _ Hnd H1 H2 Hid) as [= ?].
Qed.

(** C34. Order numbers are allocated from a stale read: two browsers that
    have received the same orders and create an order each, before either
    receives the other's, write two orders with the same number, under two
    keys, in whichever order the store applies the writes; a browser that
    then receives the orders has two orders of one identifier. *)
Theorem handleCreateOrder_same_number `{JsRuntime} e1 e2 s1 s2 db ws :
  orders s1 = orders s2 ->
  isEmpty (draftWaiter s1) = false -> selected s1 <> [] ->
  isEmpty (draftWaiter s2) = false -> selected s2 <> [] ->
  pushKey e1 <> pushKey e2 ->
  ws ≡ₚ writesOf (handleCreateOrder e1 s1) ++ writesOf (handleCreateOrder e2 s2) ->
  let db' := applyAll ws db in
  exists d1 d2,
    alookup (dbOrders db') (pushKey e1) = Some d1 /\
    alookup (dbOrders db') (pushKey e2) = Some d2 /\
    Order.id (decodeOrder (pushKey e1, d1)) = nextOrderId s1 /\
    Order.id (decodeOrder (pushKey e2, d2)) = nextOrderId s1 /\
    ~ NoDup (Order.id <$> decodeOrders (dbOrders db')).
Proof.
  intros Ho Hw1 Hs1 Hw2 Hs2 Hk Hp db'.
  destruct (handleCreateOrder_writes e1 s1 Hw1 Hs1) as (d1 & W1 & Hi1 & _).
  destruct (handleCreateOrder_writes e2 s2 Hw2 Hs2) as (d2 & W2 & Hi2 & _).
  rewrite <- (nextOrderId_orders s1 s2 Ho) in Hi2. rewrite W1, W2 in Hp.
  assert (alookup (dbOrders db') (pushKey e1) = Some d1 /\
          alookup (dbOrders db') (pushKey e2) = Some d2) as [L1 L2].
  { subst db'. apply Permutation_sym, Permutation_length_2_inv in Hp as [->| ->];
      cbn [app applyAll fold_left]; rewrite !alookup_SetOrder;
      split; repeat case_decide; congruence. }
  exists d1, d2. split_and!; [done|done|by simpl; rewrite Hi1|by simpl; rewrite Hi2|].
  apply (shared_id_NoDup db' _ _ d1 d2 Hk L1 L2). simpl. by rewrite Hi1, Hi2.
Qed.

(** ** The order list and the dashboard *)

Section OrdersFacts.
Context `{JsRuntime}.
Implicit Types (s : AppState) (o : Order).

Lemma cmpOrder_le a b : cmpOrder a b <= 0 -> orderPriority b <= orderPriority a.
Proof. unfold cmpOrder. cbv zeta. case_bool_decide; lia. Qed.

Lemma cmpOrder_gt a b : 0 < cmpOrder a b -> orderPriority a <= orderPriority b.
Proof. unfold cmpOrder. cbv zeta. case_bool_decide; lia. Qed.

(** C35. The sorted order list shows pending orders first, then loans, then
    paid orders, also when some order has no valid time. *)
Theorem orderListSorted_priority s :
  StronglySorted (fun a b => orderPriority b <= orderPriority a) (orderListSorted s).
Proof. apply (sortBy_keyDesc cmpOrder orderPriority cmpOrder_le cmpOrder_gt). Qed.

(** Sorting the order list neither drops nor duplicates an order. *)
Theorem orderListSorted_perm s : orderListSorted s ≡ₚ orderList s.
Proof. apply sortBy_perm. Qed.

(** The status chart counts every order once: paid, loan and pending add
    up to the total. *)
Theorem waiterStatusStats_total s :
  statPaid (waiterStatusStats s) + statLoan (waiterStatusStats s) +
  statPending (waiterStatusStats s) = statTotal (waiterStatusStats s).
Proof. pose proof (status_partition (orders s)). simpl. lia. Qed.

(** In every bar of the waiter chart, the loan and the paid segment add
    up to the waiter's orders: an order that is still pending is drawn as
    paid. *)
Theorem waiterCharts_segments s :
  Forall (fun c => chartLoan c + chartPaid c = chartOrders c) (waiterCharts s).
Proof.
  apply Forall_forall. intros c (w & -> & _)%list_elem_of_fmap. simpl.
  pose proof (loan_partition (List.filter (fun o => waiterIs o (User.id w)) (orders s))).
  lia.
Qed.

End OrdersFacts.

(** ** Witnesses *)

Lemma handleCreateOrder_same_number_witness :
  let e1 := env 1704650400000 "-Mo2" in
  let e2 := env 1704650400001 "-Mo3" in
  let s2 := collectorView <| draftWaiter := "waiter-1" |> <| draftQty := [("A", 1)] |> in
  let db' := applyAll (writesOf (handleCreateOrder e2 s2) ++
                       writesOf (handleCreateOrder e1 draftView)) sampleDb in
  exists d1 d2,
    alookup (dbOrders db') "-Mo2" = Some d1 /\
    alookup (dbOrders db') "-Mo3" = Some d2 /\
    Order.id (decodeOrder ("-Mo2", d1)) = "order001" /\
    Order.id (decodeOrder ("-Mo3", d2)) = "order001" /\
    ~ NoDup (Order.id <$> @decodeOrders rt (dbOrders db')).
Proof.
  intros e1 e2 s2.
  apply (@handleCreateOrder_same_number rt e1 e2 draftView s2 sampleDb);
    first [by_compute | by vm_compute | apply Permutation_app_comm].
Defined.
