(* ===== verification/Reports.v ===== *)
(** * Reports: the report aggregator

    [getWeekId] and [reportRows] of [App()], and the totals the reports
    screen and the exports compute from the rows.  [reportRows] filters the
    cached orders by date range and status, folds them into one bucket per
    period of the selected granularity, and lists the buckets by label,
    latest first.

    [isoWeekOfDay] is the ISO-8601 definition of the week of a day, written
    independently of the code; [getWeekId_iso] shows the code computes it. *)

From S2P Require Import Prelude Dates Runtime Model Store State Sample Orders.

(** [Math.ceil(a / b)] for integers [a] and [0 < b]. *)
Definition ceilDiv (a b : Z) : Z := - ((- a) / b).

Section Reports.
Context `{JsRuntime}.

Definition getWeekId (d : Z) : string :=
  let date :=
    Date_UTC (getFullYear tzOffset d) (getMonth tzOffset d) (getDate tzOffset d) in
  let dayNum := if getUTCDay date =? 0 then 7 else getUTCDay date in
  let date := setUTCDate date (getUTCDate date + 4 - dayNum) in
  let yearStart := Date_UTC (getUTCFullYear date) 0 1 in
  let weekNo := ceilDiv ((date - yearStart) / 86400000 + 1) 7 in
  showZ (getUTCFullYear date) +:+ "-W" +:+ showZ weekNo.

Context (s : AppState).

(** [start]: [null] and an invalid date bound nothing, since a comparison
    with [NaN] is false. *)
Definition rangeStart : option Z :=
  if isEmpty (reportStart s) then None else Date_parse (reportStart s).

(** [end], after [end.setHours(23, 59, 59, 999)]. *)
Definition rangeEnd : option Z :=
  if isEmpty (reportEnd s) then None
  else Date_parse (reportEnd s) ?. (fun e => setHours tzOffset e 23 59 59 999).

(** The predicate of [filteredOrders]. *)
Definition inReport (o : Order) : bool :=
  match timeOf (Order.time o) with
  | None => false
  | Some t =>
      if match rangeStart with Some st => t <? st | None => false end then false
      else if match rangeEnd with Some e => e <? t | None => false end then false
      else if bool_decide (reportStatus s = StatusPaid) &&
              negb (isPaid (Order.status o)) then false
      else if bool_decide (reportStatus s = StatusLoan) &&
              negb (isLoan (Order.status o)) then false
      else true
  end.

Definition filteredOrders : list Order := List.filter inReport (orders s).

(** The label of the period a valid date falls in. *)
Definition bucketKey (date : Z) : string :=
  match reportTab s with
  | Daily => sliceTo 10 (toISOString date)
  | Weekly => getWeekId date
  | Monthly =>
      showZ (getFullYear tzOffset date) +:+ "-" +:+
      padStart (showZ (getMonth tzOffset date + 1)) 2 "0"%char
  | Yearly => showZ (getFullYear tzOffset date)
  end.

Definition zeroStats : ReportStats :=
  {| ReportStats.ordersCount := 0; ReportStats.itemsCount := 0;
     ReportStats.sales := 0; ReportStats.paid := 0; ReportStats.loan := 0;
     ReportStats.pending := 0 |}.

(** The updates of [current] for one order. *)
Definition addOrder (current : ReportStats) (order : Order) : ReportStats :=
  let st := Order.status order in
  {| ReportStats.ordersCount := ReportStats.ordersCount current + 1;
     ReportStats.itemsCount := ReportStats.itemsCount current + orderQty order;
     ReportStats.sales := ReportStats.sales current + orderTotal s order;
     ReportStats.loan :=
       if isLoan st then ReportStats.loan current + 1 else ReportStats.loan current;
     ReportStats.paid :=
       if isLoan st then ReportStats.paid current
       else if isPaid st then ReportStats.paid current + 1
       else ReportStats.paid current;
     ReportStats.pending :=
       if isLoan st then ReportStats.pending current
       else if isPaid st then ReportStats.pending current
       else ReportStats.pending current + 1 |}.

(** The body of [filteredOrders.forEach]. *)
Definition addToBuckets (buckets : list (string * ReportStats)) (order : Order)
  : list (string * ReportStats) :=
  match timeOf (Order.time order) with
  | None => buckets
  | Some date =>
      let key := bucketKey date in
      let current := alookup buckets key ?? zeroStats in
      aset buckets key (addOrder current order)
  end.

Definition buckets : list (string * ReportStats) :=
  fold_left addToBuckets filteredOrders [].

(** [([a], [b]) => (a > b ? -1 : 1)] *)
Definition cmpLabel (a b : string * ReportStats) : Z :=
  if strLt b.1 a.1 then -1 else 1.

Definition reportRows : list ReportRow :=
  map (fun '(label, stats) =>
         {| ReportRow.label := label; ReportRow.stats := stats |})
      (sortBy cmpLabel buckets).

End Reports.

(** ** Totals of a list of rows *)

Definition addStats (acc r : ReportStats) : ReportStats :=
  {| ReportStats.ordersCount := ReportStats.ordersCount acc + ReportStats.ordersCount r;
     ReportStats.itemsCount := ReportStats.itemsCount acc + ReportStats.itemsCount r;
     ReportStats.sales := ReportStats.sales acc + ReportStats.sales r;
     ReportStats.paid := ReportStats.paid acc + ReportStats.paid r;
     ReportStats.loan := ReportStats.loan acc + ReportStats.loan r;
     ReportStats.pending := ReportStats.pending acc + ReportStats.pending r |}.

(** [total] of [exportReportCSV] and of [printReport]: one [reduce] over the
    rows with an accumulator of all six counters. *)
Definition totalOf (rows : list ReportRow) : ReportStats :=
  fold_left (fun acc r => addStats acc (ReportRow.stats r)) rows
    {| ReportStats.ordersCount := 0; ReportStats.itemsCount := 0;
       ReportStats.sales := 0; ReportStats.paid := 0; ReportStats.loan := 0;
       ReportStats.pending := 0 |}.

(** The total row of the reports screen: one [reduce] per column. *)
Definition screenTotal (rows : list ReportRow) : ReportStats :=
  {| ReportStats.ordersCount := sumOf (fun r => ReportStats.ordersCount (ReportRow.stats r)) rows;
     ReportStats.itemsCount := sumOf (fun r => ReportStats.itemsCount (ReportRow.stats r)) rows;
     ReportStats.sales := sumOf (fun r => ReportStats.sales (ReportRow.stats r)) rows;
     ReportStats.paid := sumOf (fun r => ReportStats.paid (ReportRow.stats r)) rows;
     ReportStats.loan := sumOf (fun r => ReportStats.loan (ReportRow.stats r)) rows;
     ReportStats.pending := sumOf (fun r => ReportStats.pending (ReportRow.stats r)) rows |}.

(** ** The ISO-8601 week of a day, as the standard defines it

    Weeks run from Monday to Sunday; a week belongs to the year its Thursday
    lies in, and the weeks of a year are numbered from 1. *)

(** The Monday on or before day [z] ([weekDay] is 0 on Sunday). *)
Definition mondayOf (z : Z) : Z := z - (weekDay z + 6) mod 7.

Definition thursdayOf (z : Z) : Z := mondayOf z + 3.

(** The ISO week-numbering year and the week number of day [z]. *)
Definition isoWeekOfDay (z : Z) : Z * Z :=
  let y := yearOfDay (thursdayOf z) in
  (y, (thursdayOf z - daysFromCivil y 1 1) / 7 + 1).

(** ** What the aggregator promises

    [statsOf l] counts a list of orders directly; [group k l] are the
    orders of [l] whose period is [k].  The rows of a report are to be the
    non-empty groups of the filtered orders, each with its statistics. *)

Section Spec.
Context `{JsRuntime}.
Context (s : AppState).

Definition statsOf (l : list Order) : ReportStats :=
  {| ReportStats.ordersCount := Z.of_nat (length l);
     ReportStats.itemsCount := sumOf orderQty l;
     ReportStats.sales := sumOf (orderTotal s) l;
     ReportStats.paid :=
       Z.of_nat (length (List.filter (fun o => isPaid (Order.status o)) l));
     ReportStats.loan :=
       Z.of_nat (length (List.filter (fun o => isLoan (Order.status o)) l));
     ReportStats.pending :=
       Z.of_nat (length (List.filter (fun o => isPending (Order.status o)) l)) |}.

(** The label of the bucket an order goes to. *)
Definition orderKey (o : Order) : option string :=
  timeOf (Order.time o) ?. bucketKey s.

Definition group (k : string) (l : list Order) : list Order :=
  List.filter (fun o => bool_decide (orderKey o = Some k)) l.

(** The bucket of [k] after the orders [l] have been added to [b]. *)
Definition bucketAfter (b : list (string * ReportStats)) (l : list Order) (k : string)
  : option ReportStats :=
  match alookup b k, group k l with
  | None, [] => None
  | st, g => Some (addStats (st ?? zeroStats) (statsOf g))
  end.

(** I4 of the specification, on one bucket. *)
Definition statsOk (st : ReportStats) : Prop :=
  ReportStats.paid st + ReportStats.loan st + ReportStats.pending st =
  ReportStats.ordersCount st.

(** [a] stands before [b] in a report: its label is the greater one. *)
Definition labelDesc (a b : ReportRow) : Prop :=
  strLt (ReportRow.label b) (ReportRow.label a) = true.

End Spec.

(** ** The ISO week *)

Lemma ceilDiv_succ n : ceilDiv (n + 1) 7 = n / 7 + 1.
Proof. unfold ceilDiv. arith. Qed.

Lemma thursdayOf_dayNum z :
  thursdayOf z = z + 4 - (if weekDay z =? 0 then 7 else weekDay z).
Proof.
  unfold thursdayOf, mondayOf. pose proof (weekDay_range z).
  destruct (Z.eqb_spec (weekDay z) 0) as [E|Hne]; [rewrite E|]; arith.
Qed.

Lemma week_thursday z :
  let date := z * msPerDay in
  setUTCDate date
    (getUTCDate date + 4 - (if getUTCDay date =? 0 then 7 else getUTCDay date)) =
  thursdayOf z * msPerDay.
Proof.
  cbv zeta. rewrite setUTCDate_rel. unfold getUTCDay. rewrite dayOf_midnight.
  rewrite thursdayOf_dayNum. unfold msPerDay. lia.
Qed.

Lemma week_number th y :
  ceilDiv ((th * msPerDay - daysFromCivil y 1 1 * msPerDay) / 86400000 + 1) 7 =
  (th - daysFromCivil y 1 1) / 7 + 1.
Proof. rewrite ceilDiv_succ. unfold msPerDay. arith. Qed.

(** The Thursday [getWeekId] shifts to is the Thursday of the
    Monday-to-Sunday week of the day. *)
Lemma thursdayOf_in_week z :
  weekDay (thursdayOf z) = 4 /\ mondayOf z <= z <= mondayOf z + 6 /\
  weekDay (mondayOf z) = 1 /\ thursdayOf z = mondayOf z + 3.
Proof. unfold thursdayOf, mondayOf, weekDay. split_and!; arith. Qed.

(** A week number lies between 1 and 53. *)
Lemma isoWeekOfDay_range z : 1 <= (isoWeekOfDay z).2 <= 53.
Proof.
  unfold isoWeekOfDay. cbv zeta. simpl.
  pose proof (yearOfDay_bounds (thursdayOf z)) as B.
  pose proof (year_length (yearOfDay (thursdayOf z))) as L.
  destruct (isLeap _); arith.
Qed.

(** The days [Date.UTC] does not remap: the day and the Thursday of its week
    lie in the year 100 or later. *)
Definition modernDay (z : Z) : Prop :=
  100 <= yearOfDay z /\ 100 <= yearOfDay (thursdayOf z).

#[export] Instance modernDay_dec z : Decision (modernDay z).
Proof. unfold modernDay. apply _. Defined.

Section WeekId.
Context `{JsRuntime}.

(** The local day of an instant. *)
Definition localDay (d : Z) : Z := dayOf (d + tzOffset).

Lemma getWeekId_isoWeek d :
  modernDay (localDay d) ->
  getWeekId d = showZ (isoWeekOfDay (localDay d)).1 +:+ "-W" +:+
                showZ (isoWeekOfDay (localDay d)).2.
Proof.
  intros [Hy Hty]. unfold getWeekId, localDay in *.
  rewrite local_midnight by done.
  rewrite (week_thursday (dayOf (d + tzOffset))).
  unfold getUTCFullYear. rewrite dayOf_midnight, Date_UTC_jan1 by done.
  by rewrite week_number.
Qed.

(** C8. [getWeekId] prints the ISO-8601 week of the local day of its
    argument: the year of the Thursday of the day's week, and the number,
    from 1 to 53, of that week in the year.  This holds from the year 100
    on, which [Date.UTC] does not remap. *)
Theorem getWeekId_iso d :
  modernDay (localDay d) ->
  let (y, w) := isoWeekOfDay (localDay d) in
  getWeekId d = showZ y +:+ "-W" +:+ showZ w /\ 1 <= w <= 53.
Proof.
  intros Hm. pose proof (getWeekId_isoWeek d Hm) as E.
  pose proof (isoWeekOfDay_range (localDay d)) as R.
  by destruct (isoWeekOfDay (localDay d)).
Qed.

(** Two instants whose local days lie in the same Monday-to-Sunday week
    are put in the same weekly bucket. *)
Theorem getWeekId_same_week d1 d2 :
  modernDay (localDay d1) -> modernDay (localDay d2) ->
  mondayOf (localDay d1) = mondayOf (localDay d2) ->
  getWeekId d1 = getWeekId d2.
Proof.
  intros H1 H2 Hm. rewrite !getWeekId_isoWeek by done.
  unfold isoWeekOfDay, thursdayOf. by rewrite Hm.
Qed.

End WeekId.

(** ** The aggregator *)

Lemma stats_eq (a b : ReportStats) :
  ReportStats.ordersCount a = ReportStats.ordersCount b ->
  ReportStats.itemsCount a = ReportStats.itemsCount b ->
  ReportStats.sales a = ReportStats.sales b ->
  ReportStats.paid a = ReportStats.paid b ->
  ReportStats.loan a = ReportStats.loan b ->
  ReportStats.pending a = ReportStats.pending b -> a = b.
Proof. destruct a, b; simpl; congruence. Qed.

Section Aggregator.
Context `{JsRuntime}.
Context (s : AppState).

(** *** The buckets keep I4 and distinct labels *)

Lemma addOrder_ok st o : statsOk st -> statsOk (addOrder s st o).
Proof.
  unfold statsOk. simpl.
  destruct (status_cases (Order.status o)) as [(->&->&_)|[(->&->&_)|(->&->&_)]]; lia.
Qed.

Lemma addToBuckets_ok b o :
  Forall (fun kv => statsOk kv.2) b ->
  Forall (fun kv => statsOk kv.2) (addToBuckets s b o).
Proof.
  intros Hb. unfold addToBuckets. destruct (timeOf _) as [t|]; [|done].
  cbv zeta. apply aset_Forall; [done|]. apply addOrder_ok.
  destruct (alookup b _) as [st|] eqn:E; simpl; [|done].
  by apply (alookup_Forall _ _ _ _ Hb E).
Qed.

Lemma buckets_ok : Forall (fun kv => statsOk kv.2) (buckets s).
Proof.
  apply (fold_left_inv (Forall (fun kv => statsOk kv.2))); [constructor|].
  intros b o _. apply addToBuckets_ok.
Qed.

Lemma addToBuckets_NoDup b o : NoDup b.*1 -> NoDup (addToBuckets s b o).*1.
Proof. unfold addToBuckets. destruct (timeOf _); [apply aset_NoDup|done]. Qed.

Lemma buckets_NoDup : NoDup (buckets s).*1.
Proof.
  apply (fold_left_inv (fun b => NoDup b.*1)); [constructor|].
  intros b o _. apply addToBuckets_NoDup.
Qed.

(** The rows are the buckets, in another order. *)
Lemma reportRows_buckets :
  reportRows s ≡ₚ
  map (fun kv => {| ReportRow.label := kv.1; ReportRow.stats := kv.2 |}) (buckets s).
Proof.
  unfold reportRows. rewrite sortBy_perm.
  erewrite map_ext; [done|]. by intros [].
Qed.

Lemma elem_of_reportRows r :
  r ∈ reportRows s <-> (ReportRow.label r, ReportRow.stats r) ∈ buckets s.
Proof.
  rewrite reportRows_buckets, list_elem_of_fmap. split.
  - by intros ([k v] & -> & Hin).
  - intros Hin. eexists; split; [|exact Hin]. by destruct r.
Qed.

(** C1. In every row of a report, the paid, loan and pending counts add up
    to the number of orders (I4). *)
Theorem reportRows_status_counts :
  Forall (fun r => statsOk (ReportRow.stats r)) (reportRows s).
Proof.
  rewrite reportRows_buckets. apply Forall_fmap.
  eapply Forall_impl; [apply buckets_ok|]. done.
Qed.

(** *** The rows are sorted *)

Lemma cmpLabel_le a b : cmpLabel a b <= 0 -> a.1 <> b.1 -> strLt b.1 a.1 = true.
Proof. unfold cmpLabel. destruct (strLt b.1 a.1); [done|lia]. Qed.

Lemma cmpLabel_gt a b : 0 < cmpLabel a b -> a.1 <> b.1 -> strLt a.1 b.1 = true.
Proof.
  unfold cmpLabel. destruct (strLt b.1 a.1) eqn:E; [lia|]. intros _ Hne.
  destruct (strLt_total _ _ Hne); congruence.
Qed.

(** C26. The rows of a report have distinct labels and are listed by label,
    the greatest first. *)
Theorem reportRows_sorted : StronglySorted labelDesc (reportRows s).
Proof.
  unfold reportRows.
  assert (StronglySorted (fun a b : string * ReportStats => strLt b.1 a.1 = true)
            (sortBy cmpLabel (buckets s))) as Hs.
  { apply (sortBy_strict cmpLabel fst);
      [|apply cmpLabel_le|apply cmpLabel_gt|apply buckets_NoDup].
    intros x y z Hxy Hyz. eapply strLt_trans; eauto. }
  induction Hs as [|[k v] l Hl IH Hk]; simpl; constructor; [done|].
  apply Forall_fmap. eapply Forall_impl; [exact Hk|]. by intros [].
Qed.

End Aggregator.

(** *** The rows are the groups of the filtered orders *)

Section Groups.
Context `{JsRuntime}.
Context (s : AppState).

Lemma addOrder_statsOf st o l :
  addOrder s (addStats st (statsOf s l)) o = addStats st (statsOf s (l ++ [o])).
Proof.
  apply stats_eq; simpl;
    rewrite ?length_app, ?sumOf_app, ?sumOf_cons, ?sumOf_nil, ?List.filter_app,
      ?length_app; simpl;
    destruct (status_cases (Order.status o)) as [(Hp&Hl&Hn)|[(Hp&Hl&Hn)|(Hp&Hl&Hn)]];
    rewrite ?Hp, ?Hl, ?Hn; simpl; lia.
Qed.

Lemma addStats_zero st : addStats st (statsOf s []) = st.
Proof. apply stats_eq; simpl; rewrite ?sumOf_nil; lia. Qed.

Lemma zero_addStats l : addStats zeroStats (statsOf s l) = statsOf s l.
Proof. apply stats_eq; simpl; rewrite ?sumOf_nil; lia. Qed.

Lemma alookup_addToBuckets b o k :
  alookup (addToBuckets s b o) k =
  if bool_decide (orderKey s o = Some k)
  then Some (addOrder s (alookup b k ?? zeroStats) o)
  else alookup b k.
Proof.
  unfold addToBuckets, orderKey. destruct (timeOf _) as [t|]; simpl; [|done].
  rewrite alookup_aset. case_decide; case_bool_decide; simplify_eq; done.
Qed.

Lemma group_snoc k l o :
  group s k (l ++ [o]) =
  if bool_decide (orderKey s o = Some k) then group s k l ++ [o] else group s k l.
Proof.
  unfold group. rewrite List.filter_app. simpl.
  case_bool_decide; [done|apply app_nil_r].
Qed.

Lemma alookup_fold_buckets l k :
  alookup (fold_left (addToBuckets s) l []) k = bucketAfter s [] l k.
Proof.
  induction l as [|o l IH] using rev_ind; [done|].
  rewrite fold_left_app. simpl. rewrite alookup_addToBuckets, IH.
  unfold bucketAfter. rewrite group_snoc. simpl.
  case_bool_decide as Hk; [|done].
  f_equal. destruct (group s k l) as [|o' g] eqn:E.
  - simpl. rewrite <- (addStats_zero zeroStats) at 1. by rewrite addOrder_statsOf.
  - simpl default. by rewrite addOrder_statsOf.
Qed.

(** The bucket of a label is the statistics of its group. *)
Lemma alookup_buckets k :
  alookup (buckets s) k =
  match group s k (filteredOrders s) with
  | [] => None
  | g => Some (statsOf s g)
  end.
Proof.
  unfold buckets. rewrite alookup_fold_buckets. unfold bucketAfter. simpl.
  destruct (group s k (filteredOrders s)); [done|]. by rewrite zero_addStats.
Qed.

Lemma inReport_time o : inReport s o = true -> is_Some (timeOf (Order.time o)).
Proof. unfold inReport. destruct (timeOf _); [eauto|done]. Qed.

Lemma filteredOrders_time :
  Forall (fun o => is_Some (timeOf (Order.time o))) (filteredOrders s).
Proof.
  apply Forall_forall. intros o [_ Hin]%list_elem_of_In%filter_In.
  by apply inReport_time.
Qed.

(** C4. Every row of a report holds the statistics of the filtered orders
    of its period, counted directly, and there is at least one such order. *)
Theorem reportRows_groups :
  Forall (fun r =>
            let g := group s (ReportRow.label r) (filteredOrders s) in
            g <> [] /\ ReportRow.stats r = statsOf s g)
         (reportRows s).
Proof.
  apply Forall_forall. intros r Hin%elem_of_reportRows. cbv zeta.
  apply (elem_alookup_NoDup _ _ _ (buckets_NoDup s)) in Hin.
  rewrite alookup_buckets in Hin.
  destruct (group s _ (filteredOrders s)); [done|]. by simplify_eq.
Qed.

(** Every filtered order is counted in a row: the row of its period. *)
Theorem reportRows_complete :
  Forall (fun o => exists r, r ∈ reportRows s /\ orderKey s o = Some (ReportRow.label r))
         (filteredOrders s).
Proof.
  apply Forall_forall. intros o Hin.
  pose proof (proj1 (Forall_forall _ _) filteredOrders_time o Hin) as [t Ht].
  set (k := bucketKey s t).
  assert (orderKey s o = Some k) as Hk by (unfold orderKey; by rewrite Ht).
  assert (o ∈ group s k (filteredOrders s)) as Hg.
  { apply list_elem_of_In, filter_In. split; [by apply list_elem_of_In|].
    by apply bool_decide_eq_true. }
  pose proof (alookup_buckets k) as Hb.
  destruct (group s k (filteredOrders s)) as [|o' g] eqn:E; [by apply elem_of_nil in Hg|].
  apply alookup_Some_elem in Hb.
  exists {| ReportRow.label := k; ReportRow.stats := statsOf s (o' :: g) |}.
  split; [by apply elem_of_reportRows|done].
Qed.

(** *** The total of a report *)

Section Linear.
Context (f : ReportStats -> Z) (c : Order -> Z).
Context (f_zero : f zeroStats = 0).
Context (f_add : forall st o, f (addOrder s st o) = f st + c o).

Lemma sum_addToBuckets b o :
  is_Some (timeOf (Order.time o)) ->
  sumOf (fun kv => f kv.2) (addToBuckets s b o) = sumOf (fun kv => f kv.2) b + c o.
Proof.
  intros [t Ht]. unfold addToBuckets. rewrite Ht. cbv zeta.
  rewrite sumOf_aset, f_add. destruct (alookup b _); simpl; lia.
Qed.

Lemma sum_fold_buckets l b :
  Forall (fun o => is_Some (timeOf (Order.time o))) l ->
  sumOf (fun kv => f kv.2) (fold_left (addToBuckets s) l b) =
  sumOf (fun kv => f kv.2) b + sumOf c l.
Proof.
  intros Hl. revert b. induction Hl as [|o l Ho Hl IH]; intros b; simpl.
  - rewrite sumOf_nil. lia.
  - rewrite IH, sum_addToBuckets, sumOf_cons by done. lia.
Qed.

(** A counter that every order advances by [c] sums, over the rows, to the
    sum of [c] over the filtered orders. *)
Lemma sum_reportRows :
  sumOf (fun r => f (ReportRow.stats r)) (reportRows s) = sumOf c (filteredOrders s).
Proof.
  rewrite (sumOf_perm _ _ _ (reportRows_buckets s)).
  rewrite sumOf_map. unfold buckets.
  rewrite sum_fold_buckets by apply filteredOrders_time. by rewrite sumOf_nil.
Qed.

End Linear.

(** C5. The total row of the reports screen is the statistics of all the
    filtered orders: no order is lost or counted twice by the bucketing. *)
Theorem reportRows_total : screenTotal (reportRows s) = statsOf s (filteredOrders s).
Proof.
  apply stats_eq; simpl; rewrite ?length_filter_sumOf;
    [rewrite <- sumOf_const_one|..];
    apply sum_reportRows; try done; intros st o; simpl;
    destruct (status_cases (Order.status o)) as [(Hp&Hl&Hn)|[(Hp&Hl&Hn)|(Hp&Hl&Hn)]];
    rewrite ?Hp, ?Hl, ?Hn; lia.
Qed.

End Groups.

(** *** The totals of the exports *)

Lemma fold_addStats rows acc :
  fold_left (fun acc r => addStats acc (ReportRow.stats r)) rows acc =
  addStats acc (screenTotal rows).
Proof.
  revert acc. induction rows as [|r rows IH]; intros acc; simpl.
  - apply stats_eq; simpl; rewrite ?sumOf_nil; lia.
  - rewrite IH. apply stats_eq; simpl; rewrite ?sumOf_cons; lia.
Qed.

(** C28. The total of the CSV export and of the printed report is the total
    row of the screen, for any list of rows. *)
Theorem totalOf_screenTotal rows : totalOf rows = screenTotal rows.
Proof.
  unfold totalOf. rewrite fold_addStats. apply stats_eq; simpl; lia.
Qed.

(** ** The filter *)

Section Filter.
Context `{JsRuntime}.
Context (s : AppState).

(** The status filter of a report admits the status of an order. *)
Definition statusAdmits (st : option Status) : Prop :=
  match reportStatus s with
  | StatusAll => True
  | StatusPaid => st = Some Paid
  | StatusLoan => st = Some Loan
  end.

(** C6. An order is in a report exactly when its time is valid, lies
    between the start date and the end of the end date where these are set
    and valid, and its status passes the status filter; a pending order
    passes only the filter [all]. *)
Theorem filteredOrders_spec o :
  o ∈ filteredOrders s <->
  o ∈ orders s /\
  exists t, timeOf (Order.time o) = Some t /\
    (forall st, rangeStart s = Some st -> st <= t) /\
    (forall e, rangeEnd s = Some e -> t <= e) /\
    statusAdmits (Order.status o).
Proof.
  unfold filteredOrders. rewrite list_elem_of_In, filter_In, <- list_elem_of_In.
  apply and_iff_compat_l. unfold inReport, statusAdmits.
  destruct (timeOf _) as [t|]; [|split; [done|by intros (t & ? & _)]].
  destruct (rangeStart s) as [st|], (rangeEnd s) as [e|], (reportStatus s),
    (Order.status o) as [[]|]; simpl;
    repeat (case_match; simpl); split;
    try (intros (t' & [= <-] & Hs & He & Hst)); try done;
    try (specialize (Hs _ eq_refl)); try (specialize (He _ eq_refl)); try lia;
    intros _; exists t; split_and!; try done; intros ? [= <-]; lia.
Qed.

End Filter.

(** ** Examples *)

(** The example of the specification: two orders on two days, one paid
    and one on loan, give two daily rows, the later day first. *)
Example reportRows_spec_example :
  @reportRows rt specState =
  [ {| ReportRow.label := "2024-01-06";
       ReportRow.stats :=
         {| ReportStats.ordersCount := 1; ReportStats.itemsCount := 1;
            ReportStats.sales := 10; ReportStats.paid := 0;
            ReportStats.loan := 1; ReportStats.pending := 0 |} |};
    {| ReportRow.label := "2024-01-05";
       ReportRow.stats :=
         {| ReportStats.ordersCount := 1; ReportStats.itemsCount := 2;
            ReportStats.sales := 10; ReportStats.paid := 1;
            ReportStats.loan := 0; ReportStats.pending := 0 |} |} ] /\
  screenTotal (@reportRows rt specState) =
    {| ReportStats.ordersCount := 2; ReportStats.itemsCount := 3;
       ReportStats.sales := 20; ReportStats.paid := 1;
       ReportStats.loan := 1; ReportStats.pending := 0 |}.
Proof. by vm_compute. Qed.

(** The week of 2024-12-31, a Tuesday, is week 1 of 2025, also in a
    browser east of UTC shortly after local midnight. *)
Example getWeekId_example :
  @getWeekId rt (Date_UTC 2024 11 31) = "2025-W1" /\
  @getWeekId rtEast (Date_UTC 2024 11 30 + 22 * 3600000) = "2025-W1" /\
  @getWeekId rt (Date_UTC 2024 11 29) = "2024-W52".
Proof. by vm_compute. Qed.

(** Weeks 9 and 10 of a year are listed in the wrong order: the labels are
    compared as strings. *)
Example week_labels_misordered :
  strLt "2024-W10" "2024-W9" = true /\
  cmpLabel ("2024-W9", zeroStats) ("2024-W10", zeroStats) = -1.
Proof. by vm_compute. Qed.

Lemma getWeekId_iso_witness :
  let (y, w) := isoWeekOfDay (@localDay rt (Date_UTC 2024 11 31)) in
  @getWeekId rt (Date_UTC 2024 11 31) = showZ y +:+ "-W" +:+ showZ w /\ 1 <= w <= 53.
Proof. apply (@getWeekId_iso rt (Date_UTC 2024 11 31)). by vm_compute. Defined.

Lemma getWeekId_same_week_witness :
  @getWeekId rt (Date_UTC 2024 11 30) = @getWeekId rt (Date_UTC 2025 0 5 + 80000000).
Proof. apply (@getWeekId_same_week rt); by vm_compute. Defined.
