(* ===== verification/Ledger.v ===== *)
(** * Ledger: loan customers and their loan entries

    [addLoanCustomer], [addLoanEntry] and [addLoanEntryForOrder] of revision
    C, the two filtered customer lists, and the ledger as the store holds
    it: [ledgerEntries] lists the entries of all customers, and
    [ledgerUnique] is the invariant I1 of the specification, that no two
    entries are for the same order.

    The theorems: the entry [addLoanEntryForOrder] writes keeps I1 when the
    order has no entry anywhere, and breaks it when the order has one under
    another customer, which the handler does not look at.
    [loanedOrders_applyAll] is what the race of [Settlement] rests on:
    store calls that add entries for different customers add them in
    whatever order they are applied. *)

From S2P Require Import Prelude Dates Runtime Model Store State Sample Effects Orders.

(** [usersById[order.waiterId]?.name ?? order.waiterId], [None] for
    [undefined]. *)
Definition servedByOf (s : AppState) (order : Order) : option string :=
  match alookup (usersById s) (keyOf (Order.waiterId order)) with
  | Some u => Some (User.name u)
  | None => Order.waiterId order
  end.

(** [entry]: the loan entry of an order.  The store refuses a value with an
    [undefined] member by an exception: [None]. *)
Definition loanEntryOf (s : AppState) (entryId : string) (order : Order)
  : option LoanEntry :=
  date ← Order.time order;
  servedBy ← servedByOf s order;
  Some {| LoanEntry.id := entryId;
          LoanEntry.orderId := Order.id order;
          LoanEntry.amount := orderTotal s order;
          LoanEntry.date := date;
          LoanEntry.servedBy := servedBy |}.

(** [customer.dbId ?? customer.id] *)
Definition pathIdOf (customer : LoanCustomer) : string :=
  LoanCustomer.dbId customer ?? LoanCustomer.id customer.

Definition addLoanCustomer (e : Env) (s : AppState) : Outcome :=
  if isEmpty (trim (newLoanCustomerName s)) || isEmpty (trim (newLoanCustomerPhone s))
  then pure (s <| banner := error "Provide name and phone for loan customer." |>)
  else
    let id := pushKey e in
    let payload :=
      {| DbLoanCustomer.id := Some id;
         DbLoanCustomer.name := trim (newLoanCustomerName s);
         DbLoanCustomer.phone := trim (newLoanCustomerPhone s);
         DbLoanCustomer.registeredBy :=
           Some ((currentUser s ?. User.id) ?? "system");
         DbLoanCustomer.loans := None |} in
    started s
      [thenOrBanner (SetLoanCustomer (pushKey e) payload)
         (fun s => s <| newLoanCustomerName := "" |>
                     <| newLoanCustomerPhone := "+25290" |>
                     <| loanCustomerModalOpen := false |>
                     <| banner := success "Loan customer added." |>)
         (fun _ => None)].

Definition addLoanEntry (e : Env) (s : AppState) : Outcome :=
  if isEmpty (loanEntryCustomerId s) || isEmpty (loanEntryOrderId s) then
    pure (s <| banner := error "Select customer and loan order." |>)
  else
    match findBy (fun c => bool_decide (LoanCustomer.id c = loanEntryCustomerId s))
                 (loanCustomers s),
          findBy (fun o => bool_decide (Order.id o = loanEntryOrderId s)) (orders s)
    with
    | Some customer, Some order =>
        let entryId := "loan-" +:+ showZ (now e) in
        match loanEntryOf s entryId order with
        | None => raised s []
        | Some entry =>
            started s
              [thenOrBanner (SetLoanEntry (pathIdOf customer) entryId entry)
                 (fun s => s <| loanEntryCustomerId := "" |>
                             <| loanEntryOrderId := "" |>
                             <| loanEntryModalOpen := false |>
                             <| banner := success "Loan entry added." |>)
                 (fun _ => None)]
        end
    | _, _ => pure (s <| banner := error "Invalid selection." |>)
    end.

(** The promise [addLoanEntryForOrder] returns. *)
Inductive LoanCall :=
  | AlreadyThere                (* [Promise.resolve()]: nothing is written *)
  | Writes (w : Write)          (* [set(ref, entry)] *)
  | Throws.                     (* the store call raised an exception *)

(** [existing]: an entry for the order among the loans of this customer. *)
Definition existing (order : Order) (customer : LoanCustomer) : option LoanEntry :=
  findBy (fun l => bool_decide (LoanEntry.orderId l = Order.id order))
         ((LoanCustomer.loans customer ?? []).*2).

Definition addLoanEntryForOrder (e : Env) (s : AppState) (order : Order)
    (customer : LoanCustomer) : LoanCall :=
  let pathId := pathIdOf customer in
  match existing order customer with
  | Some _ => AlreadyThere
  | None =>
      let entryId := pushKey e in
      match loanEntryOf s entryId order with
      | Some entry => Writes (SetLoanEntry pathId entryId entry)
      | None => Throws
      end
  end.

Definition loanCustomersFiltered (s : AppState) : list LoanCustomer :=
  List.filter (fun c =>
    includes (toLowerCase (LoanCustomer.name c +:+ " " +:+ LoanCustomer.phone c))
             (toLowerCase (trim (loanCustomerSearch s))))
    (loanCustomers s).

Definition loanCustomersModalFiltered (s : AppState) : list LoanCustomer :=
  List.filter (fun c =>
    includes (toLowerCase (LoanCustomer.name c +:+ " " +:+ LoanCustomer.phone c))
             (toLowerCase (trim (loanStatusSearch s))))
    (loanCustomers s).

(** ** The ledger in the store *)

(** The entries of a stored customer. *)
Definition entriesOf (c : DbLoanCustomer) : list LoanEntry :=
  (DbLoanCustomer.loans c ?? []).*2.

(** All entries of the ledger. *)
Definition ledgerEntries (db : Db) : list LoanEntry :=
  concat (map (fun kc => entriesOf kc.2) (dbLoanCustomers db)).

(** The orders that have an entry. *)
Definition loanedOrders (db : Db) : list string :=
  map LoanEntry.orderId (ledgerEntries db).

(** I1: at most one entry per order, over all customers. *)
Definition ledgerUnique (db : Db) : Prop := NoDup (loanedOrders db).

#[export] Instance ledgerUnique_dec db : Decision (ledgerUnique db).
Proof. unfold ledgerUnique. apply _. Defined.

(** [totalFor]: the sum of the amounts of a customer's entries, as the
    loans screen shows it. *)
Definition totalFor (c : LoanCustomer) : Z :=
  sumOf LoanEntry.amount ((LoanCustomer.loans c ?? []).*2).

(** The key [k] is not yet an entry of the customer at [p]. *)
Definition freshEntryKey (db : Db) (p k : string) : Prop :=
  k ∉ (DbLoanCustomer.loans (alookup (dbLoanCustomers db) p ?? blankLoanCustomer)
         ?? []).*1.

#[export] Instance freshEntryKey_dec db p k : Decision (freshEntryKey db p k).
Proof. unfold freshEntryKey. apply _. Defined.

(** The writes that change the ledger. *)
Definition touchesLedger (w : Write) : bool :=
  match w with
  | SetLoanCustomer _ _ | SetLoanEntry _ _ _ => true
  | _ => false
  end.

(** The customer a store call adds an entry to, and the order of the
    entry. *)
Definition entryOf (w : Write) : option (string * string) :=
  match w with
  | SetLoanEntry pathId _ entry => Some (pathId, LoanEntry.orderId entry)
  | _ => None
  end.

(** A store call that keeps what the ledger of [db] holds: it is not the
    write of a whole customer, and an entry goes under a key that is new. *)
Definition keepsLedger (db : Db) (w : Write) : Prop :=
  match w with
  | SetLoanEntry pathId key _ => freshEntryKey db pathId key
  | SetLoanCustomer _ _ => False
  | _ => True
  end.

(** ** The ledger under writes *)

(** Only the two loan writes change the customers. *)
Lemma dbLoanCustomers_frame w db :
  touchesLedger w = false -> dbLoanCustomers (applyWrite w db) = dbLoanCustomers db.
Proof. by destruct w. Qed.

(** Only the two loan writes change the ledger (I3). *)
Lemma ledger_frame w db :
  touchesLedger w = false -> ledgerEntries (applyWrite w db) = ledgerEntries db.
Proof. intros Hw. unfold ledgerEntries. by rewrite dbLoanCustomers_frame. Qed.

(** A new entry is added to the entries of the ledger. *)
Lemma ledgerEntries_SetLoanEntry db p k e :
  freshEntryKey db p k ->
  ledgerEntries (applyWrite (SetLoanEntry p k e) db) ≡ₚ e :: ledgerEntries db.
Proof.
  intros Hk. unfold ledgerEntries. simpl. unfold updateChild.
  apply (flat_aset entriesOf _ _ _ blankLoanCustomer e); [done|].
  unfold entriesOf. simpl. rewrite aset_notin by done.
  rewrite fmap_app. simpl. by rewrite Permutation_app_comm.
Qed.

Lemma loanedOrders_SetLoanEntry db p k e :
  freshEntryKey db p k ->
  loanedOrders (applyWrite (SetLoanEntry p k e) db) ≡ₚ
  LoanEntry.orderId e :: loanedOrders db.
Proof.
  intros Hk. unfold loanedOrders. by rewrite ledgerEntries_SetLoanEntry.
Qed.

(** What [addLoanEntryForOrder] writes, when it writes. *)
Lemma addLoanEntryForOrder_entry e s order customer w :
  addLoanEntryForOrder e s order customer = Writes w ->
  exists entry, w = SetLoanEntry (pathIdOf customer) (pushKey e) entry /\
                LoanEntry.orderId entry = Order.id order /\
                LoanEntry.amount entry = orderTotal s order /\
                Some (LoanEntry.date entry) = Order.time order /\
                existing order customer = None.
Proof.
  unfold addLoanEntryForOrder, loanEntryOf.
  destruct (existing order customer) eqn:Ex; [done|].
  destruct (Order.time order); simpl; [|done].
  destruct (servedByOf s order); simpl; [|done].
  intros [= <-]. eauto 10.
Qed.

(** C2. If the order has no entry anywhere in the ledger, the entry
    [addLoanEntryForOrder] writes keeps the ledger free of duplicates (I1). *)
Theorem addLoanEntryForOrder_unique e s db order customer w :
  ledgerUnique db ->
  Order.id order ∉ loanedOrders db ->
  freshEntryKey db (pathIdOf customer) (pushKey e) ->
  addLoanEntryForOrder e s order customer = Writes w ->
  ledgerUnique (applyWrite w db).
Proof.
  intros Hu Hn Hk (entry & -> & Ho & _)%addLoanEntryForOrder_entry.
  unfold ledgerUnique. rewrite loanedOrders_SetLoanEntry by done.
  rewrite Ho. by constructor.
Qed.

(** C13. [addLoanEntryForOrder] looks for an entry of the order only among
    the loans of the chosen customer: when the order already has an entry
    under another customer it writes a second one, and I1 is lost. *)
Theorem addLoanEntryForOrder_duplicate e s db order customer w :
  Order.id order ∈ loanedOrders db ->
  freshEntryKey db (pathIdOf customer) (pushKey e) ->
  addLoanEntryForOrder e s order customer = Writes w ->
  ~ ledgerUnique (applyWrite w db).
Proof.
  intros Hin Hk (entry & -> & Ho & _)%addLoanEntryForOrder_entry.
  unfold ledgerUnique. rewrite loanedOrders_SetLoanEntry by done.
  rewrite Ho. by intros [Hn _]%NoDup_cons.
Qed.

(** C32. For the customer whose cached loans hold an entry of the order,
    [addLoanEntryForOrder] writes nothing. *)
Theorem addLoanEntryForOrder_idempotent e s order customer :
  Order.id order ∈ map LoanEntry.orderId ((LoanCustomer.loans customer ?? []).*2) ->
  addLoanEntryForOrder e s order customer = AlreadyThere.
Proof.
  intros (l & Ho & Hin)%list_elem_of_fmap. unfold addLoanEntryForOrder, existing.
  destruct (findBy _ _) eqn:F; [done|].
  pose proof (proj1 (findBy_None _ _) F l Hin) as Fl.
  simpl in Fl. by rewrite bool_decide_eq_false in Fl.
Qed.

(** ** Writes in any order *)

Lemma keepsLedger_ext db db' w :
  dbLoanCustomers db' = dbLoanCustomers db -> keepsLedger db w -> keepsLedger db' w.
Proof. destruct w; try done. unfold keepsLedger, freshEntryKey. by intros ->. Qed.

(** An entry for another customer leaves the keys of this one as they
    are. *)
Lemma keepsLedger_other db p k e w :
  (forall o, entryOf w <> Some (p, o)) -> keepsLedger db w ->
  keepsLedger (applyWrite (SetLoanEntry p k e) db) w.
Proof.
  destruct w; try done. unfold keepsLedger, freshEntryKey. simpl. intros Hp.
  rewrite alookup_updateChild, decide_False; [done|]. intros ->. by eapply Hp.
Qed.

(** Store calls that keep the ledger, with at most one entry per customer
    among them, add their entries to it, in whatever order they are
    applied. *)
Lemma loanedOrders_applyAll ws db :
  Forall (keepsLedger db) ws -> NoDup (omap entryOf ws).*1 ->
  loanedOrders (applyAll ws db) ≡ₚ (omap entryOf ws).*2 ++ loanedOrders db.
Proof.
  revert db. induction ws as [|w ws IH]; intros db Hf Hnd; [done|].
  apply Forall_cons in Hf as [Hw Hf]. rewrite applyAll_cons.
  cbn [omap list_omap] in *. destruct (entryOf w) as [[p o]|] eqn:E.
  - destruct w; try done. injection E as <- <-.
    apply NoDup_cons in Hnd as [Hp Hnd]. rewrite IH; [| |done].
    + rewrite loanedOrders_SetLoanEntry by done. by rewrite <- Permutation_middle.
    + apply Forall_forall. intros w' Hin. apply keepsLedger_other.
      * intros o Eo. apply Hp, list_elem_of_fmap. exists (pathId, o).
        split; [done|]. apply list_elem_of_omap. eauto.
      * by eapply Forall_forall.
  - assert (touchesLedger w = false) as Ht by (by destruct w).
    rewrite IH; [|eapply Forall_impl; [done|]|done].
    + unfold loanedOrders. by rewrite ledger_frame.
    + intros w'. apply keepsLedger_ext. by apply dbLoanCustomers_frame.
Qed.

(** ** Examples *)

(** [addLoanEntry] checks nothing: adding the same order twice to a
    customer gives two entries. *)
Example addLoanEntry_twice :
  let s := (viewOf sampleDb admin1) <| loanEntryCustomerId := "-Lx" |>
                                    <| loanEntryOrderId := "-Mo1" |> in
  let db2 := foldr applyWrite sampleDb
               (writesOf (addLoanEntry (env 2000 "") s) ++
                writesOf (addLoanEntry (env 1000 "") s)) in
  loanedOrders db2 = ["-Mo1"; "-Mo1"] /\ ~ ledgerUnique db2.
Proof. split; [by vm_compute|]. by_compute. Qed.

Lemma addLoanEntryForOrder_unique_witness :
  ledgerUnique (applyWrite (SetLoanEntry "-Lx" "-N1" entry1) sampleDb).
Proof.
  apply (addLoanEntryForOrder_unique (env 3 "-N1") (viewOf sampleDb collector1)
           sampleDb theOrder (customerOf sampleDb "-Lx"));
    first [by_compute | by vm_compute].
Defined.

Lemma addLoanEntryForOrder_duplicate_witness :
  ~ ledgerUnique (applyWrite (SetLoanEntry "-Ly" "-N2" (entry1 <| LoanEntry.id := "-N2" |>))
                    loanedDb).
Proof.
  apply (addLoanEntryForOrder_duplicate (env 9 "-N2") (viewOf loanedDb collector1)
           loanedDb theOrder (customerOf loanedDb "-Ly"));
    first [by_compute | by vm_compute].
Defined.

Lemma addLoanEntryForOrder_idempotent_witness :
  addLoanEntryForOrder (env 9 "-N2") (viewOf loanedDb collector1) theOrder
    (customerOf loanedDb "-Lx") = AlreadyThere.
Proof. apply addLoanEntryForOrder_idempotent. by_compute. Defined.
