(* ===== verification/Settlement.v ===== *)
(** * Settlement: changing the status of an order

    [updateOrderStatus], [handleStatusChange] and [confirmLoanStatus] of
    revision C.  Settling an order in cash is one store call; deferring it
    to a loan is two independent store calls, the status of the order and
    the entry in the ledger of the chosen customer.

    The theorems: what a settlement does to the stored order; that an order
    [handleCreateOrder] stored is not reached by it; that the two writes of
    a loan are not one operation; and the race of two collectors, for any
    two browsers and any order in which the store applies their writes. *)

From S2P Require Import Prelude Dates Runtime Model Store State Sample Effects Orders Ledger.

(** [collector]: the name of the signed-in user for a settlement, empty for
    a return to pending. *)
Definition collectorFor (s : AppState) (status : Status) : string :=
  match status with
  | Paid | Loan => (currentUser s ?. User.name) ?? "Unknown"
  | Pending => ""
  end.

(** The store call of [updateOrderStatus] with its callbacks. *)
Definition statusCall (s : AppState) (id : string) (status : Status) : Call :=
  thenOrBanner (UpdateOrderStatus id status (collectorFor s status))
    (fun s => s <| banner := success "Order status updated." |>)
    (fun _ => None).

Definition updateOrderStatus (s : AppState) (id : string) (status : Status) : Outcome :=
  started s [statusCall s id status].

(** [handleStatusChange]: a loan opens the customer dialog; paid and pending
    are written at once. *)
Definition handleStatusChange (s : AppState) (order : Order) (status : Status)
  : Outcome :=
  if bool_decide (status = Loan) then
    pure (s <| loanStatusOrderId := Order.id order |>
            <| loanStatusModalOpen := true |>
            <| loanStatusCustomerId := "" |>
            <| loanStatusSearch := "" |>)
  else updateOrderStatus s (Order.id order) status.

(** The [finally] callback of [confirmLoanStatus]: the dialog closes. *)
Definition closeLoanDialog (s : AppState) : AppState :=
  s <| loanStatusModalOpen := false |>
    <| loanStatusOrderId := "" |>
    <| loanStatusCustomerId := "" |>
    <| loanStatusSearch := "" |>.

Definition confirmLoanStatus (e : Env) (s : AppState) : Outcome :=
  if isEmpty (loanStatusOrderId s) || isEmpty (loanStatusCustomerId s) then
    pure (s <| banner := error "Select a loan customer." |>)
  else
    match findBy (fun o => bool_decide (Order.id o = loanStatusOrderId s)) (orders s),
          findBy (fun c => bool_decide (LoanCustomer.id c = loanStatusCustomerId s))
                 (loanCustomers s)
    with
    | Some order, Some customer =>
        let status := statusCall s (Order.id order) Loan in
        let entry (w : option Write) : Call :=
          {| write := w; onThen := id; thenLog := fun _ => None;
             onCatch := fun _ => id; onFinally := closeLoanDialog |} in
        match addLoanEntryForOrder e s order customer with
        | AlreadyThere =>
            started s [status; entry None]
        | Writes w =>
            started s [status; entry (Some w)]
        | Throws => raised s [status]
        end
    | _, _ => pure (s <| banner := error "Invalid selection." |>)
    end.

(** ** What a settlement is to do to a stored order *)

(** The record [d] settled: status and collector are set, the other members
    stay. *)
Definition settled (st : Status) (col : string) (d : DbOrder) : DbOrder :=
  d <| DbOrder.status := Some st |> <| DbOrder.collector := Some col |>.

(** The loan dialog of [s] is filled in for [order] and [customer], which
    the lists of the browser have. *)
Definition loanDialogFor (s : AppState) (order : Order) (customer : LoanCustomer)
  : Prop :=
  isEmpty (loanStatusOrderId s) || isEmpty (loanStatusCustomerId s) = false /\
  findBy (fun o => bool_decide (Order.id o = loanStatusOrderId s)) (orders s)
    = Some order /\
  findBy (fun c => bool_decide (LoanCustomer.id c = loanStatusCustomerId s))
         (loanCustomers s) = Some customer.

(** ** The status write *)

Lemma alookup_UpdateOrderStatus db id st col k :
  alookup (dbOrders (applyWrite (UpdateOrderStatus id st col) db)) k =
  if decide (id = k)
  then Some (settled st col (alookup (dbOrders db) id ?? blankOrder))
  else alookup (dbOrders db) k.
Proof. simpl. apply alookup_updateChild. Qed.

Lemma writesOf_updateOrderStatus s id st :
  writesOf (updateOrderStatus s id st) = [UpdateOrderStatus id st (collectorFor s st)].
Proof. reflexivity. Qed.

(** C3. An order stored under its identifier is settled by
    [updateOrderStatus]: its status and collector are set, its other
    members and all other orders stay as they are. *)
Theorem updateOrderStatus_settles s db id st d :
  alookup (dbOrders db) id = Some d ->
  let db' := applyAll (writesOf (updateOrderStatus s id st)) db in
  alookup (dbOrders db') id = Some (settled st (collectorFor s st) d) /\
  (forall k, k <> id -> alookup (dbOrders db') k = alookup (dbOrders db) k) /\
  (dbOrders db').*1 = (dbOrders db).*1.
Proof.
  intros Hd db'. subst db'. rewrite writesOf_updateOrderStatus. cbn [applyAll fold_left].
  split_and!.
  - by rewrite alookup_UpdateOrderStatus, decide_True, Hd.
  - intros k Hk. by rewrite alookup_UpdateOrderStatus, decide_False.
  - simpl. apply updateChild_keys_in.
    apply alookup_Some_elem in Hd. apply list_elem_of_fmap. by exists (id, d).
Qed.

(** C11. An order that [handleCreateOrder] stored cannot be settled: the
    order list passes the order number to [updateOrderStatus], the order is
    stored under its generated key, and the write goes to another path.
    The stored order stays pending. *)
Theorem created_order_stays_pending e s s' db st :
  isEmpty (draftWaiter s) = false -> selected s <> [] ->
  pushKey e <> nextOrderId s ->
  let db1 := applyAll (writesOf (handleCreateOrder e s)) db in
  let db2 := applyAll (writesOf (updateOrderStatus s' (nextOrderId s) st)) db1 in
  exists d, alookup (dbOrders db1) (pushKey e) = Some d /\
            Order.id (decodeOrder (pushKey e, d)) = nextOrderId s /\
            alookup (dbOrders db2) (pushKey e) = Some d /\
            Order.status (decodeOrder (pushKey e, d)) = Some Pending.
Proof.
  intros Hw Hs Hk db1 db2.
  destruct (handleCreateOrder_writes e s Hw Hs) as (d & W & Hid & Hst & _).
  subst db2 db1. rewrite W, writesOf_updateOrderStatus. exists d.
  cbn [applyAll fold_left].
  assert (alookup (dbOrders (applyWrite (SetOrder (pushKey e) d) db)) (pushKey e) = Some d)
    as L by (simpl; apply alookup_aset_eq).
  split_and!; [done|by simpl; rewrite Hid| |by simpl; rewrite Hst].
  rewrite alookup_UpdateOrderStatus. by rewrite decide_False.
Qed.

(** ** Deferring to a loan *)

(** [handleStatusChange] to a loan writes nothing: it opens the dialog. *)
Lemma handleStatusChange_loan s order :
  writesOf (handleStatusChange s order Loan) = [] /\
  loanStatusModalOpen (next (handleStatusChange s order Loan)) = true /\
  loanStatusOrderId (next (handleStatusChange s order Loan)) = Order.id order.
Proof. done. Qed.

Section Confirm.
Context (e : Env) (s : AppState) (order : Order) (customer : LoanCustomer).
Context (Horder :
  findBy (fun o => bool_decide (Order.id o = loanStatusOrderId s)) (orders s) = Some order).
Context (Hcustomer :
  findBy (fun c => bool_decide (LoanCustomer.id c = loanStatusCustomerId s))
         (loanCustomers s) = Some customer).
Context (Hids : isEmpty (loanStatusOrderId s) || isEmpty (loanStatusCustomerId s) = false).

Lemma confirmLoanStatus_found :
  writesOf (confirmLoanStatus e s) =
  UpdateOrderStatus (Order.id order) Loan (collectorFor s Loan) ::
  match addLoanEntryForOrder e s order customer with
  | Writes w => [w]
  | _ => []
  end.
Proof.
  unfold confirmLoanStatus. rewrite Hids, Horder, Hcustomer.
  by destruct (addLoanEntryForOrder e s order customer).
Qed.

End Confirm.

(** C9. [confirmLoanStatus] on a found order and customer starts the status
    write first and the ledger write second, as two store calls; it leaves
    the state as it is until they complete. *)
Theorem confirmLoanStatus_writes e s order customer :
  findBy (fun o => bool_decide (Order.id o = loanStatusOrderId s)) (orders s) = Some order ->
  findBy (fun c => bool_decide (LoanCustomer.id c = loanStatusCustomerId s))
         (loanCustomers s) = Some customer ->
  isEmpty (loanStatusOrderId s) || isEmpty (loanStatusCustomerId s) = false ->
  writesOf (confirmLoanStatus e s) =
    UpdateOrderStatus (Order.id order) Loan (collectorFor s Loan) ::
    match addLoanEntryForOrder e s order customer with
    | Writes w => [w]
    | _ => []
    end /\
  next (confirmLoanStatus e s) = s.
Proof.
  intros Ho Hc Hi. split; [by apply confirmLoanStatus_found|].
  unfold confirmLoanStatus. rewrite Hi, Ho, Hc.
  by destruct (addLoanEntryForOrder e s order customer).
Qed.

(** C30. Without a chosen customer, or when the order or the customer is not
    in the cached lists, [confirmLoanStatus] writes nothing and shows an
    error. *)
Theorem confirmLoanStatus_rejects e s :
  isEmpty (loanStatusOrderId s) || isEmpty (loanStatusCustomerId s) = true \/
  findBy (fun o => bool_decide (Order.id o = loanStatusOrderId s)) (orders s) = None \/
  findBy (fun c => bool_decide (LoanCustomer.id c = loanStatusCustomerId s))
         (loanCustomers s) = None ->
  writesOf (confirmLoanStatus e s) = [] /\
  exists m, next (confirmLoanStatus e s) = s <| banner := error m |>.
Proof.
  unfold confirmLoanStatus. intros [Hi|[Ho|Hc]].
  - rewrite Hi. eauto.
  - destruct (_ || _); [eauto|]. rewrite Ho. eauto.
  - destruct (_ || _); [eauto|]. rewrite Hc. destruct (findBy _ (orders s)); eauto.
Qed.

(** C17. The two writes of a loan are not one operation: after the first,
    and for good if the second is refused, the order is a loan and the
    ledger has no entry for it. *)
Theorem confirmLoanStatus_not_atomic e s db order customer d :
  findBy (fun o => bool_decide (Order.id o = loanStatusOrderId s)) (orders s) = Some order ->
  findBy (fun c => bool_decide (LoanCustomer.id c = loanStatusCustomerId s))
         (loanCustomers s) = Some customer ->
  isEmpty (loanStatusOrderId s) || isEmpty (loanStatusCustomerId s) = false ->
  alookup (dbOrders db) (Order.id order) = Some d ->
  exists w rest, writesOf (confirmLoanStatus e s) = w :: rest /\
    DbOrder.status <$> alookup (dbOrders (applyWrite w db)) (Order.id order) =
      Some (Some Loan) /\
    loanedOrders (applyWrite w db) = loanedOrders db.
Proof.
  intros Ho Hc Hi Hd. rewrite (confirmLoanStatus_found e s order customer Ho Hc Hi).
  do 2 eexists. split; [reflexivity|]. split.
  - by rewrite alookup_UpdateOrderStatus, decide_True, Hd.
  - unfold loanedOrders. by rewrite ledger_frame.
Qed.

(** ** Two collectors and one order *)

(** What [confirmLoanStatus] writes when the customer has no entry of the
    order yet: the status, and the entry under the generated key. *)
Lemma confirmLoanStatus_entry e s order customer w :
  loanDialogFor s order customer ->
  addLoanEntryForOrder e s order customer = Writes w ->
  exists entry,
    writesOf (confirmLoanStatus e s) =
      [UpdateOrderStatus (Order.id order) Loan (collectorFor s Loan);
       SetLoanEntry (pathIdOf customer) (pushKey e) entry] /\
    LoanEntry.orderId entry = Order.id order.
Proof.
  intros (Hi & Ho & Hc) Hw.
  rewrite (confirmLoanStatus_found e s order customer Ho Hc Hi), Hw.
  apply addLoanEntryForOrder_entry in Hw as (entry & -> & Hid & _). eauto.
Qed.

(** C19. The race of two collectors.  Two browsers have the loan dialog
    filled in for the same order and for two customers, neither of whom has
    an entry of the order in the list of its browser.  Both confirm.  In
    whichever order the store applies the four writes, the ledger then
    holds two entries for the order: I1 is lost. *)
Theorem confirmLoanStatus_race e1 e2 s1 s2 o1 o2 c1 c2 w1 w2 db ws :
  loanDialogFor s1 o1 c1 -> loanDialogFor s2 o2 c2 ->
  Order.id o1 = Order.id o2 -> pathIdOf c1 <> pathIdOf c2 ->
  addLoanEntryForOrder e1 s1 o1 c1 = Writes w1 ->
  addLoanEntryForOrder e2 s2 o2 c2 = Writes w2 ->
  freshEntryKey db (pathIdOf c1) (pushKey e1) ->
  freshEntryKey db (pathIdOf c2) (pushKey e2) ->
  ws ≡ₚ writesOf (confirmLoanStatus e1 s1) ++ writesOf (confirmLoanStatus e2 s2) ->
  ~ ledgerUnique (applyAll ws db).
Proof.
  intros D1 D2 Hid Hp W1 W2 F1 F2 Hws.
  destruct (confirmLoanStatus_entry e1 s1 o1 c1 w1 D1 W1) as (x1 & E1 & O1).
  destruct (confirmLoanStatus_entry e2 s2 o2 c2 w2 D2 W2) as (x2 & E2 & O2).
  rewrite E1, E2 in Hws. unfold ledgerUnique.
  rewrite loanedOrders_applyAll, Hws; rewrite ?Hws; simpl.
  - rewrite O1, O2, Hid. intros [Hn _]%NoDup_cons. apply Hn. by left.
  - by repeat constructor.
  - apply NoDup_cons. split; [by intros ?%list_elem_of_singleton|apply NoDup_singleton].
Qed.

(** ** Witnesses *)

Lemma updateOrderStatus_settles_witness :
  let db' := applyAll (writesOf (updateOrderStatus collectorView "-Mo1" Paid)) sampleDb in
  alookup (dbOrders db') "-Mo1" = Some (settled Paid "Deeqa" storedOrder) /\
  (forall k, k <> "-Mo1" -> alookup (dbOrders db') k = alookup (dbOrders sampleDb) k) /\
  (dbOrders db').*1 = (dbOrders sampleDb).*1.
Proof.
  apply (updateOrderStatus_settles collectorView sampleDb "-Mo1" Paid storedOrder).
  reflexivity.
Defined.

Lemma created_order_stays_pending_witness :
  let e := env 1704650400000 "-Mo2" in
  let db1 := applyAll (writesOf (handleCreateOrder e draftView)) sampleDb in
  let db2 :=
    applyAll (writesOf (updateOrderStatus collectorView (nextOrderId draftView) Paid))
      db1 in
  exists d, alookup (dbOrders db1) "-Mo2" = Some d /\
            Order.id (decodeOrder ("-Mo2", d)) = nextOrderId draftView /\
            alookup (dbOrders db2) "-Mo2" = Some d /\
            Order.status (decodeOrder ("-Mo2", d)) = Some Pending.
Proof.
  apply (created_order_stays_pending (env 1704650400000 "-Mo2") draftView
           collectorView sampleDb Paid); by vm_compute.
Defined.

Lemma confirmLoanStatus_writes_witness :
  writesOf (confirmLoanStatus (env 3 "-N1") dialogView) =
    [UpdateOrderStatus "-Mo1" Loan "Deeqa"; SetLoanEntry "-Lx" "-N1" entry1] /\
  next (confirmLoanStatus (env 3 "-N1") dialogView) = dialogView.
Proof.
  apply (confirmLoanStatus_writes (env 3 "-N1") dialogView theOrder
           (customerOf sampleDb "-Lx")); by vm_compute.
Defined.

Lemma confirmLoanStatus_rejects_witness :
  writesOf (confirmLoanStatus (env 3 "-N1") collectorView) = [] /\
  exists m, next (confirmLoanStatus (env 3 "-N1") collectorView) =
            collectorView <| banner := error m |>.
Proof. apply confirmLoanStatus_rejects. left. reflexivity. Defined.

Lemma confirmLoanStatus_not_atomic_witness :
  exists w rest, writesOf (confirmLoanStatus (env 3 "-N1") dialogView) = w :: rest /\
    DbOrder.status <$> alookup (dbOrders (applyWrite w sampleDb)) "-Mo1" =
      Some (Some Loan) /\
    loanedOrders (applyWrite w sampleDb) = loanedOrders sampleDb.
Proof.
  apply (confirmLoanStatus_not_atomic (env 3 "-N1") dialogView sampleDb theOrder
           (customerOf sampleDb "-Lx") storedOrder); by vm_compute.
Defined.

Lemma confirmLoanStatus_race_witness :
  let e1 := env 3 "-N1" in
  let e2 := env 3 "-N2" in
  let s2 := dialogView <| loanStatusCustomerId := "-Ly" |> in
  ~ ledgerUnique
      (applyAll [UpdateOrderStatus "-Mo1" Loan "Deeqa"; UpdateOrderStatus "-Mo1" Loan "Deeqa";
                 SetLoanEntry "-Ly" "-N2" (entry1 <| LoanEntry.id := "-N2" |>);
                 SetLoanEntry "-Lx" "-N1" entry1] sampleDb).
Proof.
  intros e1 e2 s2.
  apply (confirmLoanStatus_race e1 e2 dialogView s2 theOrder theOrder
           (customerOf sampleDb "-Lx") (customerOf sampleDb "-Ly")
           (SetLoanEntry "-Lx" "-N1" entry1)
           (SetLoanEntry "-Ly" "-N2" (entry1 <| LoanEntry.id := "-N2" |>)));
    first [by_compute | by vm_compute | (split_and!; by vm_compute)].
Defined.
