(* ===== verification/Export.v ===== *)
(** * Export: the report as a CSV file and as a printed document

    [exportReportCSV] and [printReport] of revision C.  Both compute the
    total of the rows with one [reduce] ([Reports.totalOf]) and write the
    rows and the total as text: the CSV as lines of cells joined by commas,
    the document as an HTML table.  The browser calls around the text (the
    [Blob], the anchor that is clicked, the window that is printed) are the
    record of what is downloaded and the option of what is written.

    The theorem: the CSV can be read back, cell by cell and number by
    number, when no label holds a separator. *)

From Stdlib Require Import Ascii DecimalString.
From S2P Require Import Prelude Dates Runtime Model Store State Sample Orders Reports.

(** The characters that are written by their code: the line feed and the
    double quote of the HTML attributes. *)
Definition lf : ascii := ascii_of_nat 10.
Definition nl : string := String lf "".
Definition dq : string := String (ascii_of_nat 34) "".

(** [Array.prototype.join] *)
Fixpoint join (sep : string) (l : list string) : string :=
  match l with
  | [] => ""
  | x :: rest =>
      match rest with
      | [] => x
      | _ => x +:+ sep +:+ join sep rest
      end
  end.

(** ** The CSV file *)

Definition header : list string :=
  ["Period"; "Orders"; "Items"; "Sales"; "Paid"; "Loan"; "Pending"].

(** The cells of a row: [[r.label, r.ordersCount, r.itemsCount,
    r.sales.toFixed(2), r.paid, r.loan, r.pending ?? 0]], each as [join]
    writes it. *)
Definition cellsOf (label : string) (st : ReportStats) : list string :=
  [label; showZ (ReportStats.ordersCount st); showZ (ReportStats.itemsCount st);
   toFixed2 (ReportStats.sales st); showZ (ReportStats.paid st);
   showZ (ReportStats.loan st); showZ (ReportStats.pending st)].

Definition csvRows (rows : list ReportRow) : list (list string) :=
  map (fun r => cellsOf (ReportRow.label r) (ReportRow.stats r)) rows
  ++ [cellsOf "Total" (totalOf rows)].

(** [[header, ...rows].map((r) => r.join(',')).join('\n')] *)
Definition csvOf (rows : list ReportRow) : string :=
  join nl (map (join ",") (header :: csvRows rows)).

(** What the click on the anchor downloads. *)
Record Download := {
  content : string;
  type : string;
  download : string
}.

Definition exportReportCSV `{JsRuntime} (s : AppState) : Download :=
  {| content := csvOf (reportRows s);
     type := "text/csv;charset=utf-8;";
     download := "reports.csv" |}.

(** ** The printed document *)

Definition td (cell : string) : string := "<td>" +:+ cell +:+ "</td>".

(** The table row of a report row and, with the label in [<strong>], of
    the total. *)
Definition tableRow (label : string) (st : ReportStats) : string :=
  "<tr>" +:+ td label +:+ td (showZ (ReportStats.ordersCount st))
         +:+ td (showZ (ReportStats.itemsCount st))
         +:+ td ("$" +:+ toFixed2 (ReportStats.sales st))
         +:+ td (showZ (ReportStats.paid st))
         +:+ td (showZ (ReportStats.loan st))
         +:+ td (showZ (ReportStats.pending st)) +:+ "</tr>".

Definition tableRows (rows : list ReportRow) : string :=
  join "" (map (fun r => tableRow (ReportRow.label r) (ReportRow.stats r)) rows).

(** The template of [html], line by line. *)
Definition htmlOf (rows : list ReportRow) : string :=
  join nl
    [""; "      <html>"; "      <head><title>Reports</title></head>"; "      <body>";
     "        <h2>Reports</h2>";
     "        <table border=" +:+ dq +:+ "1" +:+ dq +:+ " cellspacing=" +:+ dq +:+ "0"
       +:+ dq +:+ " cellpadding=" +:+ dq +:+ "6" +:+ dq +:+ ">";
     "          <tr><th>Period</th><th>Orders</th><th>Items</th><th>Sales</th>"
       +:+ "<th>Paid</th><th>Loan</th><th>Pending</th></tr>";
     "          " +:+ tableRows rows;
     "          " +:+ tableRow "<strong>Total</strong>" (totalOf rows);
     "        </table>"; "      </body>"; "      </html>"; "    "].

(** [printReport]: nothing when [window.open] returns [null], else the
    document written to the window. *)
Definition printReport `{JsRuntime} (opened : bool) (s : AppState) : option string :=
  if opened then Some (htmlOf (reportRows s)) else None.

(** ** Reading a CSV file *)

(** [String.prototype.split] on one character. *)
Fixpoint splitOn (c : ascii) (s : string) : list string :=
  match s with
  | "" => [""]
  | String a rest =>
      if Ascii.eqb a c then "" :: splitOn c rest
      else match splitOn c rest with
           | x :: xs => String a x :: xs
           | [] => [String a ""]
           end
  end.

(** The cells of the lines of a file. *)
Definition cellsOfCsv (csv : string) : list (list string) :=
  map (splitOn ",") (splitOn lf csv).

(** A line of cells as a row: the numbers are read with [parseInt], the
    amount without its two decimals. *)
Definition readRow (cells : list string) : option ReportRow :=
  match cells with
  | [label; orders; items; sales; paid; loan; pending] =>
      o ← parseInt10 orders; i ← parseInt10 items;
      s ← parseInt10 (sliceTo (String.length sales - 3) sales);
      p ← parseInt10 paid; l ← parseInt10 loan; q ← parseInt10 pending;
      Some {| ReportRow.label := label;
              ReportRow.stats :=
                {| ReportStats.ordersCount := o; ReportStats.itemsCount := i;
                   ReportStats.sales := s; ReportStats.paid := p;
                   ReportStats.loan := l; ReportStats.pending := q |} |}
  | _ => None
  end.

(** The rows of a file, the total among them: the lines after the
    header. *)
Definition readCsv (csv : string) : option (list ReportRow) :=
  match cellsOfCsv csv with
  | _ :: lines => mapM readRow lines
  | [] => None
  end.

(** A text without [c]. *)
Definition lacks (c : ascii) (s : string) : Prop :=
  allChars (fun a => negb (Ascii.eqb a c)) s = true.

#[export] Instance lacks_dec c s : Decision (lacks c s).
Proof. unfold lacks. apply _. Defined.

(** A label that can be a cell: no comma and no line feed. *)
Definition plain (s : string) : Prop := lacks "," s /\ lacks lf s.

#[export] Instance plain_dec s : Decision (plain s).
Proof. unfold plain, lacks. apply _. Defined.

(** ** [join] and [splitOn] *)

Lemma join_cons sep x y l : join sep (x :: y :: l) = x +:+ sep +:+ join sep (y :: l).
Proof. done. Qed.

Lemma lacks_app c s1 s2 : lacks c s1 -> lacks c s2 -> lacks c (s1 +:+ s2).
Proof.
  unfold lacks. induction s1 as [|a s1 IH]; simpl; [done|].
  intros [-> H1]%andb_prop H2. simpl. auto.
Qed.

Lemma lacks_join c sep l : lacks c sep -> Forall (lacks c) l -> lacks c (join sep l).
Proof.
  intros Hs. induction 1 as [|x l Hx Hl IH]; [done|].
  destruct l as [|y l]; [done|]. rewrite join_cons. auto using lacks_app.
Qed.

Lemma splitOn_app c x rest :
  lacks c x ->
  splitOn c (x +:+ String c rest) = x :: splitOn c rest.
Proof.
  unfold lacks. induction x as [|a x IH]; simpl.
  - by rewrite Ascii.eqb_refl.
  - intros [Ha Hx]%andb_prop. apply negb_true_iff in Ha. rewrite Ha.
    by rewrite IH.
Qed.

Lemma splitOn_lacks c x : lacks c x -> splitOn c x = [x].
Proof.
  unfold lacks. induction x as [|a x IH]; simpl; [done|].
  intros [Ha Hx]%andb_prop. apply negb_true_iff in Ha. by rewrite Ha, IH.
Qed.

(** [split] undoes [join] when no element holds the separator. *)
Lemma splitOn_join c l :
  l <> [] -> Forall (lacks c) l -> splitOn c (join (String c "") l) = l.
Proof.
  intros Hne Hl. induction Hl as [|x l Hx Hl IH]; [done|].
  destruct l as [|y l]; [by apply splitOn_lacks|].
  rewrite join_cons. change (String c "" +:+ ?s) with (String c s).
  rewrite splitOn_app by done. by rewrite IH.
Qed.

(** ** The cells are free of separators *)

Lemma lacks_uint c d :
  (forall a, isDigit a = true -> Ascii.eqb a c = false) ->
  lacks c (NilEmpty.string_of_uint d).
Proof.
  intros Hc. unfold lacks.
  induction d; cbn [NilEmpty.string_of_uint allChars];
    [done|rewrite Hc by by_compute; exact IHd..].
Qed.

Lemma lacks_char c a : Ascii.eqb a c = false -> lacks c (String a "").
Proof. unfold lacks. cbn [allChars]. by intros ->. Qed.

Lemma lacks_nilzero c d :
  (forall a, isDigit a = true -> Ascii.eqb a c = false) ->
  lacks c (NilZero.string_of_uint d).
Proof.
  intros Hc. destruct d; [apply lacks_char, Hc; by_compute|exact (lacks_uint c _ Hc)..].
Qed.

Lemma lacks_showZ c z :
  Ascii.eqb "-" c = false -> (forall a, isDigit a = true -> Ascii.eqb a c = false) ->
  lacks c (showZ z).
Proof.
  intros Hm Hc. unfold showZ, NilZero.string_of_int.
  destruct (Z.to_int z) as [d|d]; [by apply lacks_nilzero|].
  apply (lacks_app c "-"); [by apply lacks_char|by apply lacks_nilzero].
Qed.

Lemma isDigit_not c : isDigit c = false -> forall a, isDigit a = true -> Ascii.eqb a c = false.
Proof. intros Hc a Ha. apply Ascii.eqb_neq. congruence. Qed.

Lemma plain_showZ z : plain (showZ z).
Proof. split; apply lacks_showZ; (done || by apply isDigit_not). Qed.

Lemma plain_toFixed2 z : plain (toFixed2 z).
Proof.
  destruct (plain_showZ z). split; (apply lacks_app; [done|by_compute]).
Qed.

Lemma cellsOf_plain label st : plain label -> Forall plain (cellsOf label st).
Proof.
  intros Hl. unfold cellsOf.
  repeat constructor; try apply Hl; apply plain_showZ || apply plain_toFixed2.
Qed.

Lemma csvRows_plain rows :
  Forall (fun r => plain (ReportRow.label r)) rows ->
  Forall (fun l => l <> [] /\ Forall plain l) (csvRows rows).
Proof.
  intros Hr. unfold csvRows. apply Forall_app. split.
  - apply Forall_fmap. eapply Forall_impl; [exact Hr|].
    intros r Hl. split; [done|by apply cellsOf_plain].
  - apply Forall_singleton. split; [done|]. apply cellsOf_plain. by_compute.
Qed.

(** ** Reading back *)

Lemma cellsOfCsv_join lines :
  lines <> [] -> Forall (fun l => l <> [] /\ Forall plain l) lines ->
  cellsOfCsv (join nl (map (join ",") lines)) = lines.
Proof.
  intros Hne Hl. unfold cellsOfCsv, nl. rewrite splitOn_join.
  - rewrite <- list_fmap_compose. rewrite <- (list_fmap_id lines) at 2.
    apply Forall_fmap_ext_1. eapply Forall_impl; [exact Hl|].
    intros l [Hn Hp]. simpl. apply (splitOn_join "," l Hn).
    eapply Forall_impl; [exact Hp|]. by intros ? [].
  - by destruct lines.
  - apply Forall_fmap. eapply Forall_impl; [exact Hl|].
    intros l [_ Hp]. simpl. apply lacks_join; [by_compute|].
    eapply Forall_impl; [exact Hp|]. by intros ? [].
Qed.

Lemma sliceTo_toFixed2 z :
  sliceTo (String.length (toFixed2 z) - 3) (toFixed2 z) = showZ z.
Proof.
  unfold toFixed2. rewrite string_length_app. simpl String.length.
  replace (_ + 3 - 3)%nat with (String.length (showZ z)) by lia. apply sliceTo_app.
Qed.

Lemma readRow_cellsOf label st :
  readRow (cellsOf label st) =
  Some {| ReportRow.label := label; ReportRow.stats := st |}.
Proof.
  unfold readRow, cellsOf. rewrite sliceTo_toFixed2, !parseInt10_showZ. simpl.
  by destruct st.
Qed.

Lemma mapM_readRow rows :
  mapM readRow (map (fun r => cellsOf (ReportRow.label r) (ReportRow.stats r)) rows)
  = Some rows.
Proof.
  apply mapM_Some. apply Forall2_fmap_l, Forall_Forall2_diag, Forall_forall.
  intros [label st] _. apply readRow_cellsOf.
Qed.

(** C23. The CSV file can be read back: when no label holds a comma or a
    line feed, the lines after the header, split into cells and read as
    numbers, are the rows of the report followed by their total. *)
Theorem readCsv_csvOf rows :
  Forall (fun r => plain (ReportRow.label r)) rows ->
  readCsv (csvOf rows) =
  Some (rows ++ [{| ReportRow.label := "Total"; ReportRow.stats := totalOf rows |}]).
Proof.
  intros Hr. unfold readCsv, csvOf. rewrite cellsOfCsv_join; [|done|].
  - unfold csvRows.
    change [cellsOf "Total" (totalOf rows)] with
      (map (fun r => cellsOf (ReportRow.label r) (ReportRow.stats r))
           [{| ReportRow.label := "Total"; ReportRow.stats := totalOf rows |}]).
    rewrite <- map_app. apply mapM_readRow.
  - constructor; [split; [done|by_compute]|]. by apply csvRows_plain.
Qed.

Lemma readCsv_csvOf_witness :
  readCsv (csvOf (@reportRows rt specState)) =
  Some (@reportRows rt specState
        ++ [{| ReportRow.label := "Total";
               ReportRow.stats := totalOf (@reportRows rt specState) |}]).
Proof. apply readCsv_csvOf. by_compute. Defined.

(** The file of the example of the specification. *)
Example csvOf_specState :
  csvOf (@reportRows rt specState) =
  join nl ["Period,Orders,Items,Sales,Paid,Loan,Pending";
           "2024-01-06,1,1,10.00,0,1,0";
           "2024-01-05,1,2,10.00,1,0,0";
           "Total,2,3,20.00,1,1,0"].
Proof. by_compute. Qed.
