(* ===== verification/Staff.v ===== *)
(** * Staff: the users of the restaurant

    [addWaiter], [resetWaiterPin], [updateWaiterProfile] and [deleteWaiter],
    the handlers of the staff screen; the buttons that lead to them (the
    row menu, which is locked for another administrator, the three choices
    of the menu, the dialogs); and [renderLogMessage], the text of a log
    entry.

    The theorems: a handler writes to the key its user is stored under;
    and, with the screen as the transition system [staffStep] of clicks and
    completions of store calls, the dialogs only ever hold users of rows
    that are not locked ([dialogsOk]), so that what a click writes leaves
    the stored record of every administrator other than the signed-in user
    as it is.  This is stated of the store: for a browser whose list of
    users is the decoded collection ([usersOf]), for every key that holds
    another administrator, and for every write of [staffHandle].  It holds
    as long as the same user stays signed in: a sign-out is not a step of
    [staffStep]. *)

From stdpp Require Import relations.
From S2P Require Import Prelude Dates Runtime Model Store State I18n Effects.
From S2P Require Import Sample Orders.

(** [users.find((u) => u.id === id)] *)
Definition targetOf (s : AppState) (id : string) : option User :=
  findBy (fun u => bool_decide (User.id u = id)) (users s).

(** [target?.dbId ?? id]: the key the user is stored under, when the list
    has the user. *)
Definition userPathOf (s : AppState) (id : string) : string :=
  (targetOf s id ≫= User.dbId) ?? id.

(** [target?.role === 'admin' && currentUser?.id !== id] *)
Definition otherAdmin (s : AppState) (id : string) : bool :=
  bool_decide (targetOf s id ≫= User.role = Some Admin)
  && negb (bool_decide (currentUser s ?. User.id = Some id)).

(** [/^\d{4}$/.test(pin)] *)
Definition fourDigits (pin : string) : bool :=
  bool_decide (String.length pin = 4%nat) && allChars isDigit pin.

Definition addWaiter (e : Env) (s : AppState) : Outcome :=
  let s := s <| banner := None |> in
  if isEmpty (trim (newWaiterName s)) || isEmpty (trim (newWaiterPhone s)) then
    pure (s <| banner := error "Fill name and phone for the new staff member." |>)
  else
    let newUser :=
      {| DbUser.id := Some ("waiter-" +:+ showZ (now e));
         DbUser.name := trim (newWaiterName s);
         DbUser.phone := trim (newWaiterPhone s);
         DbUser.pin := "4321";
         DbUser.role := Some (newWaiterRole s) |} in
    started s
      [thenOrBanner (SetUser (pushKey e) newUser)
         (fun s' => s' <| newWaiterName := "" |>
                       <| newWaiterPhone := "" |>
                       <| newWaiterRole := Waiter |>
                       <| waiterModalOpen := false |>
                       <| banner := success (ROLE_LABEL (newWaiterRole s) +:+ " added.") |>)
         (logThen s "waiter_add" (DbUser.name newUser))].

Definition resetWaiterPin (id : string) (s : AppState) : Outcome :=
  started s
    [thenOrBanner (UpdateUserPin (userPathOf s id) "0000")
       (fun s => s <| banner := success "PIN reset to 0000." |>)
       (logThen s "waiter_reset_pin" id)].

(** [target?.role === 'admin' || currentUser?.id === id ? target?.role ??
    role : role] *)
Definition enforcedRole (s : AppState) (id : string) (role : Role) : Role :=
  if bool_decide (targetOf s id ≫= User.role = Some Admin)
     || bool_decide (currentUser s ?. User.id = Some id)
  then (targetOf s id ≫= User.role) ?? role
  else role.

Definition updateWaiterProfile (id name phone : string) (role : Role)
    (pin : option string) (s : AppState) : Outcome :=
  let nextName := trim name in
  let nextPhone := trim phone in
  if isEmpty nextName || isEmpty nextPhone then
    pure (s <| banner := error "Provide both name and phone." |>)
  else if otherAdmin s id then
    pure (s <| banner := error "Admins cannot modify another admin." |>)
  else if negb (isEmpty (pin ?? "")) && negb (fourDigits (trim (pin ?? ""))) then
    pure (s <| banner := error "PIN must be 4 digits." |>)
  else
    let newPin := if isEmpty (trim (pin ?? "")) then None else Some (trim (pin ?? "")) in
    started s
      [thenOrBanner
         (UpdateUser (userPathOf s id) nextName nextPhone
                     (Some (enforcedRole s id role)) newPin)
         (fun s => s <| banner := success "Staff updated." |>)
         (logThen s "waiter_update" nextName)].

Definition deleteWaiter (id : string) (s : AppState) : Outcome :=
  if otherAdmin s id then
    pure (s <| banner := error "Admins cannot remove another admin." |>)
  else if bool_decide (currentUser s ?. User.id = Some id) then
    pure (s <| banner := error "Cannot delete the signed-in user." |>)
  else
    started s
      [thenOrBanner (RemoveUser (userPathOf s id))
         (fun s => s <| banner := success "Staff removed." |>)
         (logThen s "waiter_delete" id)].

(** [renderLogMessage]: the line of the activity list for a log entry. *)
Definition renderLogMessage (s : AppState) (log : LogEntry) : string :=
  let actor := alookup (usersById s) (LogEntry.userId log) ?. User.name
               ?? LogEntry.userId log in
  let detail := LogEntry.detail log ?? "" in
  let type := LogEntry.type log in
  if bool_decide (type = "login") then actor +:+ " login"
  else if bool_decide (type = "waiter_add") then
    trim (actor +:+ " added staff " +:+ detail)
  else if bool_decide (type = "waiter_update") then
    trim (actor +:+ " updated staff " +:+ detail)
  else if bool_decide (type = "waiter_reset_pin") then
    trim (actor +:+ " reset staff PIN " +:+ detail)
  else if bool_decide (type = "waiter_delete") then
    trim (actor +:+ " deleted staff " +:+ detail)
  else if bool_decide (type = "item_add") then
    trim (actor +:+ " added item " +:+ detail)
  else if bool_decide (type = "item_update") then
    trim (actor +:+ " updated item " +:+ detail)
  else if bool_decide (type = "item_delete") then
    trim (actor +:+ " deleted item " +:+ detail)
  else actor +:+ " " +:+ type.

(** ** The buttons of the staff screen and of its dialogs

    A button that is not rendered cannot be clicked: its event leaves the
    state as it is. *)

(** [currentUser.role === 'admin'] *)
Definition isAdmin (s : AppState) : bool :=
  bool_decide (currentUser s ≫= User.role = Some Admin).

(** The staff screen is rendered:
    [tab === 'staff' && currentUser.role === 'admin']. *)
Definition staffScreen (s : AppState) : bool :=
  bool_decide (tab s = State.Staff) && isAdmin s.

(** [isTargetAdmin && !isSelf]: the row shows [Locked] in place of the menu
    button. *)
Definition rowLocked (s : AppState) (waiter : User) : bool :=
  bool_decide (User.role waiter = Some Admin)
  && negb (bool_decide (currentUser s ?. User.id = Some (User.id waiter))).

(** The truth value of an id used as a condition ([openAction && ...]). *)
Definition truthy (o : option string) : bool :=
  match o with
  | Some k => negb (isEmpty k)
  | None => false
  end.

(** The dialog state a choice of the row menu starts from:
    [openAction && actionWaiter]. *)
Definition menuOf (s : AppState) : option User :=
  if truthy (openAction s) then actionWaiter s else None.

(** The dialog of [actionType]: [actionWaiter && actionType === t]. *)
Definition dialogOf (s : AppState) (t : ActionType) : option User :=
  if bool_decide (actionType s = Some t) then actionWaiter s else None.

(** The [Add user] button of the screen. *)
Definition openAddUser (s : AppState) : AppState :=
  closeOverlays s <| waiterModalOpen := true |>.

(** The menu button of the row of [waiter]. *)
Definition openMenu (waiter : User) (s : AppState) : AppState :=
  s <| pendingDelete := None |>
    <| actionWaiter := Some waiter |>
    <| actionType := None |>
    <| actionRole ::= fun r => User.role waiter ?? r |>
    <| actionPin := "" |>
    <| openAction := Some (User.id waiter) |>.

(** The three buttons of the row menu, opened for [w]. *)
Definition chooseUpdate (w : User) (s : AppState) : AppState :=
  s <| actionWaiter := Some w |>
    <| actionType := Some Profile |>
    <| actionName := User.name w |>
    <| actionPhone := User.phone w |>
    <| actionRole ::= fun r => User.role w ?? r |>
    <| openAction := None |>.

Definition chooseReset (w : User) (s : AppState) : AppState :=
  s <| actionWaiter := Some w |>
    <| actionType := Some Reset |>
    <| openAction := None |>.

Definition chooseDelete (w : User) (s : AppState) : AppState :=
  s <| pendingDelete := Some w |> <| openAction := None |>.

(** [setActionWaiter(null); setActionType(null)], the close and cancel
    buttons of the two dialogs. *)
Definition closeDialog (s : AppState) : AppState :=
  s <| actionWaiter := None |> <| actionType := None |>.

(** The [Reset] button of the reset dialog, opened for [w]. *)
Definition confirmReset (w : User) (s : AppState) : Outcome :=
  andThen (resetWaiterPin (User.id w) s) closeDialog.

(** The [Save] button of the profile dialog, opened for [w]. *)
Definition saveProfile (w : User) (s : AppState) : Outcome :=
  andThen (updateWaiterProfile (User.id w) (actionName s) (actionPhone s)
             (actionRole s) (Some (actionPin s)) s)
          (fun s => closeDialog s <| actionPin := "" |>).

(** The [Delete] button of the confirmation, opened for [w]. *)
Definition confirmDelete (w : User) (s : AppState) : Outcome :=
  andThen (deleteWaiter (User.id w) s) (fun s => s <| pendingDelete := None |>).

(** [Edit profile] of the profile card of the signed-in user [u]. *)
Definition editOwnProfile (u : User) (s : AppState) : AppState :=
  closeOverlays s <| actionWaiter := Some u |>
                  <| actionType := Some Profile |>
                  <| actionName := User.name u |>
                  <| actionPhone := User.phone u |>
                  <| actionRole ::= fun r => User.role u ?? r |>
                  <| actionPin := "" |>
                  <| profileOpen := false |>.

(** The buttons, each under the condition it is rendered under. *)
Inductive StaffAction :=
  | OpenAddUser
  | SubmitAddUser
  | OpenMenu (waiter : User)
  | CloseMenu
  | ChooseUpdate
  | ChooseReset
  | ChooseDelete
  | CancelDialog
  | ConfirmReset
  | SaveProfile
  | CancelDelete
  | ConfirmDelete
  | EditOwnProfile.

Definition staffHandle (a : StaffAction) (e : Env) (s : AppState) : Outcome :=
  match a with
  | OpenAddUser => pure (if staffScreen s then openAddUser s else s)
  | SubmitAddUser => if waiterModalOpen s then addWaiter e s else pure s
  | OpenMenu waiter =>
      pure (if staffScreen s && bool_decide (waiter ∈ staffFiltered s)
               && negb (rowLocked s waiter)
            then openMenu waiter s else s)
  | CloseMenu => pure (from_option (fun _ => s <| openAction := None |>) s (menuOf s))
  | ChooseUpdate => pure (from_option (fun w => chooseUpdate w s) s (menuOf s))
  | ChooseReset => pure (from_option (fun w => chooseReset w s) s (menuOf s))
  | ChooseDelete => pure (from_option (fun w => chooseDelete w s) s (menuOf s))
  | CancelDialog =>
      pure (from_option (fun _ => closeDialog s) s (dialogOf s Reset ∪ dialogOf s Profile))
  | ConfirmReset => from_option (fun w => confirmReset w s) (pure s) (dialogOf s Reset)
  | SaveProfile => from_option (fun w => saveProfile w s) (pure s) (dialogOf s Profile)
  | CancelDelete => pure (s <| pendingDelete := None |>)
  | ConfirmDelete => from_option (fun w => confirmDelete w s) (pure s) (pendingDelete s)
  | EditOwnProfile =>
      pure (match currentUser s with
            | Some u => if profileOpen s then editOwnProfile u s else s
            | None => s
            end)
  end.

(** ** The invariant of the dialogs and the screen as a transition system *)

(** The row of [u] shows the menu button: [u] is not another
    administrator, and is a user of the list or the signed-in user, whose
    profile card opens the profile dialog. *)
Definition unlocked (s : AppState) (u : User) : Prop :=
  rowLocked s u = false /\ (u ∈ users s \/ currentUser s = Some u).

(** A dialog holds [u]: [actionWaiter] or [pendingDelete]. *)
Definition heldBy (s : AppState) (u : User) : Prop :=
  actionWaiter s = Some u \/ pendingDelete s = Some u.

(** The users the dialogs hold are users of rows that are not locked. *)
Definition dialogsOk (s : AppState) : Prop := forall u, heldBy s u -> unlocked s u.

(** What the setter calls of the four handlers and of their callbacks leave
    as it is: they set the banner and the fields of the form. *)
Definition bannerOnly (s s' : AppState) : Prop :=
  currentUser s' = currentUser s /\ users s' = users s /\
  actionWaiter s' = actionWaiter s /\ pendingDelete s' = pendingDelete s /\
  actionType s' = actionType s.

(** A callback of a store call of the screen keeps the dialogs. *)
Definition callOk (c : Call) : Prop := forall r s, bannerOnly s (complete c r s).

(** A click, or the completion of a store call that an earlier click
    started. *)
Inductive staffStep : AppState * list Call -> AppState * list Call -> Prop :=
  | StepClick a e s cs :
      staffStep (s, cs) (next (staffHandle a e s), cs ++ calls (staffHandle a e s))
  | StepDone c r s cs1 cs2 :
      staffStep (s, cs1 ++ c :: cs2) (complete c r s, cs1 ++ cs2).

Definition staffInv (st : AppState * list Call) : Prop :=
  dialogsOk st.1 /\ Forall callOk st.2.

(** The child of [users] a store call writes to. *)
Definition userKeyOf (w : Write) : option string :=
  match w with
  | SetUser key _ => Some key
  | UpdateUser pathId _ _ _ _ | UpdateUserPin pathId _ | RemoveUser pathId => Some pathId
  | _ => None
  end.

(** The browser has received the users of [db]: its list is the decoded
    collection, which has no two children of one key and no two users of
    one [id], and the signed-in user is one of them (the subscription signs
    out a user who is not). *)
Definition usersOf (db : Db) (s : AppState) : Prop :=
  users s = decodeUsers (dbUsers db) /\ NoDup (dbUsers db).*1 /\
  NoDup (User.id <$> users s) /\
  (forall cu, currentUser s = Some cu -> User.id cu ∈ User.id <$> users s).

(** An administrator and a store with two of them. *)
Definition admin2 : User :=
  {| User.id := "admin-2"; User.dbId := Some "-Ke"; User.name := "Edna";
     User.role := Some Admin; User.phone := "677777"; User.pin := "7777" |}.

Definition staffDb : Db := applyWrite (SetUser "-Ke" (dbUserOf admin2)) sampleDb.

(** ** A stored user is reached under its key *)

Lemma userPathOf_decoded s db key d :
  users s = decodeUsers (dbUsers db) ->
  NoDup (User.id <$> users s) ->
  alookup (dbUsers db) key = Some d ->
  userPathOf s (User.id (decodeUser (key, d))) = key.
Proof.
  intros Hu Hnd Hd. unfold userPathOf, targetOf.
  rewrite (findBy_key User.id); [done|done|].
  rewrite Hu. apply list_elem_of_fmap. eexists; split; [done|].
  by apply alookup_Some_elem.
Qed.

Lemma dbUsers_UpdateUserPin db id pin :
  dbUsers (applyWrite (UpdateUserPin id pin) db) =
  updateChild blankUser (fun u => u <| DbUser.pin := pin |>) (dbUsers db) id.
Proof. by destruct db. Qed.

(** C16. A stored user is managed under its key: when the list of users is
    the decoded collection and no two users share an [id],
    [resetWaiterPin] on the [id] of a user sets the PIN of the record the
    user is stored under, leaves every other record as it is, and adds
    none. *)
Theorem resetWaiterPin_reaches s db key d :
  users s = decodeUsers (dbUsers db) ->
  NoDup (User.id <$> users s) ->
  alookup (dbUsers db) key = Some d ->
  let u := decodeUser (key, d) in
  let db' := applyAll (writesOf (resetWaiterPin (User.id u) s)) db in
  alookup (dbUsers db') key = Some (d <| DbUser.pin := "0000" |>) /\
  (forall k, k <> key -> alookup (dbUsers db') k = alookup (dbUsers db) k) /\
  (dbUsers db').*1 = (dbUsers db).*1.
Proof.
  intros Hu Hnd Hd u db'. subst u db'. unfold resetWaiterPin.
  cbn [writesOf calls started omap list_omap thenOrBanner write applyAll fold_left].
  rewrite (userPathOf_decoded s db key d), dbUsers_UpdateUserPin by done.
  split_and!.
  - by rewrite alookup_updateChild, decide_True, Hd.
  - intros k Hk. by rewrite alookup_updateChild, decide_False.
  - apply updateChild_keys_in, list_elem_of_fmap.
    eexists (key, d). split; [done|]. by apply alookup_Some_elem.
Qed.

Lemma resetWaiterPin_reaches_witness :
  let s := viewOf sampleDb admin1 in
  let db' := applyAll (writesOf (resetWaiterPin "waiter-1" s)) sampleDb in
  alookup (dbUsers db') "-Kb" = Some ((dbUserOf waiter1) <| DbUser.pin := "0000" |>) /\
  (forall k, k <> "-Kb" -> alookup (dbUsers db') k = alookup (dbUsers sampleDb) k) /\
  (dbUsers db').*1 = (dbUsers sampleDb).*1.
Proof.
  apply (resetWaiterPin_reaches (viewOf sampleDb admin1) sampleDb "-Kb"
           (dbUserOf waiter1)); by_compute.
Defined.

(** ** The dialogs hold users of rows that are not locked *)

Lemma unlocked_ext s s' w :
  currentUser s' = currentUser s -> users s' = users s ->
  unlocked s' w <-> unlocked s w.
Proof. unfold unlocked, rowLocked. by intros -> ->. Qed.

Lemma dialogsOk_step s s' :
  currentUser s' = currentUser s -> users s' = users s ->
  (forall w, heldBy s' w -> heldBy s w \/ unlocked s w) ->
  dialogsOk s -> dialogsOk s'.
Proof.
  intros Hc Hu Hh I w Hw. apply (unlocked_ext s s'); [done..|].
  destruct (Hh w Hw); auto.
Qed.

Lemma addWaiter_banner e s : bannerOnly s (next (addWaiter e s)).
Proof. unfold addWaiter. cbv zeta. case_match; by destruct s. Qed.

Lemma updateWaiterProfile_banner id name phone role pin s :
  bannerOnly s (next (updateWaiterProfile id name phone role pin s)).
Proof. unfold updateWaiterProfile. cbv zeta. repeat case_match; by destruct s. Qed.

Lemma deleteWaiter_banner id s : bannerOnly s (next (deleteWaiter id s)).
Proof. unfold deleteWaiter. repeat case_match; by destruct s. Qed.

Lemma bannerOnly_ok s s' : bannerOnly s s' -> dialogsOk s -> dialogsOk s'.
Proof.
  intros (Hc & Hu & Ha & Hp & _). apply dialogsOk_step; [done..|].
  unfold heldBy. rewrite Ha, Hp. auto.
Qed.

Lemma rowLocked_self s u : currentUser s = Some u -> rowLocked s u = false.
Proof.
  unfold rowLocked. intros ->. simpl. rewrite (bool_decide_eq_true_2 (Some _ = Some (User.id u))) by done.
  apply andb_false_r.
Qed.

Lemma unlocked_self s u : currentUser s = Some u -> unlocked s u.
Proof. split; [by apply rowLocked_self|by right]. Qed.

Lemma staffFiltered_users s u : u ∈ staffFiltered s -> u ∈ users s.
Proof. intros [Hin _]%list_elem_of_In%filter_In. by apply list_elem_of_In. Qed.

Lemma menuOf_Some s w : menuOf s = Some w -> heldBy s w.
Proof. unfold menuOf. case_match; [by left|done]. Qed.

Lemma dialogOf_Some s t w : dialogOf s t = Some w -> heldBy s w.
Proof. unfold dialogOf. case_match; [by left|done]. Qed.

(** Each button keeps the dialogs on rows that are not locked. *)
Ltac dialogs_step s :=
  apply dialogsOk_step; unfold heldBy in *; state_simpl s; try done;
  intros ? [?|?]; simplify_eq; auto.

Lemma openAddUser_ok s : dialogsOk s -> dialogsOk (openAddUser s).
Proof. unfold openAddUser, closeOverlays. dialogs_step s. Qed.

Lemma openMenu_ok waiter s :
  unlocked s waiter -> dialogsOk s -> dialogsOk (openMenu waiter s).
Proof. intros Hl. unfold openMenu. dialogs_step s. Qed.

Lemma closeMenu_ok s : dialogsOk s -> dialogsOk (s <| openAction := None |>).
Proof. dialogs_step s. Qed.

Lemma chooseUpdate_ok w s : heldBy s w -> dialogsOk s -> dialogsOk (chooseUpdate w s).
Proof. intros Hw. unfold chooseUpdate. dialogs_step s. Qed.

Lemma chooseReset_ok w s : heldBy s w -> dialogsOk s -> dialogsOk (chooseReset w s).
Proof. intros Hw. unfold chooseReset. dialogs_step s. Qed.

Lemma chooseDelete_ok w s : heldBy s w -> dialogsOk s -> dialogsOk (chooseDelete w s).
Proof. intros Hw. unfold chooseDelete. dialogs_step s. Qed.

Lemma closeDialog_ok s : dialogsOk s -> dialogsOk (closeDialog s).
Proof. unfold closeDialog. dialogs_step s. Qed.

Lemma cancelDelete_ok s : dialogsOk s -> dialogsOk (s <| pendingDelete := None |>).
Proof. dialogs_step s. Qed.

Lemma actionPin_ok s pin : dialogsOk s -> dialogsOk (s <| actionPin := pin |>).
Proof. dialogs_step s. Qed.

Lemma editOwnProfile_ok u s :
  currentUser s = Some u -> dialogsOk s -> dialogsOk (editOwnProfile u s).
Proof.
  intros Hu%unlocked_self. unfold editOwnProfile, closeOverlays. dialogs_step s.
Qed.

Lemma next_andThen o f : next (andThen o f) = f (next o).
Proof. by destruct o. Qed.

Lemma writesOf_andThen o f : writesOf (andThen o f) = writesOf o.
Proof. by destruct o. Qed.

Lemma confirmReset_ok w s : dialogsOk s -> dialogsOk (next (confirmReset w s)).
Proof. unfold confirmReset. rewrite next_andThen. apply closeDialog_ok. Qed.

Lemma saveProfile_ok w s : dialogsOk s -> dialogsOk (next (saveProfile w s)).
Proof.
  unfold saveProfile. rewrite next_andThen.
  eauto using actionPin_ok, closeDialog_ok, bannerOnly_ok, updateWaiterProfile_banner.
Qed.

Lemma confirmDelete_ok w s : dialogsOk s -> dialogsOk (next (confirmDelete w s)).
Proof.
  unfold confirmDelete. rewrite next_andThen.
  eauto using cancelDelete_ok, bannerOnly_ok, deleteWaiter_banner.
Qed.

(** The menu button is rendered on the rows that are not locked. *)
Lemma menuButton_unlocked s waiter :
  staffScreen s && bool_decide (waiter ∈ staffFiltered s) && negb (rowLocked s waiter)
    = true ->
  unlocked s waiter.
Proof.
  intros [[_ Hin%bool_decide_eq_true]%andb_prop Hl%negb_true_iff]%andb_prop.
  split; [done|]. left. by apply staffFiltered_users.
Qed.

(** The case analysis of [staffHandle]: the conditions the buttons are
    rendered under. *)
Ltac staff_cases :=
  cbn [staffHandle next pure from_option];
  repeat (match goal with
          | |- context [if ?b then _ else _] => destruct b eqn:?
          | |- context [from_option _ _ ?o] => destruct o eqn:?
          | |- context [match ?o with Some _ => _ | None => _ end] => destruct o eqn:?
          end; cbn [next pure from_option]).

Lemma staffHandle_dialogsOk a e s :
  dialogsOk s -> dialogsOk (next (staffHandle a e s)).
Proof.
  intros Hs. destruct a; staff_cases;
    eauto using openAddUser_ok, openMenu_ok, menuButton_unlocked, closeMenu_ok,
      chooseUpdate_ok, chooseReset_ok, chooseDelete_ok, closeDialog_ok,
      cancelDelete_ok, editOwnProfile_ok, confirmReset_ok, saveProfile_ok,
      confirmDelete_ok, menuOf_Some, bannerOnly_ok, addWaiter_banner.
Qed.

(** ** The invariant along the steps of the screen *)

Lemma thenOrBanner_ok w f log :
  (forall s, bannerOnly s (f s)) -> callOk (thenOrBanner w f log).
Proof. intros Hf [|m] s; unfold complete; simpl; [apply Hf|by destruct s]. Qed.

Ltac calls_ok :=
  cbv zeta; repeat case_match; repeat constructor;
  apply thenOrBanner_ok; intros s'; by destruct s'.

Lemma addWaiter_calls e s : Forall callOk (calls (addWaiter e s)).
Proof. unfold addWaiter. calls_ok. Qed.

Lemma resetWaiterPin_calls id s : Forall callOk (calls (resetWaiterPin id s)).
Proof. unfold resetWaiterPin. calls_ok. Qed.

Lemma updateWaiterProfile_calls id name phone role pin s :
  Forall callOk (calls (updateWaiterProfile id name phone role pin s)).
Proof. unfold updateWaiterProfile. calls_ok. Qed.

Lemma deleteWaiter_calls id s : Forall callOk (calls (deleteWaiter id s)).
Proof. unfold deleteWaiter. calls_ok. Qed.

Lemma calls_andThen o f : calls (andThen o f) = calls o.
Proof. by destruct o. Qed.

Lemma staffHandle_calls a e s : Forall callOk (calls (staffHandle a e s)).
Proof.
  destruct a; cbn [staffHandle]; try by constructor.
  - case_match; [apply addWaiter_calls|constructor].
  - destruct (dialogOf s Reset); [|constructor]. simpl from_option.
    unfold confirmReset. rewrite calls_andThen. apply resetWaiterPin_calls.
  - destruct (dialogOf s Profile); [|constructor]. simpl from_option.
    unfold saveProfile. rewrite calls_andThen. apply updateWaiterProfile_calls.
  - destruct (pendingDelete s); [|constructor]. simpl from_option.
    unfold confirmDelete. rewrite calls_andThen. apply deleteWaiter_calls.
Qed.

Lemma staffStep_inv st st' : staffStep st st' -> staffInv st -> staffInv st'.
Proof.
  unfold staffInv. intros [a e s cs|c r s cs1 cs2]; simpl; intros [Hs Hcs].
  - split; [by apply staffHandle_dialogsOk|].
    apply Forall_app. split; [done|apply staffHandle_calls].
  - apply Forall_app in Hcs as [H1 [Hc H2]%Forall_cons]. split.
    + by apply (bannerOnly_ok s).
    + by apply Forall_app.
Qed.

Lemma staffReach_inv st st' : rtc staffStep st st' -> staffInv st -> staffInv st'.
Proof. induction 1; eauto using staffStep_inv. Qed.

(** ** What the screen writes *)

Ltac writes_simpl :=
  cbn [writesOf calls started pure omap list_omap thenOrBanner write].

(** A handler writes to one child of [users]. *)
Ltac one_target :=
  cbv zeta; repeat case_match; writes_simpl;
  first [by intros ?%elem_of_nil | by intros ->%list_elem_of_singleton].

Lemma addWaiter_target e s w :
  w ∈ writesOf (addWaiter e s) -> userKeyOf w = Some (pushKey e).
Proof. unfold addWaiter. one_target. Qed.

Lemma resetWaiterPin_target id s w :
  w ∈ writesOf (resetWaiterPin id s) -> userKeyOf w = Some (userPathOf s id).
Proof. unfold resetWaiterPin. one_target. Qed.

Lemma updateWaiterProfile_target id name phone role pin s w :
  w ∈ writesOf (updateWaiterProfile id name phone role pin s) ->
  userKeyOf w = Some (userPathOf s id).
Proof. unfold updateWaiterProfile. one_target. Qed.

Lemma deleteWaiter_target id s w :
  w ∈ writesOf (deleteWaiter id s) -> userKeyOf w = Some (userPathOf s id).
Proof. unfold deleteWaiter. one_target. Qed.

(** What a click writes goes to the key [push] generated, or to the child
    of a user a dialog holds. *)
Lemma staffHandle_targets a e s w :
  w ∈ writesOf (staffHandle a e s) ->
  userKeyOf w = Some (pushKey e) \/
  exists u, heldBy s u /\ userKeyOf w = Some (userPathOf s (User.id u)).
Proof.
  destruct a; cbn [staffHandle]; try by intros ?%elem_of_nil.
  - case_match; [left; by eapply addWaiter_target|by intros ?%elem_of_nil].
  - destruct (dialogOf s Reset) as [u|] eqn:E; [|by intros ?%elem_of_nil].
    simpl from_option. unfold confirmReset. rewrite writesOf_andThen.
    right. exists u. eauto using dialogOf_Some, resetWaiterPin_target.
  - destruct (dialogOf s Profile) as [u|] eqn:E; [|by intros ?%elem_of_nil].
    simpl from_option. unfold saveProfile. rewrite writesOf_andThen.
    right. exists u. eauto using dialogOf_Some, updateWaiterProfile_target.
  - destruct (pendingDelete s) as [u|] eqn:E; [|by intros ?%elem_of_nil].
    simpl from_option. unfold confirmDelete. rewrite writesOf_andThen.
    right. exists u. split; [by right|by eapply deleteWaiter_target].
Qed.

(** A write to another child of [users] leaves the child at [k] as it
    is. *)
Lemma applyWrite_user_frame w db k :
  userKeyOf w <> Some k -> alookup (dbUsers (applyWrite w db)) k = alookup (dbUsers db) k.
Proof.
  destruct w, db; simpl; try done; intros Hk;
    first [apply alookup_aset_ne | rewrite alookup_updateChild, decide_False
          | rewrite alookup_adelete, decide_False ]; congruence.
Qed.

Section Spared.
Context (db : Db) (s : AppState) (k : string) (d : DbUser).
Context (Hs : usersOf db s).
Context (Hk : alookup (dbUsers db) k = Some d).

(** The user of the list that is stored under [k] is the decoded child. *)
Lemma users_at_key t : t ∈ users s -> User.dbId t = Some k -> t = decodeUser (k, d).
Proof.
  destruct Hs as (Hu & Hnd & _). rewrite Hu.
  intros ([k' d'] & -> & Hin)%list_elem_of_fmap [= ->].
  apply (elem_alookup_NoDup _ _ _ Hnd) in Hin. congruence.
Qed.

(** The path of a user whose [id] the list has is the key of the user of
    that [id]. *)
Lemma userPathOf_listed u :
  User.id u ∈ User.id <$> users s ->
  exists t, t ∈ users s /\ User.id t = User.id u /\
            Some (userPathOf s (User.id u)) = User.dbId t.
Proof.
  destruct Hs as (Hu & _ & Hid & _).
  intros (t & Ht & Hin)%list_elem_of_fmap. exists t. split_and!; [done..|].
  unfold userPathOf, targetOf. rewrite Ht, (findBy_key User.id) by done.
  rewrite Hu in Hin. apply decodeUsers_dbId in Hin as (? & ? & _ & Hk' & _).
  simpl. by rewrite Hk'.
Qed.

(** The dialogs never hold the key of a locked row. *)
Lemma held_spared u :
  rowLocked s (decodeUser (k, d)) = true -> unlocked s u ->
  userPathOf s (User.id u) <> k.
Proof.
  intros Hl [Hu Hin] Hp. pose proof Hs as (_ & _ & Hid & Hcu).
  assert (User.id u ∈ User.id <$> users s) as Hi.
  { destruct Hin; [by apply list_elem_of_fmap_2|by apply Hcu]. }
  apply userPathOf_listed in Hi as (t & Ht & Hti & Hpt). rewrite Hp in Hpt.
  pose proof (users_at_key t Ht (eq_sym Hpt)) as ->. destruct Hin as [Hin|Hin].
  - assert (u = decodeUser (k, d)) as -> by (by apply (NoDup_fmap_eq User.id (users s))).
    congruence.
  - unfold rowLocked in Hl. rewrite Hin, Hti in Hl. simpl in Hl.
    rewrite (bool_decide_eq_true_2 (Some _ = Some (User.id u))) in Hl by done.
    by rewrite andb_false_r in Hl.
Qed.

End Spared.

(** C14. The staff screen never changes another administrator.  From a
    state whose dialogs are closed, after any sequence of clicks and
    completions of store calls, in a browser that has received the users of
    the store: what a click writes leaves the record of every administrator
    other than the signed-in user as it is (the key [push] generates being
    new). *)
Theorem staff_spares_admins st st' a e w db k d :
  staffInv st -> rtc staffStep st st' -> usersOf db st'.1 ->
  alookup (dbUsers db) k = Some d -> rowLocked st'.1 (decodeUser (k, d)) = true ->
  pushKey e <> k ->
  w ∈ writesOf (staffHandle a e st'.1) ->
  alookup (dbUsers (applyWrite w db)) k = Some d.
Proof.
  intros Hst Hr Hu Hk Hl He Hw. destruct (staffReach_inv st st' Hr Hst) as [Hd _].
  rewrite applyWrite_user_frame; [done|].
  destruct (staffHandle_targets a e _ w Hw) as [->|(u & Hh & ->)]; [congruence|].
  intros [= Hp]. by eapply held_spared, Hp; eauto.
Qed.

Lemma staff_spares_admins_witness :
  alookup (dbUsers (applyWrite (UpdateUserPin "-Kb" "0000") staffDb)) "-Ke" =
  Some (dbUserOf admin2).
Proof.
  pose (e := env 1000 "-k").
  pose (s0 := (viewOf staffDb admin1) <| tab := State.Staff |>).
  pose (s2 := next (staffHandle ChooseReset e (next (staffHandle (OpenMenu waiter1) e s0)))).
  apply (staff_spares_admins (s0, []) (s2, []) ConfirmReset e).
  - split; [intros u [?|?]; discriminate|constructor].
  - eapply rtc_l; [apply (StepClick (OpenMenu waiter1) e)|].
    eapply rtc_l; [apply (StepClick ChooseReset e)|]. apply rtc_refl.
  - split_and!; [by_compute..|]. intros cu [= <-]. by_compute.
  - reflexivity.
  - by_compute.
  - by_compute.
  - by_compute.
Defined.
