(* ===== verification/View.v ===== *)
(** * View: what [App()] renders for whom

    The root of the returned tree (the loader, the sign-in form, or the
    shell), the navigation of the shell (the sidebar of an administrator,
    the tab bar of everybody else) with the [onClick] of its buttons, and
    the conditions the staff and reports pages are rendered under.

    The theorem: a user who is not an administrator stays, from sign-in on
    and whatever is clicked in the navigation, on the four tabs of the tab
    bar, and is never shown the staff or the reports page. *)

From S2P Require Import Prelude Dates Runtime Model Store State I18n Effects.
From S2P Require Import Sample Auth Orders Staff.

(** [if (!currentUser) { if (isLoading) return <loader>; return <sign-in> }
    return <shell>] *)
Inductive Root := RootLoader | RootSignIn | RootShell.

Definition rootOf (s : AppState) : Root :=
  match currentUser s with
  | None => if isLoading s then RootLoader else RootSignIn
  | Some _ => RootShell
  end.

(** The buttons of the sidebar, rendered for an administrator. *)
Definition sidebarTabs : list Tab := [Dash; Orders; Loans; State.Staff; Items; Reports].

(** The buttons of the tab bar, rendered for everybody else; the last one
    under [currentUser.role === 'admin']. *)
Definition tabbarTabs (s : AppState) : list Tab :=
  [Dash; Orders; Items; Loans] ++ (if isAdmin s then [State.Staff] else []).

Definition navTabs (s : AppState) : list Tab :=
  if isAdmin s then sidebarTabs else tabbarTabs s.

(** The [onClick] of a navigation button, when [tabs] are the buttons
    rendered: [setTab(t)], and in the sidebar [setSidebarOpen(false)]. *)
Definition clickNav (tabs : list Tab) (t : Tab) (s : AppState) : AppState :=
  if bool_decide (t ∈ tabs) then
    if isAdmin s then s <| tab := t |> <| sidebarOpen := false |>
    else s <| tab := t |>
  else s.

Definition navigate (t : Tab) (s : AppState) : AppState := clickNav (navTabs s) t s.

(** The reports page is rendered:
    [tab === 'reports' && currentUser.role === 'admin']. *)
Definition reportsScreen (s : AppState) : bool :=
  bool_decide (tab s = Reports) && isAdmin s.

(** The buttons of the top bar. *)
Definition toggleSidebar (s : AppState) : AppState :=
  if isAdmin s then s <| sidebarOpen ::= negb |> else s.

Definition toggleLanguage (s : AppState) : AppState :=
  s <| language ::= fun prev => match prev with En => So | So => En end |>.

Definition toggleProfile (s : AppState) : AppState := s <| profileOpen ::= negb |>.

(** The round button that opens the order dialog, rendered for everybody
    but an administrator. *)
Definition fab (s : AppState) : AppState :=
  if isAdmin s then s else s <| showOrderModal := true |>.

(** The tabs of a user who is not an administrator. *)
Definition plainTabs : list Tab := [Dash; Orders; Items; Loans].

(** ** Navigation *)

Lemma tabbarTabs_plain s : isAdmin s = false -> tabbarTabs s = plainTabs.
Proof. unfold tabbarTabs. by intros ->. Qed.

(** A click on one of the buttons [tabs] leads to one of them, and changes
    nothing of the user. *)
Lemma clickNav_confined tabs t s :
  isAdmin s = false -> tab s ∈ tabs ->
  isAdmin (clickNav tabs t s) = false /\ tab (clickNav tabs t s) ∈ tabs.
Proof.
  intros Ha Ht. unfold clickNav. rewrite Ha.
  case_bool_decide; [|done]. unfold isAdmin in *. by state_simpl s.
Qed.

(** Navigation by the buttons [nav s], which are [tabs] for everybody but an
    administrator. *)
Lemma navigations_confined (nav : AppState -> list Tab) tabs ts s :
  (forall s, isAdmin s = false -> nav s = tabs) ->
  isAdmin s = false -> tab s ∈ tabs ->
  let s' := foldl (fun s t => clickNav (nav s) t s) s ts in
  isAdmin s' = false /\ tab s' ∈ tabs.
Proof.
  intros Hnav. revert s. induction ts as [|t ts IH]; intros s Ha Ht; [done|].
  simpl. apply IH; rewrite (Hnav s Ha); by apply clickNav_confined.
Qed.

Lemma navTabs_plain s : isAdmin s = false -> navTabs s = plainTabs.
Proof. unfold navTabs. intros Ha. rewrite Ha. by apply tabbarTabs_plain. Qed.

Lemma homeTab_plain role : homeTab role ∈ plainTabs.
Proof. unfold homeTab. case_match; by_compute. Qed.

(** A sign-in on the sign-in form opens the home tab of the user. *)
Lemma handleLogin_tab e s u :
  currentUser s = None -> currentUser (next (handleLogin e s)) = Some u ->
  tab (next (handleLogin e s)) = homeTab (User.role u).
Proof.
  unfold handleLogin. intros Hn. repeat case_match; state_simpl s; congruence.
Qed.

(** C21. A user who is not an administrator stays on the four tabs of the
    tab bar: from the sign-in on and whatever is clicked in the navigation,
    the tab is one of them, and neither the staff page nor the reports page
    is rendered.  (So the staff button of the tab bar is never rendered.) *)
Theorem nav_confined e s u ts :
  currentUser s = None -> currentUser (next (handleLogin e s)) = Some u ->
  User.role u <> Some Admin ->
  let s' := foldl (flip navigate) (next (handleLogin e s)) ts in
  tab s' ∈ plainTabs /\ staffScreen s' = false /\ reportsScreen s' = false /\
  tabbarTabs s' = plainTabs.
Proof.
  intros Hn Hu Hr s'.
  assert (isAdmin (next (handleLogin e s)) = false) as Ha.
  { unfold isAdmin. rewrite Hu. by apply bool_decide_eq_false. }
  destruct (navigations_confined navTabs plainTabs ts _ navTabs_plain Ha) as [Ha' Ht].
  { rewrite (handleLogin_tab e s u) by done. apply homeTab_plain. }
  change (isAdmin s' = false) in Ha'. change (tab s' ∈ plainTabs) in Ht.
  unfold staffScreen, reportsScreen.
  rewrite Ha', !andb_false_r. auto using tabbarTabs_plain.
Qed.

Lemma nav_confined_witness :
  let s := (viewOf sampleDb waiter1) <| currentUser := None |>
             <| authPhone := "644444" |> <| authPin := "4444" |> in
  let s' := foldl (flip navigate) (next (handleLogin (env 1 "-k") s))
                  [State.Staff; Reports; Items] in
  tab s' ∈ plainTabs /\ staffScreen s' = false /\ reportsScreen s' = false /\
  tabbarTabs s' = plainTabs.
Proof.
  intros s. apply (nav_confined (env 1 "-k") s collector1); by_compute.
Defined.
