(* ===== verification/System.v ===== *)
(** * System: browsers sharing one store

    A [Client] is one browser running [App()]: the state of the component,
    what the subscription effect captured when it last ran, and the store
    calls that have been started and not yet completed.  A [World] is the
    store and the clients.

    An [Action] is one input of the user: a key typed into a field of the
    sign-in form, or a click on a button, each with the setter or the
    handler the source binds to it, under the condition the element is
    rendered under.  An [Event] is an action on a client, the completion of
    the oldest pending store call of a client (the store applies the write,
    or refuses it, and the callbacks run), or the delivery of the current
    value of a collection to a client.  Events of different clients
    interleave freely; the store calls of one client complete in the order
    they were started.  [run] executes a list of events.

    The theorems are about [handle], every input in every state: a store
    call it starts keeps the entries of the ledger as they were recorded
    (I3); and the dialogs of the staff screen survive a sign-out and the
    next sign-in, whoever signs in.  The examples run the traces of the
    findings on [sampleDb]: the race of two collectors, two orders with one
    number, an order that cannot be settled, the dialog that is left
    open. *)

From S2P Require Import Prelude Dates Runtime Model Store State Sample Effects.
From S2P Require Import Auth Catalog Orders Staff Ledger Settlement View.

Inductive Collection := CUsers | CItems | COrders | CLog | CLoanCustomers.

Section Callbacks.
Context `{JsRuntime}.

(** The [onValue] callback of [users].  [draftWaiter] and [currentUser] are
    the values the effect captured: those of the render it last ran in. *)
Definition onUsers (draftWaiter0 : string) (currentUser0 : option User)
    (val : list (string * DbUser)) (s : AppState) : AppState :=
  let list := decodeUsers val in
  let s := s <| users := list |> in
  let s :=
    if isEmpty draftWaiter0 then
      match findBy (fun u => bool_decide (User.role u = Some Waiter)) list with
      | Some firstWaiter => s <| draftWaiter := User.id firstWaiter |>
      | None => s
      end
    else s in
  match currentUser0 with
  | Some cu =>
      match findBy (fun u => bool_decide (User.id u = User.id cu)) list with
      | None => s <| currentUser := None |>
      | Some _ => s
      end
  | None => s
  end.

Definition onItems (val : list (string * DbItem)) (s : AppState) : AppState :=
  s <| items := decodeItems val |>.

Definition onOrders (val : list (string * DbOrder)) (s : AppState) : AppState :=
  s <| orders := decodeOrders val |> <| isLoading := false |>.

Definition onLogs (val : list (string * DbLog)) (s : AppState) : AppState :=
  s <| logs := decodeLogs val |>.

Definition onLoanCustomers (val : list (string * DbLoanCustomer)) (s : AppState)
  : AppState :=
  s <| loanCustomers := decodeLoanCustomers val |>.

End Callbacks.

Record Client := {
  app : AppState;
  capturedDraftWaiter : string;
  capturedUser : option User;
  pending : list Call
}.

Record World := {
  db : Db;
  clients : list Client
}.

(** A browser that has just loaded the page. *)
Definition newClient : Client :=
  {| app := initialState; capturedDraftWaiter := ""; capturedUser := None;
     pending := [] |}.

(** The subscription effect has [currentUser] in its dependency list: when
    a step changed it, the effect runs again and captures the values of the
    new render. *)
Definition resubscribe (cl : Client) : Client :=
  if decide (currentUser (app cl) = capturedUser cl) then cl
  else cl <| capturedDraftWaiter := draftWaiter (app cl) |>
          <| capturedUser := currentUser (app cl) |>.

(** The radio button of a customer in the loan dialog:
    [onChange={() => setLoanStatusCustomerId(c.id)}], one button for each
    customer of [loanCustomersModalFiltered]. *)
Definition pickLoanCustomer (c : LoanCustomer) (s : AppState) : AppState :=
  if loanStatusModalOpen s && bool_decide (c ∈ loanCustomersModalFiltered s)
  then s <| loanStatusCustomerId := LoanCustomer.id c |>
  else s.

(** The inputs of the user that are modelled.  The first three are those of
    the sign-in form, the others those of the shell. *)
Inductive Action :=
  | TypePhone (value : string)
  | TypePin (value : string)
  | Login
  | Navigate (t : Tab)
  | ToggleProfile
  | Logout
  | UpdateDraftQty (itemId : string) (qty : Z)
  | CreateOrder
  | StatusChange (order : Order) (status : Status)
  | PickLoanCustomer (c : LoanCustomer)
  | ConfirmLoan
  | AddLoanCustomer
  | AddLoanEntry
  | OnCatalog (a : CatalogAction)
  | OnStaff (a : StaffAction).

(** What an input does, by the root of the tree that is rendered: nothing
    on the loader; on the sign-in form the two fields and the button; in
    the shell everything else.  The sign-out button is on the profile card,
    the confirm button of a loan in the loan dialog. *)
Definition handle `{JsRuntime} (a : Action) (e : Env) (s : AppState) : Outcome :=
  match rootOf s with
  | RootLoader => pure s
  | RootSignIn =>
      match a with
      | TypePhone value => pure (s <| authPhone := value |>)
      | TypePin value => pure (s <| authPin := value |>)
      | Login => handleLogin e s
      | _ => pure s
      end
  | RootShell =>
      match a with
      | TypePhone _ | TypePin _ | Login => pure s
      | Navigate t => pure (navigate t s)
      | ToggleProfile => pure (toggleProfile s)
      | Logout => if profileOpen s then handleLogout s else pure s
      | UpdateDraftQty itemId qty => pure (updateDraftQty itemId qty s)
      | CreateOrder => handleCreateOrder e s
      | StatusChange order status => handleStatusChange s order status
      | PickLoanCustomer c => pure (pickLoanCustomer c s)
      | ConfirmLoan => if loanStatusModalOpen s then confirmLoanStatus e s else pure s
      | AddLoanCustomer => addLoanCustomer e s
      | AddLoanEntry => addLoanEntry e s
      | OnCatalog a => catalogHandle a e s
      | OnStaff a => staffHandle a e s
      end
  end.

(** The state after a sequence of inputs, each at its moment. *)
Definition clicks `{JsRuntime} (l : list (Action * Env)) (s : AppState) : AppState :=
  fold_left (fun s ae => next (handle ae.1 ae.2 s)) l s.

Inductive Event :=
  | Act (c : nat) (a : Action) (e : Env)
  | Complete (c : nat) (r : WriteResult) (e : Env)
  | Snapshot (c : nat) (coll : Collection).

Section Steps.
Context `{JsRuntime}.

Definition act (a : Action) (e : Env) (cl : Client) : Client :=
  let o := handle a e (app cl) in
  resubscribe (cl <| app := next o |> <| pending ::= fun p => p ++ calls o |>).

(** The oldest pending call of a client completes.  A promise that is
    already resolved cannot fail. *)
Definition completeFirst (r : WriteResult) (e : Env) (d : Db) (cl : Client)
  : Db * Client :=
  match pending cl with
  | [] => (d, cl)
  | c :: rest =>
      let r := match write c with Some _ => r | None => WriteOk end in
      let d' :=
        match write c, r with
        | Some w, WriteOk => applyWrite w d
        | _, _ => d
        end in
      (d', resubscribe
             (cl <| app := complete c r (app cl) |>
                 <| pending := rest ++ map fireAndForget (completionWrites c r e) |>))
  end.

Definition deliver (coll : Collection) (d : Db) (cl : Client) : Client :=
  let f :=
    match coll with
    | CUsers => onUsers (capturedDraftWaiter cl) (capturedUser cl) (dbUsers d)
    | CItems => onItems (dbItems d)
    | COrders => onOrders (dbOrders d)
    | CLog => onLogs (dbLog d)
    | CLoanCustomers => onLoanCustomers (dbLoanCustomers d)
    end in
  resubscribe (cl <| app ::= f |>).

Definition step (w : World) (ev : Event) : World :=
  match ev with
  | Act c a e => w <| clients ::= alter (act a e) c |>
  | Complete c r e =>
      match clients w !! c with
      | Some cl =>
          let '(d', cl') := completeFirst r e (db w) cl in
          {| db := d'; clients := <[c := cl']> (clients w) |}
      | None => w
      end
  | Snapshot c coll => w <| clients ::= alter (deliver coll (db w)) c |>
  end.

Definition run (evs : list Event) (w : World) : World := fold_left step evs w.

End Steps.

(** The state of client [c]. *)
Definition clientState (w : World) (c : nat) : AppState :=
  app (default newClient (clients w !! c)).

(** All five subscriptions of client [c] deliver. *)
Definition syncAllEv (c : nat) : list Event :=
  map (Snapshot c) [CUsers; CItems; COrders; CLog; CLoanCustomers].

(** The entry under the key [k] of the customer stored at [p]. *)
Definition entryAt (db : Db) (p k : string) : option LoanEntry :=
  match alookup (dbLoanCustomers db) p with
  | Some c => alookup (DbLoanCustomer.loans c ?? []) k
  | None => None
  end.

(** The keys of the moment [e] are new to the ledger of [db]: the key
    [push] generates is neither a customer nor an entry, and no entry has
    the key [loan-<Date.now()>] of [addLoanEntry]. *)
Definition newKeys (e : Env) (db : Db) : Prop :=
  (pushKey e ∉ (dbLoanCustomers db).*1) /\
  Forall (fun kc => let keys := (DbLoanCustomer.loans kc.2 ?? []).*1 in
                    (pushKey e ∉ keys) /\ ("loan-" +:+ showZ (now e) ∉ keys))
         (dbLoanCustomers db).

#[export] Instance newKeys_dec e db : Decision (newKeys e db).
Proof. unfold newKeys. apply _. Defined.

(** What a handler at the moment [e] writes to the ledger: nothing, a
    customer under the generated key, or an entry under the generated key
    or under [loan-<Date.now()>]. *)
Inductive ledgerWrite (e : Env) : Write -> Prop :=
  | LedgerNone w : touchesLedger w = false -> ledgerWrite e w
  | LedgerCustomer c : ledgerWrite e (SetLoanCustomer (pushKey e) c)
  | LedgerEntry p x : ledgerWrite e (SetLoanEntry p (pushKey e) x)
  | LedgerManual p x : ledgerWrite e (SetLoanEntry p ("loan-" +:+ showZ (now e)) x).

(** The dialogs of the staff screen in [s'] are those of [s]. *)
Definition sameDialogs (s s' : AppState) : Prop :=
  actionWaiter s' = actionWaiter s /\ actionType s' = actionType s /\
  pendingDelete s' = pendingDelete s.

(** The sign-out and the inputs of the sign-in form. *)
Definition signing (a : Action) : bool :=
  match a with
  | Logout | TypePhone _ | TypePin _ | Login => true
  | _ => false
  end.

(** ** The entries of the ledger stay as recorded (I3) *)

Lemma alookup_SetLoanEntry db q j y p :
  alookup (dbLoanCustomers (applyWrite (SetLoanEntry q j y) db)) p =
  if decide (q = p)
  then Some ((alookup (dbLoanCustomers db) q ?? blankLoanCustomer)
               <| DbLoanCustomer.loans ::= fun l => Some (aset (l ?? []) j y) |>)
  else alookup (dbLoanCustomers db) p.
Proof. destruct db. apply alookup_updateChild. Qed.

(** New keys are new under every customer. *)
Lemma newKeys_fresh e db p :
  newKeys e db ->
  freshEntryKey db p (pushKey e) /\ freshEntryKey db p ("loan-" +:+ showZ (now e)).
Proof.
  intros [_ Hf]. unfold freshEntryKey.
  destruct (alookup (dbLoanCustomers db) p) as [c|] eqn:E.
  - apply alookup_Some_elem in E. by apply (proj1 (Forall_forall _ _) Hf (p, c)).
  - split; apply not_elem_of_nil.
Qed.

(** A new entry leaves the others as they are. *)
Lemma entryAt_SetLoanEntry db q j y p k x :
  freshEntryKey db q j ->
  entryAt db p k = Some x -> entryAt (applyWrite (SetLoanEntry q j y) db) p k = Some x.
Proof.
  unfold entryAt, freshEntryKey. intros Hj Hx. rewrite alookup_SetLoanEntry.
  case_decide as Hq; [subst q|done].
  destruct (alookup (dbLoanCustomers db) p) as [c|]; [|done]. simpl in *.
  rewrite alookup_aset_ne; [done|]. intros <-.
  apply alookup_None in Hj. by rewrite Hj in Hx.
Qed.

Section Frozen.
Context `{JsRuntime}.

(** The case analysis of a handler down to the list of its writes. *)
Ltac handler_writes :=
  cbv zeta; repeat case_match;
  cbn [writesOf calls started raised pure omap list_omap write statusCall
       thenOrBanner fireAndForget];
  rewrite ?elem_of_cons, ?elem_of_nil; intros Hin; destruct_or?; simplify_eq;
  try done; try (by constructor).

Lemma handleLogin_ledger e s w : w ∈ writesOf (handleLogin e s) -> ledgerWrite e w.
Proof. unfold handleLogin. handler_writes. Qed.

Lemma handleCreateOrder_ledger e s w :
  w ∈ writesOf (handleCreateOrder e s) -> ledgerWrite e w.
Proof. unfold handleCreateOrder. handler_writes. Qed.

Lemma handleStatusChange_ledger e s order status w :
  w ∈ writesOf (handleStatusChange s order status) -> ledgerWrite e w.
Proof. unfold handleStatusChange, updateOrderStatus. handler_writes. Qed.

Lemma addLoanCustomer_ledger e s w : w ∈ writesOf (addLoanCustomer e s) -> ledgerWrite e w.
Proof. unfold addLoanCustomer. handler_writes. Qed.

Lemma addLoanEntry_ledger e s w : w ∈ writesOf (addLoanEntry e s) -> ledgerWrite e w.
Proof. unfold addLoanEntry. handler_writes. Qed.

Lemma confirmLoanStatus_ledger e s w :
  w ∈ writesOf (confirmLoanStatus e s) -> ledgerWrite e w.
Proof.
  unfold confirmLoanStatus. handler_writes.
  all: match goal with E : addLoanEntryForOrder _ _ _ _ = Writes _ |- _ =>
         apply addLoanEntryForOrder_entry in E as (? & -> & _) end; apply LedgerEntry.
Qed.

Lemma catalogHandle_ledger a e s w :
  w ∈ writesOf (catalogHandle a e s) -> ledgerWrite e w.
Proof. intros []%catalogHandle_writes; by constructor. Qed.

Lemma staffHandle_ledger a e s w : w ∈ writesOf (staffHandle a e s) -> ledgerWrite e w.
Proof.
  intros Hk%staffHandle_targets. constructor.
  destruct w; try done; by destruct Hk as [?|(? & _ & ?)].
Qed.

Lemma handle_ledger a e s w : w ∈ writesOf (handle a e s) -> ledgerWrite e w.
Proof.
  unfold handle.
  destruct (rootOf s), a; try (by intros ?%elem_of_nil); try case_match;
    try (by intros ?%elem_of_nil);
    eauto using handleLogin_ledger, handleCreateOrder_ledger, handleStatusChange_ledger,
      addLoanCustomer_ledger, addLoanEntry_ledger, confirmLoanStatus_ledger,
      catalogHandle_ledger, staffHandle_ledger.
Qed.

(** A write under new keys keeps every entry. *)
Lemma ledgerWrite_keeps e w db p k x :
  ledgerWrite e w -> newKeys e db ->
  entryAt db p k = Some x -> entryAt (applyWrite w db) p k = Some x.
Proof.
  intros [w' Hw|c|q y|q y] Hn Hx;
    [| |apply entryAt_SetLoanEntry; [by apply (newKeys_fresh e)|done]..];
    unfold entryAt in *.
  - by rewrite dbLoanCustomers_frame.
  - destruct Hn as [Hc _], db. simpl in *. unfold setChild.
    rewrite alookup_aset_ne; [done|]. intros <-.
    apply alookup_None in Hc. by rewrite Hc in Hx.
Qed.

End Frozen.

(** C36. The entries of the ledger stay as recorded (I3).  Whatever the
    user does, in whatever state: a store call the handler starts leaves
    every entry of the ledger under its customer and key, with its amount,
    provided the keys of that moment (the generated key, and the key
    [loan-<Date.now()>] of a manual entry) are new to the ledger. *)
Theorem entries_frozen `{JsRuntime} a e s db w p k x :
  w ∈ writesOf (handle a e s) -> newKeys e db ->
  entryAt db p k = Some x -> entryAt (applyWrite w db) p k = Some x.
Proof. eauto using ledgerWrite_keeps, handle_ledger. Qed.

(** ** A dialog that is left open *)

Section StaleDialog.
Context `{JsRuntime}.

Lemma handleLogin_dialogs e s : sameDialogs s (next (handleLogin e s)).
Proof. unfold handleLogin. cbv zeta. repeat case_match; by destruct s. Qed.

(** Neither the sign-out nor anything on the sign-in form closes a
    dialog: [handleLogout] and [handleLogin] do not call [closeOverlays]. *)
Lemma signing_dialogs a e s : signing a = true -> sameDialogs s (next (handle a e s)).
Proof.
  destruct a; try done; intros _; unfold handle; repeat case_match;
    first [apply handleLogin_dialogs | by destruct s].
Qed.

Lemma sameDialogs_trans s1 s2 s3 :
  sameDialogs s1 s2 -> sameDialogs s2 s3 -> sameDialogs s1 s3.
Proof. unfold sameDialogs. intros (-> & -> & ->) (-> & -> & ->). done. Qed.

Lemma clicks_dialogs l s :
  Forall (fun ae => signing ae.1 = true) l -> sameDialogs s (clicks l s).
Proof.
  revert s. induction l as [|[a e] l IH]; intros s Hl; [done|].
  apply Forall_cons in Hl as [Ha Hl].
  eapply sameDialogs_trans; [by apply (signing_dialogs a e)|by apply IH].
Qed.

Lemma dialogOf_same s s' t : sameDialogs s s' -> dialogOf s' t = dialogOf s t.
Proof. unfold dialogOf. by intros (-> & -> & _). Qed.

(** The [Reset] button of an open reset dialog, in the shell. *)
Lemma confirmReset_writes e s u v :
  currentUser s = Some v -> dialogOf s Reset = Some u ->
  writesOf (handle (OnStaff ConfirmReset) e s) =
  [UpdateUserPin (userPathOf s (User.id u)) "0000"].
Proof. unfold handle, rootOf. intros -> Hd. cbn [staffHandle]. by rewrite Hd. Qed.

End StaleDialog.

(** C15. The dialogs of the staff screen survive a sign-out.  Whatever the
    state [s] in which the reset dialog is open for [u]: after the sign-out
    and the sign-in of any user [v], with any phone number and PIN typed,
    the dialog is still open for [u], and its [Reset] button resets the PIN
    of [u], whatever the role of [v] and whoever [u] is. *)
Theorem dialog_survives_logout `{JsRuntime} s u v phone pin e1 e2 e3 :
  dialogOf s Reset = Some u ->
  let s' := clicks [(Logout, e1); (TypePhone phone, e1); (TypePin pin, e1); (Login, e2)] s in
  currentUser s' = Some v ->
  dialogOf s' Reset = Some u /\
  writesOf (handle (OnStaff ConfirmReset) e3 s') =
    [UpdateUserPin (userPathOf s' (User.id u)) "0000"].
Proof.
  intros Hd s' Hv.
  assert (dialogOf s' Reset = Some u) as Hd'.
  { rewrite <- Hd. apply dialogOf_same, clicks_dialogs. by repeat constructor. }
  split; [done|]. by apply (confirmReset_writes e3 s' u v).
Qed.

(** ** Traces *)

(** A browser in which [u] is signed in, up to date with [sampleDb]. *)
Definition signedIn (u : User) : Client :=
  resubscribe (newClient <| app := viewOf sampleDb u |>).

(** Two collectors and a waiter. *)
Definition world0 : World :=
  {| db := sampleDb;
     clients := [signedIn collector1; signedIn collector1; signedIn waiter1] |}.

(** Both collectors defer the same pending order to a loan, each to another
    customer, before either sees the other's writes. *)
Definition race : list Event :=
  [ Act 0 (StatusChange theOrder Loan) (env 1 "");
    Act 1 (StatusChange theOrder Loan) (env 1 "");
    Act 0 (PickLoanCustomer (customerOf sampleDb "-Lx")) (env 2 "");
    Act 1 (PickLoanCustomer (customerOf sampleDb "-Ly")) (env 2 "");
    Act 0 ConfirmLoan (env 3 "-N1");
    Act 1 ConfirmLoan (env 3 "-N2");
    Complete 0 WriteOk (env 4 ""); Complete 0 WriteOk (env 4 "");
    Complete 1 WriteOk (env 5 ""); Complete 1 WriteOk (env 5 "") ].

(** The race of the specification (section 5) on [sampleDb]: both
    collectors succeed and the ledger holds two entries for the order. *)
Example race_on_sample :
  ledgerUnique (db world0) /\
  loanedOrders (db (@run rt race world0)) = ["-Mo1"; "-Mo1"] /\
  ~ ledgerUnique (db (@run rt race world0)).
Proof. split_and!; [by_compute|by vm_compute|by_compute]. Qed.

(** The same without a race: the first collector loans the order; the
    second, with all snapshots received, returns it to pending and loans it
    to another customer. *)
Definition sequential : list Event :=
  [ Act 0 (StatusChange theOrder Loan) (env 1 "");
    Act 0 (PickLoanCustomer (customerOf sampleDb "-Lx")) (env 2 "");
    Act 0 ConfirmLoan (env 3 "-N1");
    Complete 0 WriteOk (env 4 ""); Complete 0 WriteOk (env 4 "") ] ++
  syncAllEv 1 ++
  [ Act 1 (StatusChange (theOrder <| Order.status := Some Loan |>) Pending) (env 5 "");
    Complete 1 WriteOk (env 6 "") ] ++
  syncAllEv 1 ++
  [ Act 1 (StatusChange theOrder Loan) (env 7 "");
    Act 1 (PickLoanCustomer (customerOf sampleDb "-Ly")) (env 8 "");
    Act 1 ConfirmLoan (env 9 "-N2");
    Complete 1 WriteOk (env 10 ""); Complete 1 WriteOk (env 10 "") ].

(** An order loaned to one customer can be loaned again to another
    without any race: the second entry is written and I1 is lost. *)
Example sequential_breaks_ledger :
  loanedOrders (db (@run rt sequential world0)) = ["-Mo1"; "-Mo1"] /\
  ~ ledgerUnique (db (@run rt sequential world0)).
Proof. split; [by vm_compute|by_compute]. Qed.

(** A waiter and a collector create an order each before either sees the
    other's.  The first snapshot of the users chooses the waiter of the
    draft. *)
Definition twoCreate : list Event :=
  [ Snapshot 2 CUsers; Act 2 (UpdateDraftQty "A" 3) (env 1 "");
    Snapshot 0 CUsers; Act 0 (UpdateDraftQty "A" 1) (env 1 "");
    Act 2 CreateOrder (env 1704650400000 "-Mo2");
    Act 0 CreateOrder (env 1704650400001 "-Mo3");
    Complete 2 WriteOk (env 4 ""); Complete 0 WriteOk (env 4 "") ] ++
  syncAllEv 1.

(** The two orders have the same order number. *)
Example two_orders_on_sample :
  map Order.id (orders (clientState (@run rt twoCreate world0) 1)) =
  ["order001"; "order001"; "-Mo1"].
Proof. by vm_compute. Qed.

(** A waiter creates an order; the collector receives it and marks it
    paid. *)
Definition createOne : list Event :=
  [ Snapshot 2 CUsers; Act 2 (UpdateDraftQty "A" 3) (env 1 "");
    Act 2 CreateOrder (env 1704650400000 "-Mo2");
    Complete 2 WriteOk (env 4 "") ] ++
  syncAllEv 0.

Definition createdOrder : Order :=
  default theOrder (head (orders (clientState (@run rt createOne world0) 0))).

Definition settleCreated : list Event :=
  createOne ++
  [ Act 0 (StatusChange createdOrder Paid) (env 5 "");
    Complete 0 WriteOk (env 6 "") ] ++
  syncAllEv 0.

(** After a collector has marked a newly created order paid, and the
    store has confirmed, the order is still pending in the order list, and
    the list shows a second order of the same number, paid, without time
    and without items. *)
Example settled_order_still_pending :
  let s := clientState (@run rt settleCreated world0) 0 in
  map (fun o => (Order.id o, Order.status o, Order.time o, length (Order.items o)))
      (orders s) =
  [ ("order001", Some Pending, Some "2024-01-07T18:00:00.000Z", 1%nat);
    ("-Mo1", Some Pending, Some "2024-01-06T18:00:00.000Z", 1%nat);
    ("order001", Some Paid, None, 0%nat) ] /\
  banner s = success "Order status updated.".
Proof. by vm_compute. Qed.

(** An administrator opens the reset dialog on the own row, opens the
    profile card and signs out; a collector signs in on the same browser and
    clicks [Reset]. *)
Definition adminWorld : World :=
  {| db := sampleDb; clients := [signedIn admin1] |}.

Definition leaveDialog : list (Action * Env) :=
  [ (Navigate State.Staff, env 1 ""); (OnStaff (OpenMenu admin1), env 2 "");
    (OnStaff ChooseReset, env 3 ""); (ToggleProfile, env 4 "") ].

Definition signInAs (u : User) (n : Z) : list (Action * Env) :=
  [ (Logout, env n ""); (TypePhone (User.phone u), env n "");
    (TypePin (User.pin u), env n ""); (Login, env (n + 1) "-L1") ].

Definition staleDialog : list Event :=
  map (fun ae => Act 0 ae.1 ae.2) (leaveDialog ++ signInAs collector1 5) ++
  [ Act 0 (OnStaff ConfirmReset) (env 7 "");
    Complete 0 WriteOk (env 8 ""); Complete 0 WriteOk (env 9 "-L2");
    Complete 0 WriteOk (env 10 ""); Snapshot 0 CUsers ].

(** The collector then signs in with the administrator's phone number and
    the PIN 0000. *)
Definition takeOver : list Event :=
  [ Act 0 ToggleProfile (env 11 ""); Act 0 Logout (env 11 "");
    Act 0 (TypePhone "611111") (env 12 ""); Act 0 (TypePin "0000") (env 12 "");
    Act 0 Login (env 13 "-L3") ].

(** The collector has reset the administrator's PIN, and signs in as the
    administrator. *)
Example stale_dialog_takeover :
  let w := @run rt staleDialog adminWorld in
  User.role <$> currentUser (clientState w 0) = Some (Some Collector) /\
  DbUser.pin <$> alookup (dbUsers (db w)) "-Ka" = Some "0000" /\
  User.role <$> currentUser (clientState (@run rt takeOver w) 0) = Some (Some Admin).
Proof. by vm_compute. Qed.

Lemma dialog_survives_logout_witness :
  let s := @clicks rt leaveDialog (viewOf sampleDb admin1) in
  let s' := @clicks rt (signInAs collector1 5) s in
  rowLocked s' admin1 = true /\
  dialogOf s' Reset = Some admin1 /\
  writesOf (@handle rt (OnStaff ConfirmReset) (env 7 "") s') =
    [UpdateUserPin "-Ka" "0000"].
Proof.
  intros s s'. split; [by vm_compute|].
  apply (@dialog_survives_logout rt s admin1 collector1); by vm_compute.
Defined.

Lemma entries_frozen_witness :
  let s := (viewOf loanedDb collector1) <| loanStatusOrderId := "-Mo1" |>
             <| loanStatusCustomerId := "-Ly" |> <| loanStatusModalOpen := true |> in
  entryAt (applyWrite (SetLoanEntry "-Ly" "-N2" (entry1 <| LoanEntry.id := "-N2" |>))
             loanedDb) "-Lx" "-N1" = Some entry1.
Proof.
  intros s. apply (@entries_frozen rt ConfirmLoan (env 9 "-N2") s);
    first [by_compute | by vm_compute].
Defined.
