(* ===== verification/RevB.v ===== *)
(** * RevB: revision B of [App] ([src/src/App.tsx], lines 1-1755)

    The revision before roles, stock, the loan ledger and the order
    numbers.  Its objects are those of revision C without the members C
    added ([dbId], [stock]), its state the cells of C's state it already
    has, its store the collections [users], [items], [orders] and [log]; so
    the model shares the records of [Model], [Store] and [State], the
    well-formedness predicates below say what a value of this revision is,
    and each function of the revision is a definition of the module [RevB],
    written out where its code differs from C's.

    Two things the revisions do differently decide what works: B stores an
    order under its generated key and uses that key as its [id], so
    [updateOrderStatus] reaches it (in C it does not, see [Settlement]); and
    B addresses a user by its [id], which for a user created by [addWaiter]
    is not the key it is stored under, so resetting a PIN, editing and
    deleting miss the user (C addresses the user by [dbId]). *)

From S2P Require Import Prelude Dates Runtime Model Store State I18n Effects.
From S2P Require Import Sample Auth Catalog Orders Staff Reports Settlement Export View.

Module RevB.

(** ** The types, as predicates on the shared records *)

(** [type Role = 'admin' | 'waiter'] *)
Definition wfRole (r : Role) : Prop := r = Admin \/ r = Waiter.

(** [type User]: no [dbId]. *)
Definition wfUser (u : User) : Prop := User.dbId u = None.

(** [type Item]: no [stock]. *)
Definition wfItem (i : Item) : Prop := Item.stock i = None.

(** [type Order]: [waiterId] and [time] are strings; [status] and
    [collector] are optional. *)
Definition wfOrder (o : Order) : Prop :=
  is_Some (Order.waiterId o) /\ is_Some (Order.time o).

#[export] Instance wfRole_dec r : Decision (wfRole r).
Proof. unfold wfRole. apply _. Defined.
#[export] Instance wfUser_dec u : Decision (wfUser u).
Proof. unfold wfUser. apply _. Defined.
#[export] Instance wfItem_dec i : Decision (wfItem i).
Proof. unfold wfItem. apply _. Defined.
#[export] Instance wfOrder_dec o : Decision (wfOrder o).
Proof. unfold wfOrder. apply _. Defined.

(** The cells of [useState] with their initial values: those of revision C
    that this revision has, with the same initial values but the phone of
    the staff form. *)
Definition initialState : AppState :=
  State.initialState <| newWaiterPhone := "" |>.

(** ** The subscriptions *)

Section Decoders.
Context `{JsRuntime}.

(** [({ id, ...user })]: the [id] the record holds wins over the key. *)
Definition decodeUser (e : string * DbUser) : User :=
  let '(id, user) := e in
  {| User.id := DbUser.id user ?? id;
     User.dbId := None;
     User.name := DbUser.name user;
     User.role := DbUser.role user;
     User.phone := DbUser.phone user;
     User.pin := DbUser.pin user |}.

Definition decodeItem (e : string * DbItem) : Item :=
  let '(id, item) := e in
  {| Item.id := id;
     Item.name := DbItem.name item;
     Item.price := DbItem.price item ?? 0;
     Item.stock := None |}.

(** The callback of [users]; [draftWaiter0] and [currentUser0] are the
    values the effect captured. *)
Definition onUsers (draftWaiter0 : string) (currentUser0 : option User)
    (val : list (string * DbUser)) (s : AppState) : AppState :=
  let list := map decodeUser val in
  let s := s <| users := list |> in
  let s :=
    if isEmpty draftWaiter0 then
      match findBy (fun u => bool_decide (User.role u = Some Waiter)) list with
      | Some firstWaiter => s <| draftWaiter := User.id firstWaiter |>
      | None => s
      end
    else s in
  match currentUser0 with
  | Some cu =>
      match findBy (fun u => bool_decide (User.id u = User.id cu)) list with
      | None => s <| currentUser := None |>
      | Some _ => s
      end
  | None => s
  end.

Definition onItems (val : list (string * DbItem)) (s : AppState) : AppState :=
  s <| items := map decodeItem val |>.

(** The callback of [orders] decodes as revision C does. *)
Definition onOrders (val : list (string * DbOrder)) (s : AppState) : AppState :=
  s <| orders := decodeOrders val |> <| isLoading := false |>.

(** The callback of [log] keeps the ten latest entries. *)
Definition onLogs (val : list (string * DbLog)) (s : AppState) : AppState :=
  s <| logs := take 10 (decodeLogs val) |>.

End Decoders.

(** ** Derived values *)

Section Derived.
Context `{JsRuntime}.
Context (s : AppState).

Definition itemsById : list (string * Item) := State.itemsById s.
Definition usersById : list (string * User) := State.usersById s.
Definition formatPrice (value : Z) : string := State.formatPrice value.

Record Metrics := {
  totalOrders : Z;
  totalItems : Z;
  lowStock : list Item;
  topWaiterId : string;
  totalSales : Z;
  waiterCount : Z
}.

(** The dash of [topWaiterId], U+2014 in UTF-8. *)
Definition emDash : string :=
  String (Ascii.ascii_of_nat 226) (String (Ascii.ascii_of_nat 128)
    (String (Ascii.ascii_of_nat 148) "")).

Definition metrics : Metrics :=
  let scopedOrders := scopeToWaiter (currentUser s) (orders s) in
  {| totalOrders := Z.of_nat (length scopedOrders);
     totalItems := sumOf orderQty scopedOrders;
     totalSales := sumOf (Orders.orderTotal s) scopedOrders;
     lowStock := [];
     topWaiterId := topWaiter scopedOrders emDash;
     waiterCount :=
       Z.of_nat (length (List.filter
         (fun u => bool_decide (User.role u = Some Waiter)) (users s))) |}.

Definition orderTotal (order : Order) : Z := Orders.orderTotal s order.
Definition orderTitle (order : Order) : string := Orders.orderTitle s order.
Definition draftTotal : Z := Orders.draftTotal s.

(** A waiter sees the orders the waiter took. *)
Definition scopedOrders : list Order := scopeToWaiter (currentUser s) (orders s).

Definition ordersFiltered : list Order :=
  List.filter (fun order =>
    includes (orderText s order) (toLowerCase (trim (search s))))
    scopedOrders.

Definition activeOrders : list Order :=
  List.filter (fun o => isPending (Order.status o)) ordersFiltered.

Definition doneOrders : list Order :=
  List.filter (fun o => isPaid (Order.status o) || isLoan (Order.status o))
              ordersFiltered.

(** [orderFilter] is ['all' | 'active' | 'done']; any other value reads as
    ['done']. *)
Definition orderList : list Order :=
  match orderFilter s with
  | FilterAll => ordersFiltered
  | FilterActive => activeOrders
  | _ => doneOrders
  end.

Definition getWeekId (d : Z) : string := Reports.getWeekId d.

Definition waitersFiltered : list User :=
  List.filter (fun u =>
    includes (toLowerCase (User.name u +:+ " " +:+ User.phone u))
             (toLowerCase (trim (waiterSearch s))))
    (List.filter (fun u => bool_decide (User.role u = Some Waiter)) (users s)).

Definition itemsFiltered : list Item := Orders.itemsFiltered s.
Definition waiterCharts : list WaiterChart := Orders.waiterCharts s.

Definition waiterStatusStats : StatusStats :=
  statusStatsOf (scopeToWaiter (currentUser s) (orders s)).

End Derived.

(** The sample state without the order whose time does not parse. *)
Definition sampleStateB : AppState :=
  sampleState <| orders := [order3; order2; order1] |>.

(** ** Reports

    [reportRows] of this revision has no status filter and does not test
    the time of an order: an order whose time does not parse passes the
    date range (a comparison with [NaN] is false), [toISOString] throws on
    it, and the other granularities print [NaN] in its label. *)

Section Reports.
Context `{JsRuntime}.
Context (s : AppState).

(** The predicate of [filteredOrders]. *)
Definition inRange (o : Order) : bool :=
  match timeOf (Order.time o) with
  | None => true
  | Some t =>
      if match rangeStart s with Some st => t <? st | None => false end then false
      else if match rangeEnd s with Some e => e <? t | None => false end then false
      else true
  end.

Definition filteredOrders : list Order := List.filter inRange (orders s).

(** [key]: [None] when [date.toISOString()] throws a [RangeError]. *)
Definition bucketKey (date : option Z) : option string :=
  match date with
  | Some d => Some (Reports.bucketKey s d)
  | None =>
      match reportTab s with
      | Daily => None
      | Weekly => Some "NaN-WNaN"
      | Monthly => Some "NaN-NaN"
      | Yearly => Some "NaN"
      end
  end.

(** The body of [filteredOrders.forEach]. *)
Definition addBucket (buckets : option (list (string * ReportStats)))
    (order : Order) : option (list (string * ReportStats)) :=
  b ← buckets;
  key ← bucketKey (timeOf (Order.time order));
  let current := alookup b key ?? zeroStats in
  Some (aset b key (addOrder s current order)).

(** [reportRows]: [None] when the computation throws. *)
Definition reportRows : option (list ReportRow) :=
  b ← fold_left addBucket filteredOrders (Some []);
  Some (map (fun '(label, stats) =>
               {| ReportRow.label := label; ReportRow.stats := stats |})
            (sortBy cmpLabel b)).

End Reports.

(** ** The activity log *)

Definition addLog (e : Env) (entry : DbLog) : Write := Effects.addLog e entry.

Definition renderLogMessage (s : AppState) (log : LogEntry) : string :=
  let actor := alookup (State.usersById s) (LogEntry.userId log) ?. User.name
               ?? LogEntry.userId log in
  let detail := LogEntry.detail log ?? "" in
  let type := LogEntry.type log in
  if bool_decide (type = "login") then actor +:+ " login"
  else if bool_decide (type = "waiter_add") then
    trim (actor +:+ " added waiter " +:+ detail)
  else if bool_decide (type = "waiter_update") then
    trim (actor +:+ " updated waiter " +:+ detail)
  else if bool_decide (type = "waiter_reset_pin") then
    trim (actor +:+ " reset waiter PIN " +:+ detail)
  else if bool_decide (type = "waiter_delete") then
    trim (actor +:+ " deleted waiter " +:+ detail)
  else if bool_decide (type = "item_add") then
    trim (actor +:+ " added item " +:+ detail)
  else if bool_decide (type = "item_update") then
    trim (actor +:+ " updated item " +:+ detail)
  else if bool_decide (type = "item_delete") then
    trim (actor +:+ " deleted item " +:+ detail)
  else actor +:+ " " +:+ type.

Definition closeOverlays (s : AppState) : AppState :=
  s <| waiterModalOpen := false |>
    <| pendingDelete := None |>
    <| openAction := None |>
    <| actionWaiter := None |>
    <| actionType := None |>
    <| itemModalOpen := false |>
    <| pendingItemDelete := None |>
    <| itemActionItem := None |>
    <| openItemAction := None |>
    <| viewItem := None |>
    <| viewOrder := None |>
    <| openAction := None |>.

(** ** Effects *)

Definition bannerEffect (s : AppState) : option (Z * (AppState -> AppState)) :=
  Auth.bannerEffect s.

Definition profileMouseDown (insideCard insideAvatar : bool) (s : AppState)
    : AppState :=
  Auth.profileMouseDown insideCard insideAvatar s.

(** The session effect: as in revision C, but the tab stays. *)
Definition restoreSession (e : Env) (st : Storage) (s : AppState) : Outcome :=
  match currentUser s, st with
  | Some _, _ | None, NoItem => pure s
  | None, _ =>
      if bool_decide (users s = []) then pure s
      else
        match st with
        | Session userId expiresAt =>
            if expiresAt <? now e then
              {| next := s; calls := []; storage := RemoveSession; threw := false |}
            else
              match findBy (fun u => bool_decide (User.id u = userId)) (users s) with
              | Some found =>
                  pure (s <| currentUser := Some found |>
                          <| draftWaiter ::= fun d =>
                               if bool_decide (User.role found = Some Waiter)
                               then User.id found else d |>)
              | None => pure s
              end
        | _ => {| next := s; calls := []; storage := RemoveSession; threw := false |}
        end
  end.

(** ** Handlers *)

Definition updateDraftQty (itemId : string) (qty : Z) (s : AppState) : AppState :=
  Orders.updateDraftQty itemId qty s.

(** [handleCreateOrder]: the order is written under a generated key, which
    is also its [id]. *)
Definition handleCreateOrder (e : Env) (s : AppState) : Outcome :=
  let s := s <| banner := None |> in
  if isEmpty (draftWaiter s) then
    pure (s <| banner := error "Pick a waiter to assign the order." |>)
  else if bool_decide (selected s = []) then
    pure (s <| banner := error "Add at least one item before submitting." |>)
  else
    let orderId := pushKey e in
    let payload :=
      {| DbOrder.id := Some orderId;
         DbOrder.waiterId := None;
         DbOrder.waiter_id := Some (draftWaiter s);
         DbOrder.time := Some (toISOString (now e));
         DbOrder.status := Some Pending;
         DbOrder.collector := Some "";
         DbOrder.items := ItemsMap (itemsMap (selected s)) |} in
    started s
      [thenOrBanner (SetOrder (pushKey e) payload)
         (fun s => s <| draftQty := [] |> <| showOrderModal := false |>
                     <| banner := success "Order captured and stock updated." |>)
         (fun _ => None)].

Definition addWaiter (e : Env) (s : AppState) : Outcome :=
  let s := s <| banner := None |> in
  if isEmpty (trim (newWaiterName s)) || isEmpty (trim (newWaiterPhone s)) then
    pure (s <| banner := error "Fill name and phone for the new waiter." |>)
  else
    let newUser :=
      {| DbUser.id := Some ("waiter-" +:+ showZ (now e));
         DbUser.name := trim (newWaiterName s);
         DbUser.phone := trim (newWaiterPhone s);
         DbUser.pin := "4321";
         DbUser.role := Some Waiter |} in
    started s
      [thenOrBanner (SetUser (pushKey e) newUser)
         (fun s' => s' <| newWaiterName := "" |>
                       <| newWaiterPhone := "" |>
                       <| waiterModalOpen := false |>
                       <| banner := success "Waiter added." |>)
         (logThen s "waiter_add" (DbUser.name newUser))].

Section Items.
Context `{JsRuntime}.

Definition addItem (e : Env) (s : AppState) : Outcome :=
  let s := s <| banner := None |> in
  if isEmpty (trim (newItemName s)) then
    pure (s <| banner := error "Provide an item name." |>)
  else
    let price := Number (newItemPrice s) in
    if notAbove0 price then
      pure (s <| banner := error "Provide a valid price above 0." |>)
    else
      let newItem := {| DbItem.name := trim (newItemName s);
                        DbItem.price := price;
                        DbItem.stock := None |} in
      started s
        [thenOrBanner (SetItem (pushKey e) newItem)
           (fun s => s <| newItemName := "" |>
                       <| newItemPrice := "0" |>
                       <| itemModalOpen := false |>
                       <| banner := success "Item added." |>)
           (logThen s "item_add" (DbItem.name newItem))].

Definition updateItem (s : AppState) : Outcome :=
  match itemActionItem s with
  | None => pure s
  | Some item =>
      let name := trim (itemActionName s) in
      let price := Number (itemActionPrice s) in
      if isEmpty name then
        pure (s <| banner := error "Provide an item name." |>)
      else if notAbove0 price then
        pure (s <| banner := error "Provide a valid price above 0." |>)
      else
        started s
          [thenOrBanner (UpdateItem (Item.id item) name (price ?? 0) None)
             (fun s => s <| itemActionItem := None |>
                         <| openItemAction := None |>
                         <| banner := success "Item updated." |>)
             (logThen s "item_update" name)]
  end.

End Items.

Definition deleteItem (id : string) (s : AppState) : Outcome :=
  Catalog.deleteItem id s.

(** The handlers of the staff screen address the user by [id]. *)
Definition resetWaiterPin (id : string) (s : AppState) : Outcome :=
  started s
    [thenOrBanner (UpdateUserPin id "0000")
       (fun s => s <| banner := success "PIN reset to 0000." |>)
       (logThen s "waiter_reset_pin" id)].

Definition updateWaiterProfile (id name phone : string) (s : AppState) : Outcome :=
  let nextName := trim name in
  let nextPhone := trim phone in
  if isEmpty nextName || isEmpty nextPhone then
    pure (s <| banner := error "Provide both name and phone." |>)
  else
    started s
      [thenOrBanner (UpdateUser id nextName nextPhone None None)
         (fun s => s <| banner := success "Waiter updated." |>)
         (logThen s "waiter_update" nextName)].

Definition deleteWaiter (id : string) (s : AppState) : Outcome :=
  if bool_decide (currentUser s ?. User.id = Some id) then
    pure (s <| banner := error "Cannot delete the signed-in user." |>)
  else
    started s
      [thenOrBanner (RemoveUser id)
         (fun s => s <| banner := success "Waiter removed." |>)
         (logThen s "waiter_delete" id)].

Definition updateOrderStatus (s : AppState) (id : string) (status : Status)
    : Outcome :=
  Settlement.updateOrderStatus s id status.

(** [statusLabel]: the texts are not translated. *)
Definition statusLabel (status : option Status) : string * Tone :=
  match status with
  | None | Some Pending => ("Active", TonePending)
  | Some _ => ("Done", ToneDone)
  end.

Definition normalizePhone (phone : string) : string := Auth.normalizePhone phone.

(** [handleLogin]: every user lands on the dashboard. *)
Definition handleLogin (e : Env) (s : AppState) : Outcome :=
  if bool_decide (users s = []) then
    pure (s <| authError := "Data is still loading. Try again in a moment." |>)
  else
    let phone := trim (authPhone s) in
    let normalized := normalizePhone phone in
    let pin := trim (authPin s) in
    match findBy (credentialsMatch phone normalized pin) (users s) with
    | None => pure (s <| authError := "Invalid phone or PIN. Try again." |>)
    | Some found =>
        {| next :=
             s <| authError := "" |>
               <| currentUser := Some found |>
               <| tab := Dash |>
               <| sidebarOpen := false |>
               <| profileOpen := false |>
               <| banner := success ("Welcome, " +:+ User.name found +:+ "!") |>
               <| draftWaiter ::= fun d =>
                    if bool_decide (User.role found = Some Waiter)
                    then User.id found else d |>;
           calls :=
             [fireAndForget
                (addLog e {| DbLog.userId := User.id found;
                             DbLog.time := toISOString (now e);
                             DbLog.type := "login";
                             DbLog.detail := None |})];
           storage := SetSession (User.id found) (now e + sessionLength);
           threw := false |}
    end.

Definition handleLogout (s : AppState) : Outcome := Auth.handleLogout s.

(** ** What is rendered for whom *)

(** The loader, the sign-in form or the shell, as in revision C. *)
Definition rootOf (s : AppState) : Root := View.rootOf s.

Definition isAdmin (s : AppState) : bool := Staff.isAdmin s.

(** The buttons of the sidebar: no loans. *)
Definition sidebarTabs : list Tab := [Dash; Orders; State.Staff; Items; Reports].

(** The buttons of the tab bar: the dashboard and the orders, and the staff
    under [currentUser.role === 'admin']. *)
Definition tabbarTabs (s : AppState) : list Tab :=
  [Dash; Orders] ++ (if isAdmin s then [State.Staff] else []).

Definition navTabs (s : AppState) : list Tab :=
  if isAdmin s then sidebarTabs else tabbarTabs s.

Definition navigate (t : Tab) (s : AppState) : AppState := clickNav (navTabs s) t s.

(** The pages of an administrator: the staff, the items and the reports. *)
Definition staffScreen (s : AppState) : bool :=
  bool_decide (tab s = State.Staff) && isAdmin s.

Definition itemsScreen (s : AppState) : bool :=
  bool_decide (tab s = Items) && isAdmin s.

Definition reportsScreen (s : AppState) : bool :=
  bool_decide (tab s = Reports) && isAdmin s.

Definition toggleSidebar (s : AppState) : AppState := View.toggleSidebar s.
Definition toggleProfile (s : AppState) : AppState := View.toggleProfile s.
Definition fab (s : AppState) : AppState := View.fab s.

(** ** The exports

    The code of [exportReportCSV] and [printReport] is that of revision C;
    the rows are those of this revision, and there are none when
    [reportRows] threw. *)

Definition exportReportCSV `{JsRuntime} (s : AppState) : option Download :=
  rows ← reportRows s;
  Some {| content := csvOf rows;
          type := "text/csv;charset=utf-8;";
          download := "reports.csv" |}.

Definition printReport `{JsRuntime} (opened : bool) (s : AppState) : option string :=
  rows ← reportRows s;
  if opened then Some (htmlOf rows) else None.

(** ** Properties *)

Definition validTime `{JsRuntime} (o : Order) : Prop :=
  is_Some (timeOf (Order.time o)).

Section ReportFacts.
Context `{JsRuntime}.
Context (s : AppState).

Lemma inRange_valid o :
  reportStatus s = StatusAll -> validTime o ->
  inRange s o = Reports.inReport s o.
Proof.
  intros Hall [t Ht]. unfold inRange, Reports.inReport. rewrite Ht, Hall.
  by repeat case_match.
Qed.

Lemma filteredOrders_valid :
  reportStatus s = StatusAll -> Forall validTime (orders s) ->
  filteredOrders s = Reports.filteredOrders s.
Proof.
  intros Hall Hv. unfold filteredOrders, Reports.filteredOrders.
  apply filter_ext_in_iff. intros o Ho%list_elem_of_In.
  rewrite inRange_valid; [done..|]. by apply (proj1 (Forall_forall _ _) Hv).
Qed.

Lemma filteredOrders_validTime :
  Forall validTime (orders s) -> Forall validTime (filteredOrders s).
Proof.
  intros Hv. apply Forall_forall. intros o Ho%list_elem_of_In%filter_In.
  apply (proj1 (Forall_forall _ _) Hv), list_elem_of_In, Ho.
Qed.

Lemma addBucket_valid b o :
  validTime o -> addBucket s (Some b) o = Some (Reports.addToBuckets s b o).
Proof. intros [t Ht]. unfold addBucket, Reports.addToBuckets. by rewrite Ht. Qed.

Lemma fold_addBucket_valid l b :
  Forall validTime l ->
  fold_left (addBucket s) l (Some b) = Some (fold_left (Reports.addToBuckets s) l b).
Proof.
  intros Hl. revert b. induction Hl as [|o l Ho Hl IH]; intros b; [done|].
  cbn [fold_left]. by rewrite addBucket_valid.
Qed.

Lemma fold_addBucket_None l : fold_left (addBucket s) l None = None.
Proof. by induction l. Qed.

Lemma fold_addBucket_throws l b o :
  o ∈ l -> reportTab s = Daily -> timeOf (Order.time o) = None ->
  fold_left (addBucket s) l b = None.
Proof.
  intros Hin Hd Ht. revert b. induction l as [|x l IH]; intros b.
  - by apply elem_of_nil in Hin.
  - cbn [fold_left]. apply elem_of_cons in Hin as [<-|Hin]; [|by apply IH].
    replace (addBucket s b o) with (@None (list (string * ReportStats)));
      [apply fold_addBucket_None|].
    unfold addBucket, bucketKey. rewrite Ht, Hd. by destruct b.
Qed.

End ReportFacts.

(** C25. On orders whose times all parse and without a status filter, the
    report of revision B is the report of revision C. *)
Theorem reportRows_agree_B `{JsRuntime} s :
  reportStatus s = StatusAll -> Forall validTime (orders s) ->
  reportRows s = Some (Reports.reportRows s).
Proof.
  intros Hall Hv. unfold reportRows, Reports.reportRows, Reports.buckets.
  rewrite <- filteredOrders_valid by done.
  by rewrite fold_addBucket_valid by by apply filteredOrders_validTime.
Qed.

Lemma reportRows_agree_B_witness :
  @reportRows rt sampleStateB = Some (@Reports.reportRows rt sampleStateB).
Proof. apply reportRows_agree_B; by_compute. Defined.

(** C27. In revision B one order whose time does not parse takes the daily
    report down: it passes the date range, and [toISOString] throws on it. *)
Theorem reportRows_throws_B `{JsRuntime} s o :
  reportTab s = Daily -> o ∈ orders s -> timeOf (Order.time o) = None ->
  reportRows s = None.
Proof.
  intros Hd Ho Ht. unfold reportRows.
  rewrite (fold_addBucket_throws s _ _ o); [done| |done..].
  apply list_elem_of_In, filter_In. split; [by apply list_elem_of_In|].
  unfold inRange. by rewrite Ht.
Qed.

Lemma reportRows_throws_B_witness : @reportRows rt sampleState = None.
Proof. apply (@reportRows_throws_B rt sampleState order4); by_compute. Defined.

(** ** Orders and users in the store *)

Lemma handleCreateOrder_writes_B e s :
  isEmpty (draftWaiter s) = false -> selected s <> [] ->
  exists d, writesOf (handleCreateOrder e s) = [SetOrder (pushKey e) d] /\
            DbOrder.id d = Some (pushKey e) /\ DbOrder.status d = Some Pending /\
            DbOrder.waiter_id d = Some (draftWaiter s) /\
            DbOrder.time d = Some (toISOString (now e)).
Proof.
  intros Hw Hs. unfold handleCreateOrder. cbv zeta.
  change (draftWaiter (s <| banner := None |>)) with (draftWaiter s).
  change (selected (s <| banner := None |>)) with (selected s).
  rewrite Hw, bool_decide_eq_false_2 by done.
  eexists. split; [reflexivity|]. done.
Qed.

Lemma created_stored_B e s db :
  isEmpty (draftWaiter s) = false -> selected s <> [] ->
  exists d, alookup (dbOrders (applyAll (writesOf (handleCreateOrder e s)) db))
                    (pushKey e) = Some d /\
            DbOrder.id d = Some (pushKey e) /\
            DbOrder.waiter_id d = Some (draftWaiter s) /\
            DbOrder.time d = Some (toISOString (now e)).
Proof.
  intros Hw Hs.
  destruct (handleCreateOrder_writes_B e s Hw Hs) as (d & W & Hid & _ & Hwt & Ht).
  rewrite W. exists d. cbn [applyAll fold_left].
  split_and!; [simpl; apply alookup_aset_eq|done..].
Qed.

(** An order of revision B is what its type says: created by
    [handleCreateOrder] and decoded from the store it has a waiter and a
    time, and its [id] is the key it is stored under. *)
Theorem created_order_wf_B e s db :
  isEmpty (draftWaiter s) = false -> selected s <> [] ->
  let db1 := applyAll (writesOf (handleCreateOrder e s)) db in
  exists d, alookup (dbOrders db1) (pushKey e) = Some d /\
            wfOrder (decodeOrder (pushKey e, d)) /\
            Order.id (decodeOrder (pushKey e, d)) = pushKey e.
Proof.
  intros Hw Hs db1.
  destruct (created_stored_B e s db Hw Hs) as (d & Hd & Hid & Hwt & Ht).
  exists d. split_and!; [done| |by simpl; rewrite Hid].
  unfold wfOrder. simpl. rewrite Hwt, Ht. by destruct (DbOrder.waiterId d).
Qed.

Lemma created_order_wf_B_witness :
  exists d, alookup (dbOrders (applyAll (writesOf (handleCreateOrder (env 1000 "-k") draftView))
                                        sampleDb)) "-k" = Some d /\
            wfOrder (decodeOrder ("-k", d)) /\
            Order.id (decodeOrder ("-k", d)) = "-k".
Proof.
  apply (created_order_wf_B (env 1000 "-k") draftView sampleDb); by_compute.
Defined.

(** C12. In revision B an order that [handleCreateOrder] stored is settled
    by [updateOrderStatus] on its [id]: the stored order gets the status and
    the collector, and no record is added. *)
Theorem created_order_settles_B e s s' db st :
  isEmpty (draftWaiter s) = false -> selected s <> [] ->
  let db1 := applyAll (writesOf (handleCreateOrder e s)) db in
  exists d, alookup (dbOrders db1) (pushKey e) = Some d /\
    let o := decodeOrder (pushKey e, d) in
    let db2 := applyAll (writesOf (updateOrderStatus s' (Order.id o) st)) db1 in
    alookup (dbOrders db2) (pushKey e) = Some (settled st (collectorFor s' st) d) /\
    (dbOrders db2).*1 = (dbOrders db1).*1.
Proof.
  intros Hw Hs db1. subst db1.
  destruct (created_stored_B e s db Hw Hs) as (d & Hd & Hid & _).
  exists d. split; [done|]. cbv zeta. simpl Order.id. rewrite Hid. simpl default.
  unfold updateOrderStatus. rewrite writesOf_updateOrderStatus.
  cbn [applyAll fold_left]. split.
  - by rewrite alookup_UpdateOrderStatus, decide_True, Hd.
  - simpl. apply updateChild_keys_in.
    apply alookup_Some_elem in Hd. apply list_elem_of_fmap. by exists (pushKey e, d).
Qed.

Lemma created_order_settles_B_witness :
  let db1 := applyAll (writesOf (handleCreateOrder (env 1000 "-k") draftView)) sampleDb in
  exists d, alookup (dbOrders db1) "-k" = Some d /\
    let o := decodeOrder ("-k", d) in
    let db2 := applyAll (writesOf (updateOrderStatus collectorView (Order.id o) Paid)) db1 in
    alookup (dbOrders db2) "-k" = Some (settled Paid (collectorFor collectorView Paid) d) /\
    (dbOrders db2).*1 = (dbOrders db1).*1.
Proof.
  apply (created_order_settles_B (env 1000 "-k") draftView collectorView sampleDb Paid);
    by_compute.
Defined.

(** ** Users addressed by their id *)

Lemma addWaiter_writes_B e s :
  isEmpty (trim (newWaiterName s)) || isEmpty (trim (newWaiterPhone s)) = false ->
  writesOf (addWaiter e s) =
  [SetUser (pushKey e)
     {| DbUser.id := Some ("waiter-" +:+ showZ (now e));
        DbUser.name := trim (newWaiterName s);
        DbUser.phone := trim (newWaiterPhone s);
        DbUser.pin := "4321";
        DbUser.role := Some Waiter |}].
Proof.
  intros Hf. unfold addWaiter. cbv zeta.
  change (newWaiterName (s <| banner := None |>)) with (newWaiterName s).
  change (newWaiterPhone (s <| banner := None |>)) with (newWaiterPhone s).
  by rewrite Hf.
Qed.

(** C18. In revision B a user created by [addWaiter] cannot be managed: the
    list gives the user the stored [id], the handlers write to
    [users/<id>], and the user is stored under the generated key.
    [resetWaiterPin] leaves the PIN as it is and creates a record that
    holds a PIN only. *)
Theorem resetWaiterPin_misses_B e s s' db :
  isEmpty (trim (newWaiterName s)) || isEmpty (trim (newWaiterPhone s)) = false ->
  pushKey e <> "waiter-" +:+ showZ (now e) ->
  let db1 := applyAll (writesOf (addWaiter e s)) db in
  exists d, alookup (dbUsers db1) (pushKey e) = Some d /\
    let u := decodeUser (pushKey e, d) in
    let db2 := applyAll (writesOf (resetWaiterPin (User.id u) s')) db1 in
    User.id u = "waiter-" +:+ showZ (now e) /\
    alookup (dbUsers db2) (pushKey e) = Some d /\ DbUser.pin d = "4321" /\
    (alookup (dbUsers db1) (User.id u) = None ->
     alookup (dbUsers db2) (User.id u) = Some (blankUser <| DbUser.pin := "0000" |>)).
Proof.
  intros Hf Hk db1. subst db1. rewrite addWaiter_writes_B by done.
  eexists. cbn [applyAll fold_left].
  split; [simpl; apply alookup_aset_eq|]. cbv zeta. simpl User.id.
  split_and!; [done| |done|].
  - simpl. rewrite alookup_updateChild, decide_False by done. apply alookup_aset_eq.
  - simpl. intros Hn. rewrite alookup_updateChild, decide_True by done.
    unfold setChild in *. by rewrite Hn.
Qed.

Lemma resetWaiterPin_misses_B_witness :
  let s := (viewOf sampleDb admin1) <| newWaiterName := "Ebla" |>
                                    <| newWaiterPhone := "655555" |> in
  let db1 := applyAll (writesOf (addWaiter (env 1000 "-Ke") s)) sampleDb in
  exists d, alookup (dbUsers db1) "-Ke" = Some d /\
    let u := decodeUser ("-Ke", d) in
    let db2 := applyAll (writesOf (resetWaiterPin (User.id u) s)) db1 in
    User.id u = "waiter-1000" /\
    alookup (dbUsers db2) "-Ke" = Some d /\ DbUser.pin d = "4321" /\
    (alookup (dbUsers db1) (User.id u) = None ->
     alookup (dbUsers db2) (User.id u) = Some (blankUser <| DbUser.pin := "0000" |>)).
Proof.
  apply (resetWaiterPin_misses_B (env 1000 "-Ke")
           ((viewOf sampleDb admin1) <| newWaiterName := "Ebla" |>
                                     <| newWaiterPhone := "655555" |>)); by_compute.
Defined.

(** ** Navigation *)

Lemma navTabs_plain_B s : isAdmin s = false -> navTabs s = [Dash; Orders].
Proof. unfold navTabs, tabbarTabs. by intros ->. Qed.

Lemma handleLogin_tab_B e s u :
  currentUser s = None -> currentUser (next (handleLogin e s)) = Some u ->
  tab (next (handleLogin e s)) = Dash.
Proof.
  unfold handleLogin. intros Hn. repeat case_match; state_simpl s; congruence.
Qed.

(** A waiter of revision B stays on the dashboard and the orders, and is
    shown none of the pages of an administrator. *)
Theorem nav_confined_B e s u ts :
  currentUser s = None -> currentUser (next (handleLogin e s)) = Some u ->
  User.role u <> Some Admin ->
  let s' := foldl (flip navigate) (next (handleLogin e s)) ts in
  tab s' ∈ [Dash; Orders] /\ staffScreen s' = false /\ itemsScreen s' = false /\
  reportsScreen s' = false.
Proof.
  intros Hn Hu Hr s'.
  assert (isAdmin (next (handleLogin e s)) = false) as Ha.
  { unfold isAdmin, Staff.isAdmin. rewrite Hu. by apply bool_decide_eq_false. }
  destruct (navigations_confined navTabs [Dash; Orders] ts _ navTabs_plain_B Ha)
    as [Ha' Ht].
  { rewrite (handleLogin_tab_B e s u) by done. by_compute. }
  change (isAdmin s' = false) in Ha'. change (tab s' ∈ [Dash; Orders]) in Ht.
  unfold staffScreen, itemsScreen, reportsScreen. by rewrite Ha', !andb_false_r.
Qed.

Lemma nav_confined_B_witness :
  let s := (viewOf sampleDb waiter1) <| currentUser := None |>
             <| authPhone := "622222" |> <| authPin := "2222" |> in
  let s' := foldl (flip navigate) (next (handleLogin (env 1 "-k") s))
                  [State.Staff; Reports; Items] in
  tab s' ∈ [Dash; Orders] /\ staffScreen s' = false /\ itemsScreen s' = false /\
  reportsScreen s' = false.
Proof.
  intros s. apply (nav_confined_B (env 1 "-k") s waiter1); by_compute.
Defined.

End RevB.
