(* ===== verification/RevA.v ===== *)
(** * RevA: revision A of [App] ([src/src/App.tsx], lines 1756-3067)

    The first revision: an order is paid when it is created and may be
    turned into a loan; there is no collector, no activity log and no
    stored session.  As for revision B the model shares the records of
    [Model], [Store] and [State]; a definition of the module [RevA] is
    written out where the code of this revision differs from B's. *)

From S2P Require Import Prelude Dates Runtime Model Store State I18n Effects.
From S2P Require Import Sample Auth Catalog Orders Staff Reports Settlement Export View RevB.

Module RevA.

(** ** The types, as predicates on the shared records *)

Definition wfRole (r : Role) : Prop := RevB.wfRole r.
Definition wfUser (u : User) : Prop := RevB.wfUser u.
Definition wfItem (i : Item) : Prop := RevB.wfItem i.

(** [type Order]: [status] is ['paid' | 'loan'] or absent, and there is no
    [collector]. *)
Definition wfOrder (o : Order) : Prop :=
  is_Some (Order.waiterId o) /\ is_Some (Order.time o) /\
  Order.status o <> Some Pending /\ Order.collector o = None.

#[export] Instance wfOrder_dec o : Decision (wfOrder o).
Proof. unfold wfOrder. apply _. Defined.

Definition initialState : AppState := RevB.initialState.

Definition normalizePhone (phone : string) : string := Auth.normalizePhone phone.

(** ** The subscriptions *)

Section Decoders.
Context `{JsRuntime}.

Definition decodeUser (e : string * DbUser) : User := RevB.decodeUser e.
Definition decodeItem (e : string * DbItem) : Item := RevB.decodeItem e.

(** An order without status is paid. *)
Definition decodeOrder (e : string * DbOrder) : Order :=
  let '(id, order) := e in
  {| Order.id := DbOrder.id order ?? id;
     Order.waiterId :=
       match DbOrder.waiterId order with
       | Some w => Some w
       | None => DbOrder.waiter_id order
       end;
     Order.time := DbOrder.time order;
     Order.status := Some (DbOrder.status order ?? Paid);
     Order.collector := None;
     Order.items := decodeOrderItems (DbOrder.items order) |}.

Definition onUsers (draftWaiter0 : string) (currentUser0 : option User)
    (val : list (string * DbUser)) (s : AppState) : AppState :=
  RevB.onUsers draftWaiter0 currentUser0 val s.

Definition onItems (val : list (string * DbItem)) (s : AppState) : AppState :=
  RevB.onItems val s.

Definition onOrders (val : list (string * DbOrder)) (s : AppState) : AppState :=
  s <| orders := sortBy (fun a b => cmpTimeDesc (Order.time a) (Order.time b))
                        (map decodeOrder val) |>
    <| isLoading := false |>.

End Decoders.

(** ** Derived values *)

Section Derived.
Context `{JsRuntime}.
Context (s : AppState).

Definition itemsById : list (string * Item) := State.itemsById s.
Definition usersById : list (string * User) := State.usersById s.
Definition formatPrice (value : Z) : string := State.formatPrice value.

Record Metrics := {
  totalOrders : Z;
  totalItems : Z;
  lowStock : list Item;
  topWaiterId : string;
  totalSales : Z
}.

Definition metrics : Metrics :=
  let scopedOrders := scopeToWaiter (currentUser s) (orders s) in
  {| totalOrders := Z.of_nat (length scopedOrders);
     totalItems := sumOf orderQty scopedOrders;
     totalSales := sumOf (Orders.orderTotal s) scopedOrders;
     lowStock := [];
     topWaiterId := topWaiter scopedOrders RevB.emDash |}.

Definition orderTotal (order : Order) : Z := Orders.orderTotal s order.
Definition draftTotal : Z := Orders.draftTotal s.
Definition scopedOrders : list Order := RevB.scopedOrders s.
Definition ordersFiltered : list Order := RevB.ordersFiltered s.
Definition getWeekId (d : Z) : string := Reports.getWeekId d.

(** The updates of [current] for one order: an order that is not a loan
    counts as paid; the bucket has no [pending]. *)
Definition countOrder (current : ReportStats) (order : Order) : ReportStats :=
  let st := Order.status order in
  {| ReportStats.ordersCount := ReportStats.ordersCount current + 1;
     ReportStats.itemsCount := ReportStats.itemsCount current + orderQty order;
     ReportStats.sales := ReportStats.sales current + Orders.orderTotal s order;
     ReportStats.loan :=
       if isLoan st then ReportStats.loan current + 1 else ReportStats.loan current;
     ReportStats.paid :=
       if isLoan st then ReportStats.paid current else ReportStats.paid current + 1;
     ReportStats.pending := ReportStats.pending current |}.

Definition filteredOrders : list Order := RevB.filteredOrders s.

Definition addBucket (buckets : option (list (string * ReportStats)))
    (order : Order) : option (list (string * ReportStats)) :=
  b ← buckets;
  key ← RevB.bucketKey s (timeOf (Order.time order));
  let current := alookup b key ?? zeroStats in
  Some (aset b key (countOrder current order)).

Definition reportRows : option (list ReportRow) :=
  b ← fold_left addBucket filteredOrders (Some []);
  Some (map (fun '(label, stats) =>
               {| ReportRow.label := label; ReportRow.stats := stats |})
            (sortBy cmpLabel b)).

Definition waitersFiltered : list User := RevB.waitersFiltered s.
Definition itemsFiltered : list Item := Orders.itemsFiltered s.

End Derived.

Definition closeOverlays (s : AppState) : AppState :=
  s <| waiterModalOpen := false |>
    <| pendingDelete := None |>
    <| openAction := None |>
    <| actionWaiter := None |>
    <| actionType := None |>
    <| itemModalOpen := false |>
    <| pendingItemDelete := None |>
    <| itemActionItem := None |>
    <| openItemAction := None |>.

(** ** Handlers *)

(** [p.then(() => setBanner(success)).catch(...)]: no log entry. *)
Definition thenBanner (w : Write) (message : string) : Call :=
  thenOrBanner w (fun s => s <| banner := success message |>) (fun _ => None).

Definition updateDraftQty (itemId : string) (qty : Z) (s : AppState) : AppState :=
  Orders.updateDraftQty itemId qty s.

(** [handleCreateOrder]: the order is stored as paid, without collector. *)
Definition handleCreateOrder (e : Env) (s : AppState) : Outcome :=
  let s := s <| banner := None |> in
  if isEmpty (draftWaiter s) then
    pure (s <| banner := error "Pick a waiter to assign the order." |>)
  else if bool_decide (selected s = []) then
    pure (s <| banner := error "Add at least one item before submitting." |>)
  else
    let orderId := pushKey e in
    let payload :=
      {| DbOrder.id := Some orderId;
         DbOrder.waiterId := None;
         DbOrder.waiter_id := Some (draftWaiter s);
         DbOrder.time := Some (toISOString (now e));
         DbOrder.status := Some Paid;
         DbOrder.collector := None;
         DbOrder.items := ItemsMap (itemsMap (selected s)) |} in
    started s
      [thenOrBanner (SetOrder (pushKey e) payload)
         (fun s => s <| draftQty := [] |> <| showOrderModal := false |>
                     <| banner := success "Order captured and stock updated." |>)
         (fun _ => None)].

Definition addWaiter (e : Env) (s : AppState) : Outcome :=
  let s := s <| banner := None |> in
  if isEmpty (trim (newWaiterName s)) || isEmpty (trim (newWaiterPhone s)) then
    pure (s <| banner := error "Fill name and phone for the new waiter." |>)
  else
    let newUser :=
      {| DbUser.id := Some ("waiter-" +:+ showZ (now e));
         DbUser.name := trim (newWaiterName s);
         DbUser.phone := trim (newWaiterPhone s);
         DbUser.pin := "4321";
         DbUser.role := Some Waiter |} in
    started s
      [thenOrBanner (SetUser (pushKey e) newUser)
         (fun s' => s' <| newWaiterName := "" |>
                       <| newWaiterPhone := "" |>
                       <| waiterModalOpen := false |>
                       <| banner := success "Waiter added." |>)
         (fun _ => None)].

Section Items.
Context `{JsRuntime}.

Definition addItem (e : Env) (s : AppState) : Outcome :=
  let s := s <| banner := None |> in
  if isEmpty (trim (newItemName s)) then
    pure (s <| banner := error "Provide an item name." |>)
  else
    let price := Number (newItemPrice s) in
    if notAbove0 price then
      pure (s <| banner := error "Provide a valid price above 0." |>)
    else
      let newItem := {| DbItem.name := trim (newItemName s);
                        DbItem.price := price;
                        DbItem.stock := None |} in
      started s
        [thenOrBanner (SetItem (pushKey e) newItem)
           (fun s => s <| newItemName := "" |>
                       <| newItemPrice := "0" |>
                       <| itemModalOpen := false |>
                       <| banner := success "Item added." |>)
           (fun _ => None)].

Definition updateItem (s : AppState) : Outcome :=
  match itemActionItem s with
  | None => pure s
  | Some item =>
      let name := trim (itemActionName s) in
      let price := Number (itemActionPrice s) in
      if isEmpty name then
        pure (s <| banner := error "Provide an item name." |>)
      else if notAbove0 price then
        pure (s <| banner := error "Provide a valid price above 0." |>)
      else
        started s
          [thenOrBanner (UpdateItem (Item.id item) name (price ?? 0) None)
             (fun s => s <| itemActionItem := None |>
                         <| openItemAction := None |>
                         <| banner := success "Item updated." |>)
             (fun _ => None)]
  end.

End Items.

Definition deleteItem (id : string) (s : AppState) : Outcome :=
  started s [thenBanner (RemoveItem id) "Item removed."].

Definition resetWaiterPin (id : string) (s : AppState) : Outcome :=
  started s [thenBanner (UpdateUserPin id "0000") "PIN reset to 0000."].

Definition updateWaiterProfile (id name phone : string) (s : AppState) : Outcome :=
  let nextName := trim name in
  let nextPhone := trim phone in
  if isEmpty nextName || isEmpty nextPhone then
    pure (s <| banner := error "Provide both name and phone." |>)
  else
    started s [thenBanner (UpdateUser id nextName nextPhone None None) "Waiter updated."].

Definition deleteWaiter (id : string) (s : AppState) : Outcome :=
  if bool_decide (currentUser s ?. User.id = Some id) then
    pure (s <| banner := error "Cannot delete the signed-in user." |>)
  else
    started s [thenBanner (RemoveUser id) "Waiter removed."].

(** [updateOrderStatus]: the status alone is written. *)
Definition updateOrderStatus (s : AppState) (id : string) (status : Status)
    : Outcome :=
  started s [thenBanner (UpdateOrderStatusOnly id status) "Order status updated."].

(** [handleLogin]: no log entry and no stored session. *)
Definition handleLogin (s : AppState) : Outcome :=
  if bool_decide (users s = []) then
    pure (s <| authError := "Data is still loading. Try again in a moment." |>)
  else
    let phone := trim (authPhone s) in
    let normalized := normalizePhone phone in
    let pin := trim (authPin s) in
    match findBy (credentialsMatch phone normalized pin) (users s) with
    | None => pure (s <| authError := "Invalid phone or PIN. Try again." |>)
    | Some found =>
        pure (s <| authError := "" |>
                <| currentUser := Some found |>
                <| tab := Dash |>
                <| sidebarOpen := false |>
                <| profileOpen := false |>
                <| banner := success ("Welcome, " +:+ User.name found +:+ "!") |>
                <| draftWaiter ::= fun d =>
                     if bool_decide (User.role found = Some Waiter)
                     then User.id found else d |>)
    end.

Definition handleLogout (s : AppState) : Outcome :=
  pure (s <| currentUser := None |>
          <| banner := None |>
          <| draftWaiter := "" |>
          <| profileOpen := false |>).

(** ** What is rendered for whom

    The tree is that of revision B: the sidebar of an administrator, the
    tab bar of a waiter, the pages of an administrator. *)

Definition rootOf (s : AppState) : Root := View.rootOf s.
Definition isAdmin (s : AppState) : bool := Staff.isAdmin s.
Definition sidebarTabs : list Tab := RevB.sidebarTabs.
Definition tabbarTabs (s : AppState) : list Tab := RevB.tabbarTabs s.
Definition navTabs (s : AppState) : list Tab := RevB.navTabs s.
Definition navigate (t : Tab) (s : AppState) : AppState := RevB.navigate t s.
Definition staffScreen (s : AppState) : bool := RevB.staffScreen s.
Definition itemsScreen (s : AppState) : bool := RevB.itemsScreen s.
Definition reportsScreen (s : AppState) : bool := RevB.reportsScreen s.
Definition toggleSidebar (s : AppState) : AppState := View.toggleSidebar s.
Definition toggleProfile (s : AppState) : AppState := View.toggleProfile s.
Definition fab (s : AppState) : AppState := View.fab s.

(** ** The exports: no [Pending] column *)

Definition header : list string :=
  ["Period"; "Orders"; "Items"; "Sales"; "Paid"; "Loan"].

Definition cellsOf (label : string) (st : ReportStats) : list string :=
  [label; showZ (ReportStats.ordersCount st); showZ (ReportStats.itemsCount st);
   toFixed2 (ReportStats.sales st); showZ (ReportStats.paid st);
   showZ (ReportStats.loan st)].

Definition csvOf (rows : list ReportRow) : string :=
  join nl (map (join ",")
    (header :: map (fun r => cellsOf (ReportRow.label r) (ReportRow.stats r)) rows
            ++ [cellsOf "Total" (totalOf rows)])).

Definition exportReportCSV `{JsRuntime} (s : AppState) : option Download :=
  rows ← reportRows s;
  Some {| content := csvOf rows;
          type := "text/csv;charset=utf-8;";
          download := "reports.csv" |}.

Definition tableRow (label : string) (st : ReportStats) : string :=
  "<tr>" +:+ td label +:+ td (showZ (ReportStats.ordersCount st))
         +:+ td (showZ (ReportStats.itemsCount st))
         +:+ td ("$" +:+ toFixed2 (ReportStats.sales st))
         +:+ td (showZ (ReportStats.paid st))
         +:+ td (showZ (ReportStats.loan st)) +:+ "</tr>".

Definition htmlOf (rows : list ReportRow) : string :=
  join nl
    [""; "      <html>"; "      <head><title>Reports</title></head>"; "      <body>";
     "        <h2>Reports</h2>";
     "        <table border=" +:+ dq +:+ "1" +:+ dq +:+ " cellspacing=" +:+ dq +:+ "0"
       +:+ dq +:+ " cellpadding=" +:+ dq +:+ "6" +:+ dq +:+ ">";
     "          <tr><th>Period</th><th>Orders</th><th>Items</th><th>Sales</th>"
       +:+ "<th>Paid</th><th>Loan</th></tr>";
     "          " +:+ join "" (map (fun r => tableRow (ReportRow.label r)
                                                      (ReportRow.stats r)) rows);
     "          " +:+ tableRow "<strong>Total</strong>" (totalOf rows);
     "        </table>"; "      </body>"; "      </html>"; "    "].

Definition printReport `{JsRuntime} (opened : bool) (s : AppState) : option string :=
  rows ← reportRows s;
  if opened then Some (htmlOf rows) else None.

(** ** Properties *)

(** What a bucket of this revision keeps: an order is paid or a loan. *)
Definition statsOk (st : ReportStats) : Prop :=
  ReportStats.paid st + ReportStats.loan st = ReportStats.ordersCount st /\
  ReportStats.pending st = 0.

Section ReportFacts.
Context `{JsRuntime}.
Context (s : AppState).

Definition bucketsOk : list (string * ReportStats) -> Prop :=
  Forall (fun kv => statsOk kv.2).

Lemma countOrder_ok_A st o : statsOk st -> statsOk (countOrder s st o).
Proof. unfold statsOk. simpl. destruct (isLoan _); lia. Qed.

Lemma addBucket_ok_A b o b' :
  bucketsOk b -> addBucket s (Some b) o = Some b' -> bucketsOk b'.
Proof.
  unfold bucketsOk. intros Hb. unfold addBucket. simpl.
  destruct (RevB.bucketKey s _) as [k|]; [|done]. simpl. intros [= <-].
  apply aset_Forall; [done|]. apply countOrder_ok_A.
  destruct (alookup b k) as [st|] eqn:E; simpl; [|done].
  by apply (alookup_Forall _ _ _ _ Hb E).
Qed.

Lemma fold_addBucket_None_A l : fold_left (addBucket s) l None = None.
Proof. by induction l. Qed.

Lemma fold_addBucket_ok_A l b b' :
  bucketsOk b -> fold_left (addBucket s) l (Some b) = Some b' -> bucketsOk b'.
Proof.
  revert b. induction l as [|o l IH]; intros b Hb; cbn [fold_left].
  - by intros [= <-].
  - destruct (addBucket s (Some b) o) as [b1|] eqn:E.
    + eauto using addBucket_ok_A.
    + by rewrite fold_addBucket_None_A.
Qed.

Lemma fold_addBucket_total_A l b :
  Forall RevB.validTime l -> is_Some (fold_left (addBucket s) l (Some b)).
Proof.
  intros Hl. revert b. induction Hl as [|o l [t Ht] _ IH]; intros b; [by eexists|].
  cbn [fold_left]. unfold addBucket at 2. simpl. rewrite Ht. simpl. apply IH.
Qed.

End ReportFacts.

(** C29. In revision A every order is paid or a loan: in every row of a
    report the paid and loan counts add up to the number of orders, and the
    report is computed whenever the times of the orders parse. *)
Theorem reportRows_status_counts_A `{JsRuntime} s :
  (forall rows, reportRows s = Some rows ->
     Forall (fun r => statsOk (ReportRow.stats r)) rows) /\
  (Forall RevB.validTime (orders s) -> is_Some (reportRows s)).
Proof.
  unfold reportRows. split.
  - intros rows. destruct (fold_left _ _ _) as [b|] eqn:E; [|done].
    simpl. intros [= <-]. apply Forall_fmap. rewrite sortBy_perm.
    eapply Forall_impl; [eapply (fold_addBucket_ok_A s); [|exact E]; constructor|].
    by intros [].
  - intros Hv%RevB.filteredOrders_validTime.
    destruct (fold_addBucket_total_A s _ [] Hv) as [b Hb].
    unfold filteredOrders. rewrite Hb. by eexists.
Qed.

Lemma reportRows_status_counts_A_witness : is_Some (@reportRows rt RevB.sampleStateB).
Proof. apply reportRows_status_counts_A. by_compute. Defined.

(** ** Orders in the store *)

Lemma handleCreateOrder_writes_A e s :
  isEmpty (draftWaiter s) = false -> selected s <> [] ->
  writesOf (handleCreateOrder e s) =
  [SetOrder (pushKey e)
     {| DbOrder.id := Some (pushKey e);
        DbOrder.waiterId := None;
        DbOrder.waiter_id := Some (draftWaiter s);
        DbOrder.time := Some (toISOString (now e));
        DbOrder.status := Some Paid;
        DbOrder.collector := None;
        DbOrder.items := ItemsMap (itemsMap (selected s)) |}].
Proof.
  intros Hw Hs. unfold handleCreateOrder. cbv zeta.
  change (draftWaiter (s <| banner := None |>)) with (draftWaiter s).
  change (selected (s <| banner := None |>)) with (selected s).
  by rewrite Hw, bool_decide_eq_false_2 by done.
Qed.

(** C31. An order of revision A is what its type says, from creation to
    settlement: [handleCreateOrder] stores it as paid under the key that is
    its [id]; [updateOrderStatus] on that [id] changes the status of that
    record and nothing else, and adds no record. *)
Theorem created_order_settles_A e s s' db st :
  isEmpty (draftWaiter s) = false -> selected s <> [] -> st <> Pending ->
  let db1 := applyAll (writesOf (handleCreateOrder e s)) db in
  exists d, alookup (dbOrders db1) (pushKey e) = Some d /\
    let o := decodeOrder (pushKey e, d) in
    let db2 := applyAll (writesOf (updateOrderStatus s' (Order.id o) st)) db1 in
    wfOrder o /\ Order.status o = Some Paid /\
    alookup (dbOrders db2) (pushKey e) = Some (d <| DbOrder.status := Some st |>) /\
    wfOrder (decodeOrder (pushKey e, d <| DbOrder.status := Some st |>)) /\
    (dbOrders db2).*1 = (dbOrders db1).*1.
Proof.
  intros Hw Hs Hst db1. subst db1. rewrite handleCreateOrder_writes_A by done.
  eexists. cbn [applyAll fold_left].
  split; [simpl; apply alookup_aset_eq|]. cbv zeta. simpl Order.id.
  split_and!; [by unfold wfOrder; simpl; split_and!; eauto|done| | |].
  - simpl. rewrite alookup_updateChild, decide_True by done.
    unfold setChild. by rewrite alookup_aset_eq.
  - unfold wfOrder. simpl. split_and!; eauto. congruence.
  - simpl. apply updateChild_keys_in. unfold setChild.
    apply list_elem_of_fmap. eexists (pushKey e, _). split; [done|].
    apply alookup_Some_elem, alookup_aset_eq.
Qed.

Lemma created_order_settles_A_witness :
  let db1 := applyAll (writesOf (handleCreateOrder (env 1000 "-k") draftView))
                      sampleDb in
  exists d, alookup (dbOrders db1) "-k" = Some d /\
    let o := decodeOrder ("-k", d) in
    let db2 := applyAll (writesOf (updateOrderStatus draftView (Order.id o) Loan))
                        db1 in
    wfOrder o /\ Order.status o = Some Paid /\
    alookup (dbOrders db2) "-k" = Some (d <| DbOrder.status := Some Loan |>) /\
    wfOrder (decodeOrder ("-k", d <| DbOrder.status := Some Loan |>)) /\
    (dbOrders db2).*1 = (dbOrders db1).*1.
Proof.
  apply (created_order_settles_A (env 1000 "-k") draftView draftView
           sampleDb Loan); by_compute.
Defined.

(** ** Navigation *)

Lemma handleLogin_tab_A s u :
  currentUser s = None -> currentUser (next (handleLogin s)) = Some u ->
  tab (next (handleLogin s)) = Dash.
Proof.
  unfold handleLogin. intros Hn. repeat case_match; state_simpl s; congruence.
Qed.

(** A waiter of revision A stays on the dashboard and the orders, and is
    shown none of the pages of an administrator. *)
Theorem nav_confined_A s u ts :
  currentUser s = None -> currentUser (next (handleLogin s)) = Some u ->
  User.role u <> Some Admin ->
  let s' := foldl (flip navigate) (next (handleLogin s)) ts in
  tab s' ∈ [Dash; Orders] /\ staffScreen s' = false /\ itemsScreen s' = false /\
  reportsScreen s' = false.
Proof.
  intros Hn Hu Hr s'.
  assert (isAdmin (next (handleLogin s)) = false) as Ha.
  { unfold isAdmin, Staff.isAdmin. rewrite Hu. by apply bool_decide_eq_false. }
  destruct (navigations_confined navTabs [Dash; Orders] ts _ RevB.navTabs_plain_B Ha)
    as [Ha' Ht].
  { rewrite (handleLogin_tab_A s u) by done. by_compute. }
  change (isAdmin s' = false) in Ha'. change (tab s' ∈ [Dash; Orders]) in Ht.
  unfold staffScreen, itemsScreen, reportsScreen, RevB.staffScreen, RevB.itemsScreen,
    RevB.reportsScreen. change RevB.isAdmin with isAdmin. by rewrite Ha', !andb_false_r.
Qed.

Lemma nav_confined_A_witness :
  let s := (viewOf sampleDb waiter1) <| currentUser := None |>
             <| authPhone := "622222" |> <| authPin := "2222" |> in
  let s' := foldl (flip navigate) (next (handleLogin s)) [State.Staff; Reports; Items] in
  tab s' ∈ [Dash; Orders] /\ staffScreen s' = false /\ itemsScreen s' = false /\
  reportsScreen s' = false.
Proof.
  intros s. apply (nav_confined_A s waiter1); by_compute.
Defined.

End RevA.
